(** * myfund: the fund monitor's trade ledger and signal engine

    A shallow embedding of [main.py]: the ledger queries ([get_current_shares],
    [get_avg_cost], ...), the per-fund decision of [compute_signals], the
    executor [execute_signals], the portfolio snapshot [update_portfolio],
    the selections and counts of the report and the parsing loop of
    [fetch_nav_history], followed by the properties of the specification
    that were checked against them and by further properties of the code.
    Reading files, the network, CSV and HTML text and mail are left out.

    Conventions of the embedding.
    - Numbers.  Net asset values, thresholds and percentages are Python
      floats (or small integers read from the YAML file, which behave as
      the floats of the same value).  The engine is written once over an
      interface [Num] of the operations the code uses, and the properties
      are proved for every instance of it, with the comparisons the code
      makes; the instance of the code is IEEE binary64 ([PrimFloat.float],
      the arithmetic of Python's [float]).  Exact rationals ([Q]) are a
      second instance: they serve for scenarios with round numbers and show
      what the same algorithm gives when nothing is rounded.
    - Exceptions.  A float division by zero raises [ZeroDivisionError] and a
      missing dictionary key raises [KeyError]; both abort [compute_signals].
      Functions that can raise return an [option], [None] being the raise.
    - Dates.  A date is the text "YYYY-MM-DD" or the empty text.  The model
      keeps the day number of a well-formed date ([Some d]) and [None] for the
      empty text; on such dates the text order used by [max] is the order of
      the day numbers, and [(today - strptime(d)).days] is [today - d].
    - Texts built by f-strings ([reason], [block_reasons]) are kept as the
      template and its arguments.
    - The outside world (the ledger file, the clock, the price provider) is
      an explicit argument, [World]. *)

From Stdlib Require Import ZArith QArith String List Bool Lia.
From Stdlib Require Import Floats.
From stdpp Require Import base option list gmap strings.

Local Open Scope string_scope.
Local Open Scope list_scope.
Local Open Scope stdpp_scope.
Local Open Scope Z_scope.

(** ** Numbers *)

(** The operations [main.py] applies to its numbers.  [ndiv] is only used
    where the divisor is known not to be zero or after [is_zero] was tested,
    as Python raises there. *)
Class Num (R : Type) := {
  of_Z : Z -> R;
  nadd : R -> R -> R;
  nsub : R -> R -> R;
  nmul : R -> R -> R;
  ndiv : R -> R -> R;
  nleb : R -> R -> bool;
  nltb : R -> R -> bool;
  is_zero : R -> bool
}.

(** [x / y] of Python on floats: raises when [y] is zero. *)
Definition py_div {R} `{Num R} (x y : R) : option R :=
  if is_zero y then None else Some (ndiv x y).

#[global] Instance Num_Q : Num Q := {
  of_Z := inject_Z;
  nadd := Qplus;
  nsub := Qminus;
  nmul := Qmult;
  ndiv := Qdiv;
  nleb := Qle_bool;
  nltb := fun a b => negb (Qle_bool b a);
  is_zero := fun a => Qeq_bool a 0
}.

(** [float(z)] for a Python integer, as in [delta * nav]: the nearest
    binary64 number, ties to even (exact up to 2^53 in absolute value).
    Beyond the binary64 range, from 2^1024 on, Python raises
    [OverflowError]; the result here is an infinity. *)
Definition float_of_Z (z : Z) : float :=
  SF2Prim (binary_normalize prec emax z 0 false).

#[global] Instance Num_float : Num float := {
  of_Z := float_of_Z;
  nadd := PrimFloat.add;
  nsub := PrimFloat.sub;
  nmul := PrimFloat.mul;
  ndiv := PrimFloat.div;
  nleb := PrimFloat.leb;
  nltb := PrimFloat.ltb;
  is_zero := fun a => PrimFloat.eqb a PrimFloat.zero
}.

(** [a] and [b] are comparable when [a > b] is the negation of [a <= b]:
    so are any two rationals, and any two binary64 numbers neither of which
    is NaN. *)
Definition comparable {R} `{Num R} (a b : R) : Prop :=
  nltb b a = negb (nleb a b).

(** [s in (a, b, ...)] on texts. *)
Definition str_in (s : string) (l : list string) : bool :=
  existsb (String.eqb s) l.

(** ** Data *)

(** An entry of [config["funds"]]. *)
Module FundCfg.
Record t := {
  code : string;
  name : string;
  category : string;
  volatility : string;
  max_shares : Z
}.
End FundCfg.

(** An entry of [strategy["thresholds"]]. *)
Record Threshold (R : Type) := {
  buy_pct : R;
  sell_pct : R
}.
Arguments buy_pct {R} _.
Arguments sell_pct {R} _.

(** [config["strategy"]]; [thresholds] is the dictionary from tier to
    thresholds. *)
Record Strategy (R : Type) := {
  ma_days : Z;
  thresholds : gmap string (Threshold R);
  buy_cooldown_days : Z;
  sell_cooldown_days : Z;
  cooldown_override_extra_pct : R;
  extra_drop_pct : R
}.
Arguments ma_days {R} _.
Arguments thresholds {R} _.
Arguments buy_cooldown_days {R} _.
Arguments sell_cooldown_days {R} _.
Arguments cooldown_override_extra_pct {R} _.
Arguments extra_drop_pct {R} _.

Record Config (R : Type) := {
  strategy : Strategy R;
  funds : list FundCfg.t
}.
Arguments strategy {R} _.
Arguments funds {R} _.

(** A date text: [None] is the empty text, [Some d] the day number. *)
Definition date := option Z.

Section Model.
Context {R : Type} `{Num R}.

(** Texts of [Signal.reason] (and of the ledger's note column). *)
Inductive Reason :=
| RText (s : string)                       (* a plain text; "" at first *)
| RBondBuy (held max_shares : Z)           (* low tier, quota not full *)
| RBondFull (held max_shares : Z)          (* low tier, quota full *)
| RHistoryShort (n : Z)                    (* only n points of history *)
| RSellExtraFirst (dev sell_th : R)        (* sell, extra shares first *)
| RSell (dev sell_th : R)
| RExtraBuy (dev last_buy_nav drop : R)
| RBuy (dev buy_th : R)
| RNoTrigger (dev buy_th sell_th : R).

(** Texts of [Signal.block_reasons]. *)
Inductive Block :=
| BNoPosition
| BSellCooldown (days_since sell_cooldown : Z)
| BExtraUsed (held max_shares : Z)
| BNoLastBuy (held max_shares : Z)
| BDropShort (held max_shares : Z) (drop extra_drop_pct : R)
| BBuyCooldown (days_since buy_cooldown : Z).

(** A row of [trade_log.csv], as [csv.DictReader] yields it and [int] and
    [float] read it. *)
Record TradeRow := {
  row_date : date;
  row_fund_code : string;
  row_action : string;
  row_nav : R;
  row_shares_delta : Z;
  row_note : Reason
}.

(** The ledger: the rows of the file, oldest first. *)
Local Abbreviation TradeLog := (list TradeRow).

(** ** Ledger queries *)

Definition get_current_shares (fund_code : string) (trade_log : TradeLog) : Z :=
  let total :=
    fold_left (fun total row =>
                 if String.eqb (row_fund_code row) fund_code
                 then total + row_shares_delta row
                 else total)
              trade_log 0 in
  Z.max total 0.

(** [None] is Python's [None]; [Some None] is a row whose date is empty. *)
Definition get_last_trade_date (fund_code action : string) (trade_log : TradeLog)
  : option date :=
  row_date <$> List.find (fun row => String.eqb (row_fund_code row) fund_code
                                     && String.eqb (row_action row) action)
                         (rev trade_log).

(** The loop state of [get_avg_cost]: [(total_cost, total_shares)]. *)
Definition avg_cost_step (fund_code : string) (st : R * Z) (row : TradeRow) : R * Z :=
  let '(total_cost, total_shares) := st in
  if String.eqb (row_fund_code row) fund_code then
    let delta := row_shares_delta row in
    let nav := row_nav row in
    if delta >? 0 then
      (nadd total_cost (nmul (of_Z delta) nav), total_shares + delta)
    else if delta <? 0 then
      if total_shares >? 0 then
        let avg := ndiv total_cost (of_Z total_shares) in
        let sold := Z.min (Z.abs delta) total_shares in
        (nsub total_cost (nmul (of_Z sold) avg), total_shares - sold)
      else st
    else st
  else st.

Definition avg_cost_state (fund_code : string) (trade_log : TradeLog) : R * Z :=
  fold_left (avg_cost_step fund_code) trade_log (of_Z 0, 0).

Definition get_avg_cost (fund_code : string) (trade_log : TradeLog) : option R :=
  let '(total_cost, total_shares) := avg_cost_state fund_code trade_log in
  if total_shares >? 0 then Some (ndiv total_cost (of_Z total_shares)) else None.

Definition get_extra_shares (fund_code : string) (trade_log : TradeLog) : Z :=
  let total :=
    fold_left (fun total row =>
                 if String.eqb (row_fund_code row) fund_code
                    && str_in (row_action row) ["extra_buy"; "extra_sell"]
                 then total + row_shares_delta row
                 else total)
              trade_log 0 in
  Z.max total 0.

Definition has_used_extra (fund_code : string) (trade_log : TradeLog) : bool :=
  existsb (fun row => String.eqb (row_fund_code row) fund_code
                      && String.eqb (row_action row) "extra_buy")
          trade_log.

Definition get_last_buy_nav (fund_code : string) (trade_log : TradeLog) : option R :=
  row_nav <$> List.find (fun row => String.eqb (row_fund_code row) fund_code
                                    && str_in (row_action row) ["buy"; "extra_buy"])
                        (rev trade_log).

(** Not called by the engine; kept as the source has it. *)
Definition get_last_action_date (fund_code : string) (trade_log : TradeLog)
  : option date :=
  row_date <$> List.find (fun row => String.eqb (row_fund_code row) fund_code
                                     && str_in (row_action row)
                                          ["buy"; "sell"; "extra_buy"; "extra_sell"])
                         (rev trade_log).

(** ** Signals *)

Record Signal := {
  fund_code : string;
  fund_name : string;
  category : string;
  current_nav : R;
  current_date : date;
  ma250 : option R;
  deviation_pct : option R;
  held_shares : Z;
  extra_shares : Z;
  max_shares : Z;
  avg_cost : option R;
  pnl_pct : option R;
  signal_type : string;
  can_execute : bool;
  reason : Reason;
  block_reasons : list Block
}.

(** [Signal.__init__] *)
Definition Signal_init (fund_code fund_name category : string) : Signal := {|
  fund_code := fund_code; fund_name := fund_name; category := category;
  current_nav := of_Z 0; current_date := None;
  ma250 := None; deviation_pct := None;
  held_shares := 0; extra_shares := 0; max_shares := 0;
  avg_cost := None; pnl_pct := None;
  signal_type := ""; can_execute := false;
  reason := RText ""; block_reasons := []
|}.

(** Attribute assignments [sig.x = v]. *)
Definition set_current (d : date) (v : R) (s : Signal) : Signal := {|
  fund_code := fund_code s; fund_name := fund_name s; category := category s;
  current_nav := v; current_date := d;
  ma250 := ma250 s; deviation_pct := deviation_pct s;
  held_shares := held_shares s; extra_shares := extra_shares s;
  max_shares := max_shares s; avg_cost := avg_cost s; pnl_pct := pnl_pct s;
  signal_type := signal_type s; can_execute := can_execute s;
  reason := reason s; block_reasons := block_reasons s |}.

Definition set_ma250 (v : option R) (s : Signal) : Signal := {|
  fund_code := fund_code s; fund_name := fund_name s; category := category s;
  current_nav := current_nav s; current_date := current_date s;
  ma250 := v; deviation_pct := deviation_pct s;
  held_shares := held_shares s; extra_shares := extra_shares s;
  max_shares := max_shares s; avg_cost := avg_cost s; pnl_pct := pnl_pct s;
  signal_type := signal_type s; can_execute := can_execute s;
  reason := reason s; block_reasons := block_reasons s |}.

Definition set_deviation_pct (v : option R) (s : Signal) : Signal := {|
  fund_code := fund_code s; fund_name := fund_name s; category := category s;
  current_nav := current_nav s; current_date := current_date s;
  ma250 := ma250 s; deviation_pct := v;
  held_shares := held_shares s; extra_shares := extra_shares s;
  max_shares := max_shares s; avg_cost := avg_cost s; pnl_pct := pnl_pct s;
  signal_type := signal_type s; can_execute := can_execute s;
  reason := reason s; block_reasons := block_reasons s |}.

Definition set_held_shares (v : Z) (s : Signal) : Signal := {|
  fund_code := fund_code s; fund_name := fund_name s; category := category s;
  current_nav := current_nav s; current_date := current_date s;
  ma250 := ma250 s; deviation_pct := deviation_pct s;
  held_shares := v; extra_shares := extra_shares s;
  max_shares := max_shares s; avg_cost := avg_cost s; pnl_pct := pnl_pct s;
  signal_type := signal_type s; can_execute := can_execute s;
  reason := reason s; block_reasons := block_reasons s |}.

Definition set_extra_shares (v : Z) (s : Signal) : Signal := {|
  fund_code := fund_code s; fund_name := fund_name s; category := category s;
  current_nav := current_nav s; current_date := current_date s;
  ma250 := ma250 s; deviation_pct := deviation_pct s;
  held_shares := held_shares s; extra_shares := v;
  max_shares := max_shares s; avg_cost := avg_cost s; pnl_pct := pnl_pct s;
  signal_type := signal_type s; can_execute := can_execute s;
  reason := reason s; block_reasons := block_reasons s |}.

Definition set_max_shares (v : Z) (s : Signal) : Signal := {|
  fund_code := fund_code s; fund_name := fund_name s; category := category s;
  current_nav := current_nav s; current_date := current_date s;
  ma250 := ma250 s; deviation_pct := deviation_pct s;
  held_shares := held_shares s; extra_shares := extra_shares s;
  max_shares := v; avg_cost := avg_cost s; pnl_pct := pnl_pct s;
  signal_type := signal_type s; can_execute := can_execute s;
  reason := reason s; block_reasons := block_reasons s |}.

Definition set_avg_cost (v : option R) (s : Signal) : Signal := {|
  fund_code := fund_code s; fund_name := fund_name s; category := category s;
  current_nav := current_nav s; current_date := current_date s;
  ma250 := ma250 s; deviation_pct := deviation_pct s;
  held_shares := held_shares s; extra_shares := extra_shares s;
  max_shares := max_shares s; avg_cost := v; pnl_pct := pnl_pct s;
  signal_type := signal_type s; can_execute := can_execute s;
  reason := reason s; block_reasons := block_reasons s |}.

Definition set_pnl_pct (v : option R) (s : Signal) : Signal := {|
  fund_code := fund_code s; fund_name := fund_name s; category := category s;
  current_nav := current_nav s; current_date := current_date s;
  ma250 := ma250 s; deviation_pct := deviation_pct s;
  held_shares := held_shares s; extra_shares := extra_shares s;
  max_shares := max_shares s; avg_cost := avg_cost s; pnl_pct := v;
  signal_type := signal_type s; can_execute := can_execute s;
  reason := reason s; block_reasons := block_reasons s |}.

(** [sig.signal_type = t; sig.reason = r], always assigned together. *)
Definition set_signal (t : string) (r : Reason) (s : Signal) : Signal := {|
  fund_code := fund_code s; fund_name := fund_name s; category := category s;
  current_nav := current_nav s; current_date := current_date s;
  ma250 := ma250 s; deviation_pct := deviation_pct s;
  held_shares := held_shares s; extra_shares := extra_shares s;
  max_shares := max_shares s; avg_cost := avg_cost s; pnl_pct := pnl_pct s;
  signal_type := t; can_execute := can_execute s;
  reason := r; block_reasons := block_reasons s |}.

Definition set_can_execute (v : bool) (s : Signal) : Signal := {|
  fund_code := fund_code s; fund_name := fund_name s; category := category s;
  current_nav := current_nav s; current_date := current_date s;
  ma250 := ma250 s; deviation_pct := deviation_pct s;
  held_shares := held_shares s; extra_shares := extra_shares s;
  max_shares := max_shares s; avg_cost := avg_cost s; pnl_pct := pnl_pct s;
  signal_type := signal_type s; can_execute := v;
  reason := reason s; block_reasons := block_reasons s |}.

Definition set_block_reasons (v : list Block) (s : Signal) : Signal := {|
  fund_code := fund_code s; fund_name := fund_name s; category := category s;
  current_nav := current_nav s; current_date := current_date s;
  ma250 := ma250 s; deviation_pct := deviation_pct s;
  held_shares := held_shares s; extra_shares := extra_shares s;
  max_shares := max_shares s; avg_cost := avg_cost s; pnl_pct := pnl_pct s;
  signal_type := signal_type s; can_execute := can_execute s;
  reason := reason s; block_reasons := v |}.

(** ** The outside world *)

(** An element of the list [fetch_nav_history] returns; it keeps only
    entries whose date is not empty. *)
Record PricePoint := {
  pp_date : Z;
  pp_nav : R
}.

(** What a run reads: the ledger file ([load_trade_log]), the clock
    ([datetime.now], as a day number) and the price provider
    ([fetch_nav_history code days], ascending by date; the empty list when
    the request fails). *)
Record World := {
  trade_log : TradeLog;
  today : Z;
  fetch_nav_history : string -> Z -> list PricePoint
}.

Definition fetch_current_nav (w : World) (fund_code : string) : option (Z * R) :=
  let records := fetch_nav_history w fund_code 3 in
  match last records with
  | Some latest => Some (pp_date latest, pp_nav latest)
  | None => None
  end.

(** ** Python built-ins used by the engine *)

(** [l[i:]] *)
Definition slice_from {A} (l : list A) (i : Z) : list A :=
  let n := Z.of_nat (length l) in
  if i <? 0 then skipn (Z.to_nat (Z.max 0 (n + i))) l
  else skipn (Z.to_nat i) l.

(** [sum(l)]: from 0, left to right (CPython from 3.12 on also carries a
    correction term that can change the last bits of a sum of floats). *)
Definition py_sum (l : list R) : R := fold_left nadd l (of_Z 0).

(** [filter(None, l)] on dates: drops [None] and the empty text. *)
Definition filter_truthy (l : list (option date)) : list Z :=
  flat_map (fun o => match o with Some (Some d) => [d] | _ => [] end) l.

(** [max(l, default=None)] *)
Definition py_max (l : list Z) : option Z :=
  match l with
  | [] => None
  | d :: l' => Some (fold_left Z.max l' d)
  end.

(** ** The decision for one fund: the body of the loop of [compute_signals] *)

(** The branch [if sig.deviation_pct >= sell_th]. *)
Definition sell_branch (st : Strategy R) (w : World) (code : string)
    (dev sell_th : R) (sig : Signal) : Signal :=
  let blocks : list Block := [] in
  let total_held := held_shares sig + extra_shares sig in
  let blocks := if total_held <=? 0 then blocks ++ [BNoPosition] else blocks in
  let last_sell := get_last_trade_date code "sell" (trade_log w) in
  (* the loop over reversed(trade_log) written out in the source *)
  let last_extra_sell_date := get_last_trade_date code "extra_sell" (trade_log w) in
  let recent_sell := py_max (filter_truthy [last_sell; last_extra_sell_date]) in
  let blocks :=
    match recent_sell with
    | Some d =>
        let days_since := today w - d in
        if days_since <? sell_cooldown_days st
        then blocks ++ [BSellCooldown days_since (sell_cooldown_days st)]
        else blocks
    | None => blocks
    end in
  let sig := set_block_reasons blocks sig in
  let sig := set_can_execute (Z.of_nat (length blocks) =? 0) sig in
  if extra_shares sig >? 0 then set_signal "extra_sell" (RSellExtraFirst dev sell_th) sig
  else if held_shares sig >? 0 then set_signal "sell" (RSell dev sell_th) sig
  else set_signal "sell" (RSell dev sell_th) sig.

(** [(sig.current_nav - last_buy_nav) / last_buy_nav * 100] *)
Definition drop_from_last (current_nav last_buy_nav : R) : option R :=
  q ← py_div (nsub current_nav last_buy_nav) last_buy_nav;
  Some (nmul q (of_Z 100)).

(** First block of the buy branch: is the regular quota full, and if so
    may the one extra buy be used?  Yields the signal and [blocks]. *)
Definition buy_quota_check (st : Strategy R) (w : World) (code : string)
    (max_shares : Z) (dev buy_th : R) (sig : Signal)
  : option (Signal * list Block) :=
  let blocks : list Block := [] in
  let quota_full := held_shares sig >=? max_shares in
  if quota_full then
    let used_extra := has_used_extra code (trade_log w) in
    let last_buy_nav := get_last_buy_nav code (trade_log w) in
    if used_extra then
      Some (sig, blocks ++ [BExtraUsed (held_shares sig) max_shares])
    else
      match last_buy_nav with
      | None => Some (sig, blocks ++ [BNoLastBuy (held_shares sig) max_shares])
      | Some last_buy_nav =>
          drop ← drop_from_last (current_nav sig) last_buy_nav;
          if nltb (extra_drop_pct st) drop then
            Some (sig, blocks ++ [BDropShort (held_shares sig) max_shares
                                             drop (extra_drop_pct st)])
          else
            Some (set_signal "extra_buy" (RExtraBuy dev last_buy_nav drop) sig,
                  blocks)
      end
  else Some (set_signal "buy" (RBuy dev buy_th) sig, blocks).

(** Second block of the buy branch: the cooldown, for a buy or an extra
    buy; it can be overridden by a deep enough deviation. *)
Definition buy_cooldown_check (st : Strategy R) (w : World) (code : string)
    (dev buy_th : R) (sig : Signal) (blocks : list Block) : list Block :=
  if str_in (signal_type sig) ["buy"; "extra_buy"] then
    let last_buy := get_last_trade_date code "buy" (trade_log w) in
    (* the loop over reversed(trade_log) written out in the source *)
    let last_extra_buy_date := get_last_trade_date code "extra_buy" (trade_log w) in
    let recent_buy := py_max (filter_truthy [last_buy; last_extra_buy_date]) in
    match recent_buy with
    | Some d =>
        let days_since := today w - d in
        if days_since <? buy_cooldown_days st then
          if nleb dev (nsub buy_th (cooldown_override_extra_pct st))
          then blocks
          else blocks ++ [BBuyCooldown days_since (buy_cooldown_days st)]
        else blocks
    | None => blocks
    end
  else blocks.

(** The branch [elif sig.deviation_pct <= buy_th]. *)
Definition buy_branch (st : Strategy R) (w : World) (code : string)
    (max_shares : Z) (dev buy_th : R) (sig : Signal) : option Signal :=
  '(sig, blocks) ← buy_quota_check st w code max_shares dev buy_th sig;
  let blocks := buy_cooldown_check st w code dev buy_th sig blocks in
  let sig := set_block_reasons blocks sig in
  Some (set_can_execute ((Z.of_nat (length blocks) =? 0)
                         && str_in (signal_type sig) ["buy"; "extra_buy"]) sig).

(** [sum(nav_values[-window:]) / window] *)
Definition moving_average (nav_values : list R) (window : Z) : option R :=
  if window =? 0 then None
  else Some (ndiv (py_sum (slice_from nav_values (- window))) (of_Z window)).

(** [(current_nav - ma250) / ma250 * 100] *)
Definition deviation (current_nav ma : R) : option R :=
  q ← py_div (nsub current_nav ma) ma;
  Some (nmul q (of_Z 100)).

(** [thresholds.get(vol, thresholds["mid"])]: the default is evaluated
    first, so a dictionary without "mid" raises. *)
Definition get_thresholds (st : Strategy R) (vol : string) : option (Threshold R) :=
  mid ← thresholds st !! "mid";
  Some (default mid (thresholds st !! vol)).

Definition compute_signal (st : Strategy R) (w : World) (fund_cfg : FundCfg.t)
  : option Signal :=
  let code := FundCfg.code fund_cfg in
  let vol := FundCfg.volatility fund_cfg in
  let max_shares := FundCfg.max_shares fund_cfg in
  let sig := Signal_init code (FundCfg.name fund_cfg) (FundCfg.category fund_cfg) in
  let sig := set_max_shares max_shares sig in
  if String.eqb vol "low" then
    let held := get_current_shares code (trade_log w) in
    let sig := set_held_shares held sig in
    let sig :=
      if held <? max_shares
      then set_can_execute true (set_signal "hold_buy" (RBondBuy held max_shares) sig)
      else set_signal "none" (RBondFull held max_shares) sig in
    let sig :=
      match fetch_current_nav w code with
      | Some (d, v) => set_current (Some d) v sig
      | None => sig
      end in
    Some sig
  else
    let history := fetch_nav_history w code (ma_days st + 30) in
    let len := Z.of_nat (length history) in
    if len <? 60 then
      Some (set_signal "none" (RHistoryShort len) sig)
    else
      (* history[-1]: the list has 60 elements or more *)
      latest ← last history;
      let sig := set_current (Some (pp_date latest)) (pp_nav latest) sig in
      let nav_values := map pp_nav history in
      let window := Z.min (Z.of_nat (length nav_values)) (ma_days st) in
      ma ← moving_average nav_values window;
      let sig := set_ma250 (Some ma) sig in
      dev ← deviation (current_nav sig) ma;
      let sig := set_deviation_pct (Some dev) sig in
      let sig := set_held_shares (get_current_shares code (trade_log w)) sig in
      let sig := set_extra_shares (get_extra_shares code (trade_log w)) sig in
      let sig := set_avg_cost (get_avg_cost code (trade_log w)) sig in
      let sig :=
        match avg_cost sig with
        | Some c =>
            if negb (is_zero c) && nltb (of_Z 0) c
            then set_pnl_pct (Some (nmul (ndiv (nsub (current_nav sig) c) c)
                                         (of_Z 100))) sig
            else sig
        | None => sig
        end in
      th ← get_thresholds st vol;
      let buy_th := buy_pct th in
      let sell_th := sell_pct th in
      if nleb sell_th dev then
        Some (sell_branch st w code dev sell_th sig)
      else if nleb dev buy_th then
        buy_branch st w code max_shares dev buy_th sig
      else
        Some (set_signal "none" (RNoTrigger dev buy_th sell_th) sig).

(** [compute_signals]: one signal per configured fund, in order; an
    exception for any fund aborts the whole call. *)
Definition compute_signals (config : Config R) (w : World) : option (list Signal) :=
  mapM (compute_signal (strategy config) w) (funds config).

(** ** The executor *)

Definition append_trade_log (d : date) (fund_code action : string) (nav : R)
    (shares_delta : Z) (note : Reason) (log : TradeLog) : TradeLog :=
  log ++ [{| row_date := d; row_fund_code := fund_code; row_action := action;
             row_nav := nav; row_shares_delta := shares_delta;
             row_note := note |}].

(** One turn of the loop of [execute_signals]; the state is
    [(executed, ledger file)]. *)
Definition execute_step (dry_run : bool) (acc : list Signal * TradeLog)
    (sig : Signal) : list Signal * TradeLog :=
  let '(executed, log) := acc in
  if negb (can_execute sig) then acc
  else if str_in (signal_type sig) ["buy"; "hold_buy"] then
    (executed ++ [sig],
     if negb dry_run
     then append_trade_log (current_date sig) (fund_code sig) "buy"
                           (current_nav sig) 1 (reason sig) log
     else log)
  else if String.eqb (signal_type sig) "extra_buy" then
    (executed ++ [sig],
     if negb dry_run
     then append_trade_log (current_date sig) (fund_code sig) "extra_buy"
                           (current_nav sig) 1 (reason sig) log
     else log)
  else if String.eqb (signal_type sig) "sell" then
    (executed ++ [sig],
     if negb dry_run
     then append_trade_log (current_date sig) (fund_code sig) "sell"
                           (current_nav sig) (-1) (reason sig) log
     else log)
  else if String.eqb (signal_type sig) "extra_sell" then
    (executed ++ [sig],
     if negb dry_run
     then append_trade_log (current_date sig) (fund_code sig) "extra_sell"
                           (current_nav sig) (-1) (reason sig) log
     else log)
  else acc.

Definition execute_signals (signals : list Signal) (dry_run : bool)
    (log : TradeLog) : list Signal * TradeLog :=
  fold_left (execute_step dry_run) signals ([], log).

(** Steps 1 and 2 of [main]: the signals, the executed ones and the ledger
    file afterwards. *)
Definition run (config : Config R) (w : World) (dry_run : bool)
  : option (list Signal * list Signal * TradeLog) :=
  signals ← compute_signals config w;
  let '(executed, log) := execute_signals signals dry_run (trade_log w) in
  Some (signals, executed, log).

End Model.

Arguments Reason : clear implicits.
Arguments Block : clear implicits.
Arguments TradeRow : clear implicits.
Arguments Signal : clear implicits.
Arguments PricePoint : clear implicits.
Arguments World : clear implicits.

Abbreviation TradeLog R := (list (TradeRow R)) (only parsing).

(** ** Vocabulary of the properties *)

(** The six documented signal types (the comment of [Signal.signal_type]). *)
Definition signal_types : list string :=
  ["buy"; "sell"; "extra_buy"; "extra_sell"; "hold_buy"; "none"].

(** The types for which [execute_signals] has a branch. *)
Definition executable_types : list string :=
  ["hold_buy"; "buy"; "extra_buy"; "sell"; "extra_sell"].

(** The more recent of two dates, either of which may be missing ([None])
    or empty ([Some None]). *)
Definition more_recent (a b : option date) : option Z :=
  match a, b with
  | Some (Some x), Some (Some y) => Some (Z.max x y)
  | Some (Some x), _ => Some x
  | _, Some (Some y) => Some y
  | _, _ => None
  end.

Section Vocabulary.
Context {R : Type} `{Num R}.

(** The signal of a timed fund as it stands before the sell and buy
    thresholds are looked at: prices, average, deviation and holdings are
    filled in, the verdict is still the initial one. *)
Definition measured_signal (w : World R) (fund_cfg : FundCfg.t)
    (latest : PricePoint R) (ma dev : R) : Signal R :=
  let code := FundCfg.code fund_cfg in
  let sig := Signal_init code (FundCfg.name fund_cfg) (FundCfg.category fund_cfg) in
  let sig := set_max_shares (FundCfg.max_shares fund_cfg) sig in
  let sig := set_current (Some (pp_date latest)) (pp_nav latest) sig in
  let sig := set_ma250 (Some ma) sig in
  let sig := set_deviation_pct (Some dev) sig in
  let sig := set_held_shares (get_current_shares code (trade_log w)) sig in
  let sig := set_extra_shares (get_extra_shares code (trade_log w)) sig in
  let sig := set_avg_cost (get_avg_cost code (trade_log w)) sig in
  match avg_cost sig with
  | Some c =>
      if negb (is_zero c) && nltb (of_Z 0) c
      then set_pnl_pct (Some (nmul (ndiv (nsub (current_nav sig) c) c) (of_Z 100))) sig
      else sig
  | None => sig
  end.

(** The three-way choice that ends the loop body: sell, buy, or nothing. *)
Definition verdict (st : Strategy R) (w : World R) (fund_cfg : FundCfg.t)
    (dev : R) (th : Threshold R) (base : Signal R) : option (Signal R) :=
  if nleb (sell_pct th) dev then
    Some (sell_branch st w (FundCfg.code fund_cfg) dev (sell_pct th) base)
  else if nleb dev (buy_pct th) then
    buy_branch st w (FundCfg.code fund_cfg) (FundCfg.max_shares fund_cfg)
               dev (buy_pct th) base
  else
    Some (set_signal "none" (RNoTrigger dev (buy_pct th) (sell_pct th)) base).

(** The rows one turn of the executor's loop appends for a signal. *)
Definition appended_rows (dry_run : bool) (sig : Signal R) : TradeLog R :=
  snd (execute_step dry_run ([], []) sig).

(** The number of [extra_buy] rows of a fund in a ledger. *)
Definition count_extra_buy (fund_code : string) (log : TradeLog R) : nat :=
  length (filter (fun row => row_fund_code row = fund_code
                             /\ row_action row = "extra_buy") log).

(** A ledger that successive runs of [main] can produce from [log0]: each
    run reads the ledger the previous one left, under a configuration that
    lists every fund code once. *)
Inductive reachable (log0 : TradeLog R) : TradeLog R -> Prop :=
| reachable_start : reachable log0 log0
| reachable_run log config w dry_run signals executed log' :
    reachable log0 log ->
    trade_log w = log ->
    NoDup (map FundCfg.code (funds config)) ->
    run config w dry_run = Some (signals, executed, log') ->
    reachable log0 log'.

End Vocabulary.

(** What the specification says [currentShares] is: the sum of
    [shares_delta] over the fund's rows whose action is buy or sell,
    floored at 0. *)
Definition current_shares_spec {R} (fund_code : string) (log : TradeLog R) : Z :=
  Z.max 0
    (fold_right Z.add 0
       (map row_shares_delta
          (filter (fun row => row_fund_code row = fund_code
                              /\ (row_action row = "buy" \/ row_action row = "sell"))
                  log))).

(** What the specification says [extraShares] is: the sum of
    [shares_delta] over the fund's rows whose action is extra_buy or
    extra_sell, floored at 0. *)
Definition extra_shares_spec {R} (fund_code : string) (log : TradeLog R) : Z :=
  Z.max 0
    (fold_right Z.add 0
       (map row_shares_delta
          (filter (fun row => row_fund_code row = fund_code
                              /\ (row_action row = "extra_buy"
                                  \/ row_action row = "extra_sell"))
                  log))).

(** The sum of [shares_delta] over all the rows of a fund, whatever their
    action, floored at 0. *)
Definition all_shares {R} (fund_code : string) (log : TradeLog R) : Z :=
  Z.max 0
    (fold_right Z.add 0
       (map row_shares_delta
          (filter (fun row => row_fund_code row = fund_code) log))).

(** The shares the running average of [get_avg_cost] still counts as
    held after replaying the ledger. *)
Definition held_units {R} `{Num R} (fund_code : string) (log : TradeLog R) : Z :=
  snd (avg_cost_state fund_code log).

(** ** The portfolio snapshot: [update_portfolio] *)

Module Portfolio.
Section Snapshot.
Context {R : Type} `{Num R}.

(** A row of [portfolio.csv].  [avg_cost] is the text of the average to
    four decimals, or the empty text ([None]) when there is no average or
    the average is zero; [last_buy_date] is the date text, empty ([None])
    when there is no buy on record or its date is empty. *)
Record row := {
  fund_code : string;
  fund_name : string;
  category : string;
  regular_shares : Z;
  max_shares : Z;
  extra_shares : Z;
  total_shares : Z;
  avg_cost : option R;
  last_buy_date : date
}.

(** The loop over [reversed(trade_log)] in [update_portfolio]. *)
Definition last_buy (code : string) (trade_log : TradeLog R) : option date :=
  row_date <$> List.find (fun row => String.eqb (row_fund_code row) code
                                     && str_in (row_action row) ["buy"; "extra_buy"])
                         (rev trade_log).

(** The body of the loop over [config["funds"]]. *)
Definition fund_row (trade_log : TradeLog R) (fund_cfg : FundCfg.t) : row :=
  let code := FundCfg.code fund_cfg in
  let regular := get_current_shares code trade_log in
  let extra := get_extra_shares code trade_log in
  let avg_cost := get_avg_cost code trade_log in
  {| fund_code := code;
     fund_name := FundCfg.name fund_cfg;
     category := FundCfg.category fund_cfg;
     regular_shares := regular;
     max_shares := FundCfg.max_shares fund_cfg;
     extra_shares := extra;
     total_shares := regular + extra;
     avg_cost := match avg_cost with
                 | Some c => if is_zero c then None else Some c
                 | None => None
                 end;
     last_buy_date := match last_buy code trade_log with
                      | Some (Some d) => Some d
                      | _ => None
                      end |}.

(** The rows [update_portfolio] writes for a ledger. *)
Definition update_portfolio (config : Config R) (trade_log : TradeLog R) : list row :=
  map (fund_row trade_log) (funds config).

(** The two totals it prints. *)
Definition total_regular (rows : list row) : Z :=
  fold_left Z.add (map regular_shares rows) 0.
Definition total_extra (rows : list row) : Z :=
  fold_left Z.add (map extra_shares rows) 0.

End Snapshot.
Arguments row : clear implicits.
End Portfolio.

(** ** The report's selections and counts: [build_email_html], [main] *)

Module Report.
Section Counts.
Context {R : Type} `{Num R}.

(** The list comprehensions of [build_email_html]. *)
Definition buy_signals (signals : list (Signal R)) : list (Signal R) :=
  List.filter (fun s => str_in (signal_type s) ["buy"; "hold_buy"; "extra_buy"]) signals.
Definition sell_signals (signals : list (Signal R)) : list (Signal R) :=
  List.filter (fun s => str_in (signal_type s) ["sell"; "extra_sell"]) signals.
Definition action_signals (signals : list (Signal R)) : list (Signal R) :=
  List.filter (fun s => negb (String.eqb (signal_type s) "none")) signals.
Definition held_funds (signals : list (Signal R)) : list (Signal R) :=
  List.filter (fun s => (held_shares s >? 0) || (extra_shares s >? 0)) signals.

(** The signals whose table row reads "executed" ([exec_text]). *)
Definition marked_executed (signals : list (Signal R)) : list (Signal R) :=
  List.filter (fun s => can_execute s) signals.

(** The counts of [main]. *)
Definition action_count (signals : list (Signal R)) : Z :=
  Z.of_nat (length (action_signals signals)).
Definition buy_count (executed : list (Signal R)) : Z :=
  Z.of_nat (length (buy_signals executed)).
Definition sell_count (executed : list (Signal R)) : Z :=
  Z.of_nat (length (sell_signals executed)).

(** [if action_count > 0 or args.report_all]: is a report built (and
    mailed or saved)? *)
Definition report_built (signals : list (Signal R)) (report_all : bool) : bool :=
  (action_count signals >? 0) || report_all.

End Counts.
End Report.

(** ** The provider's answer: the parsing loop of [fetch_nav_history] *)

Module Provider.
Section Parse.
Context {R : Type}.

(** [float(text)]: [None] is [ValueError]. *)
Variable float_of_string : string -> option R.

(** An element of the result: [{"date": ..., "nav": ...}]. *)
Record record := {
  date : string;
  nav : R
}.

(** One turn of the loop over [LSJZList]; an item is a JSON object with
    text values. *)
Definition parse_item (records : list record) (item : gmap string string)
  : list record :=
  let date_str := default "" (item !! "FSRQ") in
  let nav_str := default "" (item !! "DWJZ") in
  if negb (String.eqb date_str "") && negb (String.eqb nav_str "") then
    match float_of_string nav_str with
    | Some v => records ++ [{| date := date_str; nav := v |}]
    | None => records
    end
  else records.

(** The records returned for the decoded list: parsed in order, then
    reversed. *)
Definition parse_history (lsjz_list : list (gmap string string)) : list record :=
  rev (fold_left parse_item lsjz_list []).

(** [fetch_current_nav] on such an answer: its last record. *)
Definition current_of (records : list record) : option (string * R) :=
  match last records with
  | Some latest => Some (date latest, nav latest)
  | None => None
  end.

End Parse.
Arguments record : clear implicits.
End Provider.

(** ** More vocabulary *)

Section Vocabulary2.
Context {R : Type} `{Num R}.

(** The rows of one fund, in ledger order. *)
Definition fund_rows (fund_code : string) (log : TradeLog R) : TradeLog R :=
  filter (fun row => row_fund_code row = fund_code) log.

(** A signal the executor acts on. *)
Definition acted_on (sig : Signal R) : bool :=
  can_execute sig && str_in (signal_type sig) executable_types.

(** The row the executor appends for such a signal. *)
Definition row_for (sig : Signal R) : TradeRow R := {|
  row_date := current_date sig;
  row_fund_code := fund_code sig;
  row_action := if str_in (signal_type sig) ["buy"; "hold_buy"] then "buy"
                else signal_type sig;
  row_nav := current_nav sig;
  row_shares_delta := if str_in (signal_type sig) ["sell"; "extra_sell"] then -1
                      else 1;
  row_note := reason sig
|}.

(** The plain sums of [shares_delta], not floored: over the buy and sell
    rows of a fund, and over its extra_buy and extra_sell rows. *)
Definition regular_sum (fund_code : string) (log : TradeLog R) : Z :=
  fold_right Z.add 0
    (map row_shares_delta
       (filter (fun row => row_fund_code row = fund_code
                           /\ (row_action row = "buy" \/ row_action row = "sell"))
               log)).
Definition extra_sum (fund_code : string) (log : TradeLog R) : Z :=
  fold_right Z.add 0
    (map row_shares_delta
       (filter (fun row => row_fund_code row = fund_code
                           /\ (row_action row = "extra_buy"
                               \/ row_action row = "extra_sell"))
               log)).

(** A row as the executor writes them: one share bought or sold. *)
Definition executor_row (row : TradeRow R) : Prop :=
  (row_shares_delta row = 1 /\ In (row_action row) ["buy"; "extra_buy"]) \/
  (row_shares_delta row = -1 /\ In (row_action row) ["sell"; "extra_sell"]).

(** A ledger in which nothing was sold that was not held: every row is an
    executor's row and, for every fund, neither sum is negative and the
    extra sum is at most 1. *)
Definition sound_ledger (log : TradeLog R) : Prop :=
  Forall executor_row log /\
  forall f, 0 <= regular_sum f log /\ 0 <= extra_sum f log <= 1.

End Vocabulary2.

(** ** Scenarios over the rationals

    Concrete configurations, ledgers and price histories on which the
    properties below are exercised.  Days are numbered from 0; "today" is
    day 1000 unless said otherwise. *)

Module Scenario.

(** Thresholds of -15 % and +20 % for tier "mid"; cooldowns of 30 days; the
    cooldown is overridden 5 points below the buy threshold; an extra buy
    needs [drop_from_last <= 8]. *)
Definition strat : Strategy Q := {|
  ma_days := 250;
  thresholds := <["mid" := {| buy_pct := (-15)%Q; sell_pct := 20%Q |}]> ∅;
  buy_cooldown_days := 30;
  sell_cooldown_days := 30;
  cooldown_override_extra_pct := 5%Q;
  extra_drop_pct := 8%Q
|}.

Definition fund_x : FundCfg.t := {|
  FundCfg.code := "X"; FundCfg.name := "Fund X"; FundCfg.category := "equity";
  FundCfg.volatility := "mid"; FundCfg.max_shares := 10
|}.

Definition bond_b : FundCfg.t := {|
  FundCfg.code := "B"; FundCfg.name := "Bond B"; FundCfg.category := "bond";
  FundCfg.volatility := "low"; FundCfg.max_shares := 5
|}.

Definition config : Config Q := {|
  strategy := strat;
  funds := [fund_x]
|}.

(** A ledger row of one share. *)
Definition row (d : Z) (code action : string) (nav : Q) (delta : Z) : TradeRow Q := {|
  row_date := Some d; row_fund_code := code; row_action := action;
  row_nav := nav; row_shares_delta := delta; row_note := RText ""
|}.

(** [n] daily prices [v] from day [d0] on, then the price [v_last]. *)
Definition prices (d0 : Z) (n : nat) (v v_last : Q) : list (PricePoint Q) :=
  map (fun i => {| pp_date := d0 + Z.of_nat i; pp_nav := v |}) (seq 0 n)
  ++ [{| pp_date := d0 + Z.of_nat n; pp_nav := v_last |}].

Definition world (log : TradeLog Q) (now : Z) (history : list (PricePoint Q))
  : World Q := {|
  trade_log := log;
  today := now;
  fetch_nav_history := fun _ _ => history
|}.

(** Ten shares of X bought at 1.000 on day 0: the regular quota is full. *)
Definition full_quota : TradeLog Q := repeat (row 0 "X" "buy" 1 1) 10.

(** 59 days at 1.2, then 0.9: 10 % below the last buy, 24.7 % below the
    average. *)
Definition dip : list (PricePoint Q) := prices 940 59 (12 # 10) (9 # 10).

(** The quota is full and the price dipped: the end-to-end scenario of the
    specification. *)
Definition extra_buy_world : World Q := world full_quota 1000 dip.

(** The same after the extra buy was executed (on day 999). *)
Definition after_extra_buy : TradeLog Q :=
  full_quota ++ [row 999 "X" "extra_buy" (9 # 10) 1].

(** 59 days at 5921/59, then 79: the average is 100, the deviation -21. *)
Definition deviation_21 : list (PricePoint Q) := prices 940 59 (5921 # 59) 79.

(** One share of X, bought ten days ago. *)
Definition bought_10_days_ago : TradeLog Q := [row 990 "X" "buy" 100 1].

(** Only 40 prices. *)
Definition short_history : list (PricePoint Q) := prices 960 39 1 1.

(** 60 days at price 0 (a provider that reports no value). *)
Definition worthless : list (PricePoint Q) := prices 940 59 0 0.

(** A strategy whose thresholds list tier "high" only, and a fund of that
    tier. *)
Definition strat_high_only : Strategy Q := {|
  ma_days := 250;
  thresholds := <["high" := {| buy_pct := (-20)%Q; sell_pct := 25%Q |}]> ∅;
  buy_cooldown_days := 30;
  sell_cooldown_days := 30;
  cooldown_override_extra_pct := 5%Q;
  extra_drop_pct := 8%Q
|}.

Definition fund_h : FundCfg.t := {|
  FundCfg.code := "H"; FundCfg.name := "Fund H"; FundCfg.category := "commodity";
  FundCfg.volatility := "high"; FundCfg.max_shares := 10
|}.

(** The ledger after one run, from the empty ledger, of the bond fund
    alone. *)
Definition ledger_b : TradeLog Q :=
  match run {| strategy := strat; funds := [bond_b] |}
            (world [] 1000 short_history) false with
  | Some (_, _, log') => log'
  | None => []
  end.

(** The signal computed for the bond fund in a world. *)
Definition signal_b (w : World Q) : Signal Q :=
  default (Signal_init "B" "Bond B" "bond") (compute_signal strat w bond_b).

(** A row of the bond fund. *)
Definition bond_row : TradeRow Q := row 5 "B" "buy" 1 1.

(** The signal computed for fund X in a world (the initial signal if the
    computation raises). *)
Definition signal_x (w : World Q) : Signal Q :=
  default (Signal_init "X" "Fund X" "equity") (compute_signal strat w fund_x).

(** The deviation that signal carries (0 if none). *)
Definition deviation_x (w : World Q) : Q :=
  default 0%Q (deviation_pct (signal_x w)).

(** The ledger file after a run of [main] on day [now] with prices [dip]. *)
Definition ledger_after (log : TradeLog Q) (now : Z) : TradeLog Q :=
  match run config (world log now dip) false with
  | Some (_, _, log') => log'
  | None => log
  end.

End Scenario.

(** ** Scenarios in binary64

    Scenarios with the numbers Python computes with.  0.9 and 0.1 are the
    nearest binary64 values; the price histories are chosen so that their
    sums are rounded at most once. *)

Module Binary64.

Definition nav_0_9 : float := 0x1.ccccccccccccdp-1%float.
Definition nav_0_1 : float := 0x1.999999999999ap-4%float.

Definition strat : Strategy float := {|
  ma_days := 250;
  thresholds := <["mid" := {| buy_pct := (-15)%float; sell_pct := 20%float |}]> ∅;
  buy_cooldown_days := 30;
  sell_cooldown_days := 30;
  cooldown_override_extra_pct := 5%float;
  extra_drop_pct := 8%float
|}.

Definition row (d : Z) (code action : string) (nav : float) (delta : Z)
  : TradeRow float := {|
  row_date := Some d; row_fund_code := code; row_action := action;
  row_nav := nav; row_shares_delta := delta; row_note := RText ""
|}.

Definition prices (d0 : Z) (n : nat) (v v_last : float) : list (PricePoint float) :=
  map (fun i => {| pp_date := d0 + Z.of_nat i; pp_nav := v |}) (seq 0 n)
  ++ [{| pp_date := d0 + Z.of_nat n; pp_nav := v_last |}].

Definition world (log : TradeLog float) (now : Z) (history : list (PricePoint float))
  : World float := {|
  trade_log := log;
  today := now;
  fetch_nav_history := fun _ _ => history
|}.

(** The signal computed for fund X in a world (the initial signal if the
    computation raises). *)
Definition signal_x (w : World float) : Signal float :=
  default (Signal_init "X" "Fund X" "equity")
          (compute_signal strat w Scenario.fund_x).

(** The deviation that signal carries (0 if none). *)
Definition deviation_x (w : World float) : float :=
  default 0%float (deviation_pct (signal_x w)).

(** Ten shares of X bought at 1.0 on day 0: the regular quota is full. *)
Definition full_quota : TradeLog float := repeat (row 0 "X" "buy" 1%float 1) 10.

(** 59 days at 1.25, then 0.9: 10 % below the last buy, far below the
    average. *)
Definition dip : list (PricePoint float) := prices 940 59 1.25%float nav_0_9.

(** The end-to-end scenario of the specification. *)
Definition extra_buy_world : World float := world full_quota 1000 dip.


(** The full quota and the one extra buy. *)
Definition after_extra_buy : TradeLog float :=
  full_quota ++ [row 999 "X" "extra_buy" nav_0_9 1].

(** Fund X moved to tier "low", with a quota of 11. *)
Definition fund_x_low : FundCfg.t := {|
  FundCfg.code := "X"; FundCfg.name := "Fund X"; FundCfg.category := "equity";
  FundCfg.volatility := "low"; FundCfg.max_shares := 11
|}.

(** 59 days at 1, then 2: far above the average. *)
Definition rally : list (PricePoint float) := prices 940 59 1%float 2%float.



(** Two regular buys and one extra buy of X, long ago. *)
Definition regular_2_extra_1 : TradeLog float :=
  [row 0 "X" "buy" 1%float 1; row 1 "X" "buy" 1%float 1;
   row 2 "X" "extra_buy" 1%float 1].

(** Two regular buys long ago and a sale ten days ago. *)
Definition sold_10_days_ago : TradeLog float :=
  [row 0 "X" "buy" 1%float 1; row 1 "X" "buy" 1%float 1;
   row 990 "X" "sell" 1%float (-1)].

(** 58 days at 100, then 121 and 79: the average is 100, the deviation
    -21; likewise with 116 and 84 for a deviation of -16. *)
Definition deviation_21 : list (PricePoint float) :=
  prices 940 58 100%float 121%float ++ [{| pp_date := 999; pp_nav := 79%float |}].
Definition deviation_16 : list (PricePoint float) :=
  prices 940 58 100%float 116%float ++ [{| pp_date := 999; pp_nav := 84%float |}].

(** One share of X, bought ten days ago. *)
Definition bought_10_days_ago : TradeLog float := [row 990 "X" "buy" 100%float 1].

(** Buy 1 at 10, buy 1 at 12, then sell 1 (at any price, here 20). *)
Definition two_buys : TradeLog float :=
  [row 0 "X" "buy" 10%float 1; row 1 "X" "buy" 12%float 1].
Definition sale : TradeRow float := row 2 "X" "sell" 20%float (-1).

(** Three buys of 1 at 0.1, then a sale of 1. *)
Definition three_buys : TradeLog float := repeat (row 0 "X" "buy" nav_0_1 1) 3.
Definition sale_0_1 : TradeRow float := row 3 "X" "sell" nav_0_1 (-1).

(** Two and five shares of the bond fund (quota 5). *)
Definition two_bonds : TradeLog float := repeat (row 0 "B" "buy" 1%float 1) 2.
Definition five_bonds : TradeLog float := repeat (row 0 "B" "buy" 1%float 1) 5.

End Binary64.

(** Evaluation of a closed equation. *)
Ltac eval_eq := vm_compute; reflexivity.

(** Evaluation of a conjunction of closed equations. *)
Ltac eval_all := repeat (apply conj; [eval_eq |]); eval_eq.

(** * Properties *)

Section Properties.
Context {R : Type} `{Num R}.

Implicit Types (st : Strategy R) (w : World R) (fc : FundCfg.t).
Implicit Types (sig base : Signal R) (sigs : list (Signal R)) (log : TradeLog R).

Lemma str_in_In s l : str_in s l = true <-> In s l.
Proof.
  unfold str_in. rewrite existsb_exists. split.
  - intros (x & Hx & E). apply String.eqb_eq in E. now subst.
  - intros Hin. exists s. split; [assumption | apply String.eqb_refl].
Qed.

Lemma py_max_two (a b : option date) :
  py_max (filter_truthy [a; b]) = more_recent a b.
Proof.
  destruct a as [[x|]|], b as [[y|]|]; reflexivity.
Qed.

(** The loop body for a timed fund, with its stages named. *)
Lemma compute_signal_unfold st w fc :
  FundCfg.volatility fc <> "low" ->
  compute_signal st w fc =
  let history := fetch_nav_history w (FundCfg.code fc) (ma_days st + 30) in
  let len := Z.of_nat (length history) in
  if len <? 60 then
    Some (set_signal "none" (RHistoryShort len)
            (set_max_shares (FundCfg.max_shares fc)
               (Signal_init (FundCfg.code fc) (FundCfg.name fc)
                            (FundCfg.category fc))))
  else
    latest ← last history;
    ma ← moving_average (map pp_nav history)
            (Z.min (Z.of_nat (length (map pp_nav history))) (ma_days st));
    dev ← deviation (pp_nav latest) ma;
    th ← get_thresholds st (FundCfg.volatility fc);
    verdict st w fc dev th (measured_signal w fc latest ma dev).
Proof.
  intros Hvol. apply String.eqb_neq in Hvol.
  unfold compute_signal. rewrite Hvol. cbv zeta.
  destruct (_ <? 60); [reflexivity |].
  destruct (last _) as [latest|]; [| reflexivity].
  cbn [mbind option_bind].
  destruct (moving_average _ _) as [ma|]; [| reflexivity].
  cbn [mbind option_bind].
  reflexivity.
Qed.

(** The paths through the loop body. *)
Lemma compute_signal_timed st w fc sig :
  FundCfg.volatility fc <> "low" ->
  compute_signal st w fc = Some sig ->
  let history := fetch_nav_history w (FundCfg.code fc) (ma_days st + 30) in
  (Z.of_nat (length history) < 60 /\
   sig = set_signal "none" (RHistoryShort (Z.of_nat (length history)))
           (set_max_shares (FundCfg.max_shares fc)
              (Signal_init (FundCfg.code fc) (FundCfg.name fc) (FundCfg.category fc))))
  \/
  (60 <= Z.of_nat (length history) /\
   exists latest ma dev th,
     last history = Some latest /\
     moving_average (map pp_nav history)
       (Z.min (Z.of_nat (length (map pp_nav history))) (ma_days st)) = Some ma /\
     deviation (pp_nav latest) ma = Some dev /\
     get_thresholds st (FundCfg.volatility fc) = Some th /\
     verdict st w fc dev th (measured_signal w fc latest ma dev) = Some sig).
Proof.
  intros Hvol. rewrite compute_signal_unfold by assumption. cbv zeta.
  destruct (_ <? 60) eqn:Hlen.
  - intros [= <-]. left. split; [lia | reflexivity].
  - intros Hsig. right. split; [lia |].
    destruct (last _) as [latest|] eqn:Hlast; [| discriminate].
    destruct (moving_average _ _) as [ma|] eqn:Hma; [| discriminate].
    cbn [mbind option_bind] in Hsig.
    destruct (deviation _ _) as [dev|] eqn:Hdev; [| discriminate].
    destruct (get_thresholds _ _) as [th|] eqn:Hth; [| discriminate].
    exists latest, ma, dev, th. auto.
Qed.

(** *** The signal before the verdict *)

Lemma measured_signal_fields w fc latest ma dev :
  let base := measured_signal w fc latest ma dev in
  fund_code base = FundCfg.code fc /\
  current_nav base = pp_nav latest /\
  current_date base = Some (pp_date latest) /\
  ma250 base = Some ma /\
  deviation_pct base = Some dev /\
  held_shares base = get_current_shares (FundCfg.code fc) (trade_log w) /\
  extra_shares base = get_extra_shares (FundCfg.code fc) (trade_log w) /\
  max_shares base = FundCfg.max_shares fc /\
  signal_type base = "" /\
  can_execute base = false /\
  reason base = RText "" /\
  block_reasons base = [].
Proof.
  unfold measured_signal. cbn.
  destruct (get_avg_cost _ _) as [c|]; [destruct (_ && _) |]; cbn; tauto.
Qed.

(** *** The sell branch *)

Lemma sell_branch_fields st w code dev sell_th base :
  let sig := sell_branch st w code dev sell_th base in
  let blocks :=
    (if held_shares base + extra_shares base <=? 0 then [BNoPosition] else []) ++
    match more_recent (get_last_trade_date code "sell" (trade_log w))
                      (get_last_trade_date code "extra_sell" (trade_log w)) with
    | Some d =>
        if today w - d <? sell_cooldown_days st
        then [BSellCooldown (today w - d) (sell_cooldown_days st)]
        else []
    | None => []
    end in
  block_reasons sig = blocks /\
  can_execute sig = (Z.of_nat (length blocks) =? 0) /\
  signal_type sig = (if extra_shares base >? 0 then "extra_sell" else "sell") /\
  fund_code sig = fund_code base /\
  deviation_pct sig = deviation_pct base /\
  ma250 sig = ma250 base.
Proof.
  unfold sell_branch. rewrite py_max_two. cbn.
  destruct (extra_shares base >? 0), (held_shares base >? 0),
           (held_shares base + extra_shares base <=? 0),
           (more_recent _ _) as [d|];
    try destruct (today w - d <? sell_cooldown_days st); cbn; tauto.
Qed.

(** *** The buy branch *)

(** What the quota check leaves: a plain buy with no block, an extra buy
    with no block, or the untouched signal with exactly one block. *)
Lemma buy_quota_check_cases st w code max dev buy_th base sig1 blocks1 :
  buy_quota_check st w code max dev buy_th base = Some (sig1, blocks1) ->
  (held_shares base < max /\
   sig1 = set_signal "buy" (RBuy dev buy_th) base /\ blocks1 = [])
  \/
  (max <= held_shares base /\ has_used_extra code (trade_log w) = true /\
   sig1 = base /\ blocks1 = [BExtraUsed (held_shares base) max])
  \/
  (max <= held_shares base /\ has_used_extra code (trade_log w) = false /\
   get_last_buy_nav code (trade_log w) = None /\
   sig1 = base /\ blocks1 = [BNoLastBuy (held_shares base) max])
  \/
  (max <= held_shares base /\ has_used_extra code (trade_log w) = false /\
   exists last_buy_nav drop,
     get_last_buy_nav code (trade_log w) = Some last_buy_nav /\
     drop_from_last (current_nav base) last_buy_nav = Some drop /\
     ((nltb (extra_drop_pct st) drop = true /\ sig1 = base /\
       blocks1 = [BDropShort (held_shares base) max drop (extra_drop_pct st)])
      \/
      (nltb (extra_drop_pct st) drop = false /\
       sig1 = set_signal "extra_buy" (RExtraBuy dev last_buy_nav drop) base /\
       blocks1 = []))).
Proof.
  unfold buy_quota_check.
  destruct (held_shares base >=? max) eqn:Hfull.
  2:{ intros [= <- <-]. left. split; [lia | auto]. }
  assert (max <= held_shares base) by lia.
  destruct (has_used_extra _ _) eqn:Hused.
  { intros [= <- <-]. right; left. auto. }
  destruct (get_last_buy_nav _ _) as [lbn|] eqn:Hlbn.
  2:{ intros [= <- <-]. right; right; left. auto. }
  destruct (drop_from_last _ _) as [drop|] eqn:Hdrop; [| discriminate].
  cbn [mbind option_bind].
  destruct (nltb _ drop) eqn:Hshort; intros [= <- <-];
    right; right; right; (split; [assumption |]); (split; [reflexivity |]);
    exists lbn, drop; (split; [reflexivity |]); (split; [assumption |]);
    [left | right]; auto.
Qed.

Lemma buy_branch_unfold st w code max dev buy_th base sig :
  buy_branch st w code max dev buy_th base = Some sig ->
  exists sig1 blocks1,
    buy_quota_check st w code max dev buy_th base = Some (sig1, blocks1) /\
    let blocks := buy_cooldown_check st w code dev buy_th sig1 blocks1 in
    signal_type sig = signal_type sig1 /\
    block_reasons sig = blocks /\
    can_execute sig = ((Z.of_nat (length blocks) =? 0)
                       && str_in (signal_type sig1) ["buy"; "extra_buy"]) /\
    fund_code sig = fund_code sig1 /\
    deviation_pct sig = deviation_pct sig1 /\
    ma250 sig = ma250 sig1.
Proof.
  unfold buy_branch.
  destruct (buy_quota_check _ _ _ _ _ _ _) as [[sig1 blocks1]|]; [| discriminate].
  cbn [mbind option_bind]. intros [= <-].
  exists sig1, blocks1. cbn. tauto.
Qed.

Lemma buy_quota_check_keeps st w code max dev buy_th base sig1 blocks1 :
  buy_quota_check st w code max dev buy_th base = Some (sig1, blocks1) ->
  fund_code sig1 = fund_code base /\
  deviation_pct sig1 = deviation_pct base /\
  ma250 sig1 = ma250 base /\
  held_shares sig1 = held_shares base /\
  current_nav sig1 = current_nav base.
Proof.
  intros Hq. apply buy_quota_check_cases in Hq.
  destruct Hq as [(_ & -> & _) | [(_ & _ & -> & _) | [(_ & _ & _ & -> & _)
    | (_ & _ & lbn & drop & _ & _ & [(_ & -> & _) | (_ & -> & _)])]]];
    cbn; tauto.
Qed.

Lemma buy_branch_nav st w code max dev buy_th base sig :
  buy_branch st w code max dev buy_th base = Some sig ->
  current_nav sig = current_nav base.
Proof.
  unfold buy_branch.
  destruct (buy_quota_check _ _ _ _ _ _ _) as [[sig1 blocks1]|] eqn:Hq;
    [| discriminate].
  cbn [mbind option_bind]. intros [= <-].
  apply buy_quota_check_keeps in Hq. cbn. tauto.
Qed.

(** *** The verdict as a whole *)

Lemma verdict_keeps st w fc dev th base sig :
  verdict st w fc dev th base = Some sig ->
  fund_code sig = fund_code base /\
  deviation_pct sig = deviation_pct base /\
  ma250 sig = ma250 base.
Proof.
  unfold verdict.
  destruct (nleb (sell_pct th) dev); [| destruct (nleb dev (buy_pct th))].
  - intros [= <-].
    pose proof (sell_branch_fields st w (FundCfg.code fc) dev (sell_pct th) base) as Hs.
    cbv zeta in Hs. tauto.
  - intros Hb. apply buy_branch_unfold in Hb.
    destruct Hb as (sig1 & blocks1 & Hq & Hb). cbv zeta in Hb.
    apply buy_quota_check_keeps in Hq.
    destruct Hb as (_ & _ & _ & -> & -> & ->). tauto.
  - intros [= <-]. cbn. tauto.
Qed.

(** A timed fund whose signal carries a deviation went through the verdict
    with that deviation. *)
Lemma timed_verdict st w fc sig dev th :
  FundCfg.volatility fc <> "low" ->
  compute_signal st w fc = Some sig ->
  deviation_pct sig = Some dev ->
  get_thresholds st (FundCfg.volatility fc) = Some th ->
  exists latest ma,
    last (fetch_nav_history w (FundCfg.code fc) (ma_days st + 30)) = Some latest /\
    deviation (pp_nav latest) ma = Some dev /\
    verdict st w fc dev th (measured_signal w fc latest ma dev) = Some sig.
Proof.
  intros Hvol Hs Hdev Hth.
  apply compute_signal_timed in Hs; [| assumption].
  destruct Hs as [(_ & ->) | (_ & latest & ma & dev' & th' & Hl & _ & Hd & Hth' & Hv)].
  - discriminate.
  - assert (dev' = dev) as ->.
    { pose proof Hv as Hk. apply verdict_keeps in Hk. destruct Hk as (_ & Hk & _).
      rewrite Hk in Hdev.
      pose proof (measured_signal_fields w fc latest ma dev') as Hf. cbv zeta in Hf.
      destruct Hf as (_ & _ & _ & _ & Hf & _). congruence. }
    assert (th' = th) as -> by congruence.
    exists latest, ma. auto.
Qed.

(** The cooldown check of a buy or extra buy, started with no block. *)
Lemma buy_cooldown_check_typed st w code dev buy_th sig1 :
  In (signal_type sig1) ["buy"; "extra_buy"] ->
  buy_cooldown_check st w code dev buy_th sig1 [] =
  match more_recent (get_last_trade_date code "buy" (trade_log w))
                    (get_last_trade_date code "extra_buy" (trade_log w)) with
  | Some d =>
      if today w - d <? buy_cooldown_days st then
        if nleb dev (nsub buy_th (cooldown_override_extra_pct st))
        then []
        else [BBuyCooldown (today w - d) (buy_cooldown_days st)]
      else []
  | None => []
  end.
Proof.
  intros Hty. apply str_in_In in Hty.
  unfold buy_cooldown_check. rewrite Hty, py_max_two. reflexivity.
Qed.

(** The three outcomes of the buy branch, entered with the verdict unset. *)
Lemma buy_branch_cases st w code max dev buy_th base sig :
  signal_type base = "" ->
  buy_branch st w code max dev buy_th base = Some sig ->
  let cooldown :=
    match more_recent (get_last_trade_date code "buy" (trade_log w))
                      (get_last_trade_date code "extra_buy" (trade_log w)) with
    | Some d =>
        if today w - d <? buy_cooldown_days st then
          if nleb dev (nsub buy_th (cooldown_override_extra_pct st))
          then []
          else [BBuyCooldown (today w - d) (buy_cooldown_days st)]
        else []
    | None => []
    end in
  (signal_type sig = "buy" /\ held_shares base < max /\
   block_reasons sig = cooldown /\
   can_execute sig = (Z.of_nat (length cooldown) =? 0))
  \/
  (signal_type sig = "extra_buy" /\ max <= held_shares base /\
   has_used_extra code (trade_log w) = false /\
   (exists last_buy_nav drop,
      get_last_buy_nav code (trade_log w) = Some last_buy_nav /\
      drop_from_last (current_nav base) last_buy_nav = Some drop /\
      nltb (extra_drop_pct st) drop = false) /\
   block_reasons sig = cooldown /\
   can_execute sig = (Z.of_nat (length cooldown) =? 0))
  \/
  (signal_type sig = "" /\ max <= held_shares base /\
   can_execute sig = false /\
   ((has_used_extra code (trade_log w) = true /\
     block_reasons sig = [BExtraUsed (held_shares base) max])
    \/
    (has_used_extra code (trade_log w) = false /\
     get_last_buy_nav code (trade_log w) = None /\
     block_reasons sig = [BNoLastBuy (held_shares base) max])
    \/
    (has_used_extra code (trade_log w) = false /\
     exists last_buy_nav drop,
       get_last_buy_nav code (trade_log w) = Some last_buy_nav /\
       drop_from_last (current_nav base) last_buy_nav = Some drop /\
       nltb (extra_drop_pct st) drop = true /\
       block_reasons sig =
         [BDropShort (held_shares base) max drop (extra_drop_pct st)]))).
Proof.
  intros Hbase Hb. apply buy_branch_unfold in Hb.
  destruct Hb as (sig1 & blocks1 & Hq & Hb). cbv zeta in Hb.
  destruct Hb as (Hty & Hbl & Hcan & _).
  assert (Hunset : forall bl, buy_cooldown_check st w code dev buy_th base bl = bl).
  { intros bl. unfold buy_cooldown_check. rewrite Hbase. reflexivity. }
  apply buy_quota_check_cases in Hq.
  destruct Hq as [(Hlt & -> & ->) | [(Hge & Hused & -> & ->)
    | [(Hge & Hused & Hnone & -> & ->)
    | (Hge & Hused & lbn & drop & Hlbn & Hdrop
       & [(Hshort & -> & ->) | (Hshort & -> & ->)])]]]; cbv zeta.
  - left. rewrite buy_cooldown_check_typed in Hbl, Hcan by (cbn; auto).
    cbn in Hty, Hcan. rewrite andb_true_r in Hcan. auto.
  - right; right. rewrite Hunset in Hbl, Hcan. rewrite Hbase in Hty.
    cbn in Hcan. auto 10.
  - right; right. rewrite Hunset in Hbl, Hcan. rewrite Hbase in Hty.
    cbn in Hcan. auto 10.
  - right; right. rewrite Hunset in Hbl, Hcan. rewrite Hbase in Hty.
    cbn in Hcan. split; [assumption |]. split; [assumption |].
    split; [assumption |]. right; right. split; [assumption |].
    exists lbn, drop. auto.
  - right; left. rewrite buy_cooldown_check_typed in Hbl, Hcan by (cbn; auto).
    cbn in Hty, Hcan. rewrite andb_true_r in Hcan.
    split; [assumption |]. split; [assumption |]. split; [assumption |].
    split; [exists lbn, drop; auto | auto].
Qed.

(** The loop body for a fund of tier "low". *)
Lemma compute_signal_low st w fc :
  FundCfg.volatility fc = "low" ->
  compute_signal st w fc =
  let code := FundCfg.code fc in
  let max_shares := FundCfg.max_shares fc in
  let held := get_current_shares code (trade_log w) in
  let sig := set_held_shares held
               (set_max_shares max_shares
                  (Signal_init code (FundCfg.name fc) (FundCfg.category fc))) in
  let sig :=
    if held <? max_shares
    then set_can_execute true (set_signal "hold_buy" (RBondBuy held max_shares) sig)
    else set_signal "none" (RBondFull held max_shares) sig in
  Some match fetch_current_nav w code with
       | Some (d, v) => set_current (Some d) v sig
       | None => sig
       end.
Proof.
  intros Hlow. unfold compute_signal. rewrite Hlow. reflexivity.
Qed.

(** Every signal carries the code of the fund it was computed for. *)
Lemma compute_signal_fund_code st w fc sig :
  compute_signal st w fc = Some sig -> fund_code sig = FundCfg.code fc.
Proof.
  destruct (String.eqb_spec (FundCfg.volatility fc) "low") as [Hlow | Hvol].
  - rewrite compute_signal_low by assumption. cbv zeta. intros [= <-].
    destruct (_ <? _), (fetch_current_nav w _) as [[d v]|]; reflexivity.
  - intros Hs. apply compute_signal_timed in Hs; [| assumption].
    destruct Hs as [(_ & ->) | (_ & latest & ma & dev & th & _ & _ & _ & _ & Hv)].
    + reflexivity.
    + apply verdict_keeps in Hv. destruct Hv as (-> & _).
      apply measured_signal_fields.
Qed.

(** The signals of a run are those of its funds. *)
Lemma compute_signals_In config w sigs sig :
  compute_signals config w = Some sigs ->
  In sig sigs ->
  exists fc, In fc (funds config) /\
             compute_signal (strategy config) w fc = Some sig.
Proof.
  unfold compute_signals. intros Hm Hin.
  apply mapM_Some in Hm.
  apply list_elem_of_In, list_elem_of_lookup_1 in Hin. destruct Hin as [i Hi].
  destruct (Forall2_lookup_r _ _ _ _ _ Hm Hi) as (fc & Hfc & Hs).
  exists fc. split; [| assumption].
  apply list_elem_of_In. eapply list_elem_of_lookup_2; eassumption.
Qed.

(** What can be said of the type of any signal of the loop body. *)
Lemma compute_signal_kinds st w fc sig :
  compute_signal st w fc = Some sig ->
  let held := get_current_shares (FundCfg.code fc) (trade_log w) in
  let max := FundCfg.max_shares fc in
  (In (signal_type sig) signal_types
   \/
   (signal_type sig = "" /\ can_execute sig = false /\ max <= held /\
    FundCfg.volatility fc <> "low" /\
    (block_reasons sig = [BExtraUsed held max] \/
     block_reasons sig = [BNoLastBuy held max] \/
     exists drop,
       block_reasons sig = [BDropShort held max drop (extra_drop_pct st)]))) /\
  (can_execute sig = true -> In (signal_type sig) executable_types) /\
  (signal_type sig = "extra_buy" ->
   has_used_extra (FundCfg.code fc) (trade_log w) = false).
Proof.
  unfold signal_types, executable_types.
  destruct (String.eqb_spec (FundCfg.volatility fc) "low") as [Hlow | Hvol].
  { rewrite compute_signal_low by assumption. cbv zeta. intros [= <-].
    destruct (_ <? _), (fetch_current_nav w _) as [[d v]|]; cbn;
      (split; [| split]); intros; try discriminate; auto 10. }
  intros Hs. apply compute_signal_timed in Hs; [| assumption].
  destruct Hs as [(_ & ->) | (_ & latest & ma & dev & th & _ & _ & _ & _ & Hv)].
  { cbn. (split; [| split]); intros; try discriminate; auto 10. }
  pose proof (measured_signal_fields w fc latest ma dev) as Hf. cbv zeta in Hf.
  destruct Hf as (_ & Hnav & _ & _ & _ & Hheld & Hextra & _ & Hty & Hcan & _ & Hbl).
  unfold verdict in Hv.
  destruct (nleb (sell_pct th) dev); [| destruct (nleb dev (buy_pct th))].
  - injection Hv as <-.
    pose proof (sell_branch_fields st w (FundCfg.code fc) dev (sell_pct th)
                  (measured_signal w fc latest ma dev)) as Hs.
    cbv zeta in Hs. destruct Hs as (_ & _ & -> & _).
    destruct (_ >? 0); cbn; (split; [| split]); intros; try discriminate; auto 10.
  - apply buy_branch_cases in Hv; [| assumption]. cbv zeta in Hv.
    rewrite Hheld in Hv.
    destruct Hv as [(-> & _) | [(-> & _ & Hused & _) | (-> & Hge & Hc & Hb)]];
      cbn; (split; [| split]); intros; try discriminate; auto 10.
    + right. repeat (split; [assumption || reflexivity |]).
      destruct Hb as [(_ & ->) | [(_ & _ & ->) | (_ & lbn & drop & _ & _ & _ & ->)]];
        eauto.
    + congruence.
  - injection Hv as <-. cbn. rewrite Hcan.
    (split; [| split]); intros; try discriminate; auto 10.
Qed.

(** A signal whose type is unset came out of the buy branch with the
    regular quota full and the extra buy refused. *)
Lemma compute_signal_unset st w fc sig :
  compute_signal st w fc = Some sig ->
  signal_type sig = "" ->
  FundCfg.volatility fc <> "low" /\
  can_execute sig = false /\
  exists dev th,
    deviation_pct sig = Some dev /\
    get_thresholds st (FundCfg.volatility fc) = Some th /\
    nleb (sell_pct th) dev = false /\
    nleb dev (buy_pct th) = true /\
    let code := FundCfg.code fc in
    let held := get_current_shares code (trade_log w) in
    let max := FundCfg.max_shares fc in
    max <= held /\
    ((has_used_extra code (trade_log w) = true /\
      block_reasons sig = [BExtraUsed held max])
     \/
     (has_used_extra code (trade_log w) = false /\
      get_last_buy_nav code (trade_log w) = None /\
      block_reasons sig = [BNoLastBuy held max])
     \/
     (has_used_extra code (trade_log w) = false /\
      exists last_buy_nav drop,
        get_last_buy_nav code (trade_log w) = Some last_buy_nav /\
        drop_from_last (current_nav sig) last_buy_nav = Some drop /\
        nltb (extra_drop_pct st) drop = true /\
        block_reasons sig = [BDropShort held max drop (extra_drop_pct st)])).
Proof.
  intros Hs Hty.
  destruct (String.eqb_spec (FundCfg.volatility fc) "low") as [Hlow | Hvol].
  { exfalso. rewrite compute_signal_low in Hs by assumption. cbv zeta in Hs.
    injection Hs as <-.
    destruct (_ <? _), (fetch_current_nav w _) as [[d v]|]; discriminate. }
  split; [assumption |].
  apply compute_signal_timed in Hs; [| assumption].
  destruct Hs as [(_ & ->) | (_ & latest & ma & dev & th & _ & _ & _ & Hth & Hv)];
    [discriminate |].
  pose proof (measured_signal_fields w fc latest ma dev) as Hf. cbv zeta in Hf.
  destruct Hf as (_ & _ & _ & _ & Hdev & Hheld & _ & _ & Hunset & _).
  pose proof (verdict_keeps _ _ _ _ _ _ _ Hv) as (_ & Hkeep & _).
  unfold verdict in Hv.
  destruct (nleb (sell_pct th) dev) eqn:Hsell.
  { exfalso. injection Hv as <-.
    pose proof (sell_branch_fields st w (FundCfg.code fc) dev (sell_pct th)
                  (measured_signal w fc latest ma dev)) as Hb.
    cbv zeta in Hb. destruct Hb as (_ & _ & Hb & _). rewrite Hb in Hty.
    destruct (_ >? 0); discriminate. }
  destruct (nleb dev (buy_pct th)) eqn:Hbuy.
  2:{ exfalso. injection Hv as <-. discriminate. }
  pose proof (buy_branch_nav _ _ _ _ _ _ _ _ Hv) as Hnav.
  apply buy_branch_cases in Hv; [| assumption]. cbv zeta in Hv.
  rewrite Hheld, <- Hnav in Hv.
  destruct Hv as [(E & _) | [(E & _) | (_ & Hge & Hcan & Hb)]];
    [rewrite E in Hty; discriminate | rewrite E in Hty; discriminate |].
  split; [assumption |].
  exists dev, th. rewrite Hkeep. cbv zeta. auto 10.
Qed.

(** *** Low-volatility funds *)

(** A fund of tier "low" always gets a signal: it is [hold_buy] with
    [can_execute] true exactly when the shares [get_current_shares] counts
    for it (the rows of every action) are below [max_shares], and [none]
    with [can_execute] false exactly otherwise.  No moving average or
    deviation is computed, and the verdict (type, [can_execute], reason,
    blocks, held shares) is the same under any other strategy, clock and
    price provider as long as the ledger is the same. *)
Theorem low_tier_signal st w fc :
  FundCfg.volatility fc = "low" ->
  exists sig,
    compute_signal st w fc = Some sig /\
    (let held := get_current_shares (FundCfg.code fc) (trade_log w) in
     (signal_type sig = "hold_buy" /\ can_execute sig = true
        <-> held < FundCfg.max_shares fc) /\
     (signal_type sig = "none" /\ can_execute sig = false
        <-> FundCfg.max_shares fc <= held)) /\
    ma250 sig = None /\ deviation_pct sig = None /\
    forall st' w',
      trade_log w' = trade_log w ->
      exists sig',
        compute_signal st' w' fc = Some sig' /\
        signal_type sig' = signal_type sig /\
        can_execute sig' = can_execute sig /\
        reason sig' = reason sig /\
        block_reasons sig' = block_reasons sig /\
        held_shares sig' = held_shares sig.
Proof.
  intros Hlow. rewrite compute_signal_low by assumption. cbv zeta.
  eexists. split; [reflexivity |].
  set (held := get_current_shares (FundCfg.code fc) (trade_log w)).
  split; [| split; [| split]].
  - destruct (held <? FundCfg.max_shares fc) eqn:Hlt;
      destruct (fetch_current_nav w (FundCfg.code fc)) as [[d v]|]; cbn;
      repeat split; try intros [? ?]; intros;
      try discriminate; try lia; reflexivity.
  - destruct (held <? _), (fetch_current_nav w _) as [[d v]|]; reflexivity.
  - destruct (held <? _), (fetch_current_nav w _) as [[d v]|]; reflexivity.
  - intros st' w' Hlog. rewrite compute_signal_low by assumption. cbv zeta.
    eexists. split; [reflexivity |].
    rewrite Hlog. fold held.
    destruct (held <? _), (fetch_current_nav w _) as [[d v]|],
             (fetch_current_nav w' _) as [[d' v']|]; cbn; tauto.
Qed.

(** *** Too little history *)

(** C9.  For a fund of another tier whose fetched history has fewer than 60
    points the signal is [none], not executable, its reason carries the
    number of points, and neither the moving average nor the deviation is
    set (nor any block). *)
Theorem short_history_signal st w fc :
  FundCfg.volatility fc <> "low" ->
  Z.of_nat (length (fetch_nav_history w (FundCfg.code fc) (ma_days st + 30))) < 60 ->
  exists sig,
    compute_signal st w fc = Some sig /\
    signal_type sig = "none" /\
    can_execute sig = false /\
    reason sig =
      RHistoryShort
        (Z.of_nat (length (fetch_nav_history w (FundCfg.code fc) (ma_days st + 30)))) /\
    ma250 sig = None /\
    deviation_pct sig = None /\
    block_reasons sig = [].
Proof.
  intros Hvol Hlen. rewrite compute_signal_unfold by assumption. cbv zeta.
  destruct (_ <? 60) eqn:Hlt; [| lia].
  eexists. split; [reflexivity |]. cbn. tauto.
Qed.

(** *** The sell branch of a run *)

(** When the deviation of a timed fund reaches the sell threshold of its
    tier, the block reasons are exactly: "no position" if the shares
    [get_current_shares] counts (the rows of every action) plus the extra
    shares are not positive, followed by "sell cooldown" if the days since
    the more recent of the last sell and the last extra sell are fewer than
    [sell_cooldown_days]; the signal is executable exactly when no block
    was added; and the type is [extra_sell] when there are extra shares,
    whatever the other shares, and [sell] otherwise. *)
Theorem sell_trigger_signal st w fc sig dev th :
  FundCfg.volatility fc <> "low" ->
  compute_signal st w fc = Some sig ->
  deviation_pct sig = Some dev ->
  get_thresholds st (FundCfg.volatility fc) = Some th ->
  nleb (sell_pct th) dev = true ->
  let code := FundCfg.code fc in
  let held := get_current_shares code (trade_log w) in
  let extra := get_extra_shares code (trade_log w) in
  block_reasons sig =
    (if held + extra <=? 0 then [BNoPosition] else []) ++
    match more_recent (get_last_trade_date code "sell" (trade_log w))
                      (get_last_trade_date code "extra_sell" (trade_log w)) with
    | Some d =>
        if today w - d <? sell_cooldown_days st
        then [BSellCooldown (today w - d) (sell_cooldown_days st)]
        else []
    | None => []
    end /\
  (can_execute sig = true <-> block_reasons sig = []) /\
  (0 < extra -> signal_type sig = "extra_sell") /\
  (extra <= 0 -> signal_type sig = "sell").
Proof.
  intros Hvol Hs Hdev Hth Hsell.
  destruct (timed_verdict _ _ _ _ _ _ Hvol Hs Hdev Hth) as (latest & ma & _ & _ & Hv).
  unfold verdict in Hv. rewrite Hsell in Hv. injection Hv as <-.
  pose proof (measured_signal_fields w fc latest ma dev) as Hf. cbv zeta in Hf.
  destruct Hf as (_ & _ & _ & _ & _ & Hheld & Hextra & _).
  pose proof (sell_branch_fields st w (FundCfg.code fc) dev (sell_pct th)
                (measured_signal w fc latest ma dev)) as Hb.
  cbv zeta in Hb. rewrite Hheld, Hextra in Hb.
  destruct Hb as (Hbl & Hcan & Hty & _). cbv zeta.
  split; [assumption |]. split; [| split].
  - rewrite Hcan, Hbl.
    destruct (_ ++ _); cbn; split; intros; try discriminate; try reflexivity; lia.
  - intros Hpos. rewrite Hty.
    destruct (_ >? 0) eqn:E; [reflexivity | lia].
  - intros Hnone. rewrite Hty.
    destruct (_ >? 0) eqn:E; [lia | reflexivity].
Qed.

(** *** Signal types *)

(** C2, as amended.  Every signal of a run has one of the six documented
    types or the unset type (the empty text).  The unset type is that of a
    fund of a tier other than "low" whose deviation is below the sell
    threshold and at or below the buy threshold, whose held shares (as
    [get_current_shares] counts them) have reached [max_shares], and whose
    extra buy was refused for one of three reasons: an extra buy is on
    record; or none is and no buy is on record either; or none is and the
    drop from the last buy price, as the code computes it, is above
    [extra_drop_pct].  Such a signal is not executable and carries exactly
    one block reason, the one that states that cause. *)
Theorem signal_type_documented_or_unset config w sigs sig :
  compute_signals config w = Some sigs ->
  In sig sigs ->
  In (signal_type sig) signal_types \/
  (signal_type sig = "" /\ can_execute sig = false /\
   exists fc dev th,
     In fc (funds config) /\ fund_code sig = FundCfg.code fc /\
     FundCfg.volatility fc <> "low" /\
     deviation_pct sig = Some dev /\
     get_thresholds (strategy config) (FundCfg.volatility fc) = Some th /\
     nleb (sell_pct th) dev = false /\
     nleb dev (buy_pct th) = true /\
     let code := FundCfg.code fc in
     let held := get_current_shares code (trade_log w) in
     let max := FundCfg.max_shares fc in
     max <= held /\
     ((has_used_extra code (trade_log w) = true /\
       block_reasons sig = [BExtraUsed held max])
      \/
      (has_used_extra code (trade_log w) = false /\
       get_last_buy_nav code (trade_log w) = None /\
       block_reasons sig = [BNoLastBuy held max])
      \/
      (has_used_extra code (trade_log w) = false /\
       exists last_buy_nav drop,
         get_last_buy_nav code (trade_log w) = Some last_buy_nav /\
         drop_from_last (current_nav sig) last_buy_nav = Some drop /\
         nltb (extra_drop_pct (strategy config)) drop = true /\
         block_reasons sig =
           [BDropShort held max drop (extra_drop_pct (strategy config))]))).
Proof.
  intros Hm Hin.
  destruct (compute_signals_In _ _ _ _ Hm Hin) as (fc & Hfc & Hs).
  pose proof (compute_signal_fund_code _ _ _ _ Hs) as Hcode.
  pose proof (compute_signal_kinds _ _ _ _ Hs) as Hk. cbv zeta in Hk.
  destruct Hk as ([Hdoc | (Hty & _)] & _).
  - left. assumption.
  - right.
    destruct (compute_signal_unset _ _ _ _ Hs Hty)
      as (Hvol & Hcan & dev & th & Hdev & Hth & Hsell & Hbuy & Hrest).
    split; [assumption |]. split; [assumption |].
    exists fc, dev, th. auto 10.
Qed.

(** C10.  A signal of a run that is executable has one of the five types
    the executor knows, never [none] and never the unset type; so the
    executor counts it as executed and, unless the run is a dry run,
    appends exactly one row for it: one share bought for [buy], [hold_buy]
    (both written as "buy") and [extra_buy], one share sold for [sell] and
    [extra_sell]. *)
Theorem executable_signal_has_action config w sigs sig :
  compute_signals config w = Some sigs ->
  In sig sigs ->
  can_execute sig = true ->
  In (signal_type sig) executable_types /\
  forall executed log,
    execute_step true (executed, log) sig = (executed ++ [sig], log) /\
    exists action delta,
      execute_step false (executed, log) sig =
        (executed ++ [sig],
         append_trade_log (current_date sig) (fund_code sig) action
                          (current_nav sig) delta (reason sig) log) /\
      In (signal_type sig, action, delta)
         [("buy", "buy", 1); ("hold_buy", "buy", 1);
          ("extra_buy", "extra_buy", 1);
          ("sell", "sell", -1); ("extra_sell", "extra_sell", -1)].
Proof.
  intros Hm Hin Hcan.
  destruct (compute_signals_In _ _ _ _ Hm Hin) as (fc & _ & Hs).
  apply compute_signal_kinds in Hs. cbv zeta in Hs.
  destruct Hs as (_ & Hexe & _). specialize (Hexe Hcan).
  split; [assumption |].
  intros executed log. unfold execute_step. rewrite Hcan. cbn [negb].
  unfold executable_types in Hexe. cbn in Hexe.
  destruct Hexe as [E | [E | [E | [E | [E | []]]]]]; rewrite <- E; cbn;
    (split; [reflexivity |]); do 2 eexists; (split; [reflexivity |]);
    cbn; auto 10.
Qed.

(** *** Share counts *)

(** A loop that adds [shares_delta] of the rows passing a test computes
    the sum over the filtered ledger. *)
Lemma guarded_sum (p : TradeRow R -> bool) (P : TradeRow R -> Prop)
    `{forall row, Decision (P row)} log (total : Z) :
  (forall row, p row = true <-> P row) ->
  fold_left (fun total row => if p row then total + row_shares_delta row else total)
            log total
  = total + fold_right Z.add 0 (map row_shares_delta (filter P log)).
Proof.
  intros Hp. revert total.
  induction log as [| row log IH]; intros total; cbn [fold_left].
  - cbn. lia.
  - rewrite IH, filter_cons.
    destruct (decide (P row)) as [Hyes | Hno].
    + apply Hp in Hyes. rewrite Hyes. cbn. lia.
    + destruct (p row) eqn:E; [apply Hp in E; contradiction | reflexivity].
Qed.

(** [get_extra_shares] is the specification's [extraShares]. *)
Lemma get_extra_shares_spec f log :
  get_extra_shares f log = extra_shares_spec f log.
Proof.
  unfold get_extra_shares, extra_shares_spec.
  rewrite (guarded_sum _ (fun row => row_fund_code row = f
                            /\ (row_action row = "extra_buy"
                                \/ row_action row = "extra_sell"))).
  - rewrite Z.add_0_l. apply Z.max_comm.
  - intros row. rewrite andb_true_iff, String.eqb_eq, str_in_In. cbn.
    intuition congruence.
Qed.

(** [get_current_shares] adds up the rows of the fund whatever their
    action. *)
Lemma get_current_shares_all_actions f log :
  get_current_shares f log = all_shares f log.
Proof.
  unfold get_current_shares, all_shares.
  rewrite (guarded_sum _ (fun row => row_fund_code row = f)).
  - rewrite Z.add_0_l. apply Z.max_comm.
  - intros row. apply String.eqb_eq.
Qed.

(** [has_used_extra] holds exactly when the fund has an [extra_buy] row. *)
Lemma has_used_extra_iff f log :
  has_used_extra f log = true <->
  exists row, In row log /\ row_fund_code row = f /\ row_action row = "extra_buy".
Proof.
  unfold has_used_extra. rewrite existsb_exists.
  split; intros (row & Hin & Hrow); exists row; (split; [exact Hin |]).
  - apply andb_true_iff in Hrow. now rewrite !String.eqb_eq in Hrow.
  - apply andb_true_iff. now rewrite !String.eqb_eq.
Qed.

(** *** Replaying one more row *)

Lemma avg_cost_state_snoc f log (row : TradeRow R) :
  avg_cost_state f (log ++ [row]) = avg_cost_step f (avg_cost_state f log) row.
Proof.
  unfold avg_cost_state. rewrite fold_left_app. reflexivity.
Qed.

(** *** The one extra buy *)

Lemma count_extra_buy_app f (l1 l2 : TradeLog R) :
  count_extra_buy f (l1 ++ l2) = (count_extra_buy f l1 + count_extra_buy f l2)%nat.
Proof.
  unfold count_extra_buy. rewrite filter_app. apply length_app.
Qed.

Lemma has_used_extra_count f (log : TradeLog R) :
  has_used_extra f log = true <-> (0 < count_extra_buy f log)%nat.
Proof.
  unfold has_used_extra, count_extra_buy.
  induction log as [| row log IH]; cbn.
  - split; [discriminate | lia].
  - rewrite orb_true_iff, IH.
    destruct (decide _) as [[Hf Ha] | Hno]; cbn.
    + rewrite Hf, Ha, !String.eqb_refl. cbn. split; [lia | auto].
    + split; [| auto]. intros [Hrow | Hrest]; [| assumption].
      apply andb_true_iff in Hrow. destruct Hrow as [Hf Ha].
      apply String.eqb_eq in Hf, Ha. tauto.
Qed.

Lemma execute_step_app dry_run executed log sig :
  execute_step dry_run (executed, log) sig =
  (executed ++ fst (execute_step dry_run ([], []) sig),
   log ++ appended_rows dry_run sig).
Proof.
  unfold appended_rows, execute_step, append_trade_log.
  destruct (can_execute sig), dry_run; cbn;
    repeat (destruct (str_in _ _) || destruct (String.eqb _ _)); cbn;
    rewrite ?app_nil_r; reflexivity.
Qed.

Lemma execute_signals_log sigs dry_run log :
  snd (execute_signals sigs dry_run log) =
  log ++ flat_map (appended_rows dry_run) sigs.
Proof.
  unfold execute_signals. generalize (@nil (Signal R)) as executed.
  revert log. induction sigs as [| sig sigs IH]; intros log executed;
    cbn [fold_left flat_map].
  - cbn. now rewrite app_nil_r.
  - rewrite execute_step_app, IH, app_assoc. reflexivity.
Qed.

(** A dry run decides the same executions and leaves the ledger alone. *)
Lemma dry_run_only_skips_append sigs log :
  fst (execute_signals sigs true log) = fst (execute_signals sigs false log) /\
  snd (execute_signals sigs true log) = log.
Proof.
  unfold execute_signals.
  assert (Hstep : forall sig executed lg lg',
            fst (execute_step true (executed, lg) sig)
              = fst (execute_step false (executed, lg') sig) /\
            snd (execute_step true (executed, lg) sig) = lg).
  { intros sig executed lg lg'. unfold execute_step.
    destruct (can_execute sig); cbn [negb]; cbv iota; [| auto].
    destruct (str_in _ _); [auto |].
    repeat (destruct (String.eqb _ _); [auto |]). auto. }
  generalize (@nil (Signal R)) as executed. generalize log at 2 as lg'.
  revert log. induction sigs as [| sig sigs IH]; intros log lg' executed;
    cbn [fold_left].
  - auto.
  - destruct (Hstep sig executed log lg') as [Hex Hlog].
    destruct (execute_step true (executed, log) sig) as [ex1 lg1].
    destruct (execute_step false (executed, lg') sig) as [ex2 lg2].
    cbn [fst snd] in Hex, Hlog. subst ex2 lg1. apply IH.
Qed.

(** An [extra_buy] row is only appended for an [extra_buy] signal, and
    then only one. *)
Lemma appended_extra_buy dry_run sig f :
  (count_extra_buy f (appended_rows dry_run sig) <= 1)%nat /\
  ((0 < count_extra_buy f (appended_rows dry_run sig))%nat ->
   signal_type sig = "extra_buy" /\ fund_code sig = f).
Proof.
  unfold appended_rows, execute_step, append_trade_log, count_extra_buy.
  destruct (can_execute sig); cbn [negb]; cbv iota; [| cbn; split; lia].
  destruct (str_in _ _).
  { destruct dry_run; cbn; [split; lia |].
    destruct (decide _) as [[_ Ha] | _]; cbn; [discriminate | split; lia]. }
  destruct (String.eqb_spec (signal_type sig) "extra_buy") as [E | _].
  { destruct dry_run; cbn; [split; lia |].
    destruct (decide _) as [[Hf _] | _]; cbn; split; auto; lia. }
  destruct (String.eqb _ "sell").
  { destruct dry_run; cbn; [split; lia |].
    destruct (decide _) as [[_ Ha] | _]; cbn; [discriminate | split; lia]. }
  destruct (String.eqb _ "extra_sell"); [| cbn; split; lia].
  destruct dry_run; cbn; [split; lia |].
  destruct (decide _) as [[_ Ha] | _]; cbn; [discriminate | split; lia].
Qed.

(** The gate for one fund. *)
Lemma extra_buy_gate st w fc sig :
  compute_signal st w fc = Some sig ->
  has_used_extra (FundCfg.code fc) (trade_log w) = true ->
  signal_type sig <> "extra_buy".
Proof.
  intros Hs Hused Hty. apply compute_signal_kinds in Hs. cbv zeta in Hs.
  destruct Hs as (_ & _ & Hgate). specialize (Hgate Hty). congruence.
Qed.

(** The signals of funds other than [f] add no [extra_buy] row for [f]. *)
Lemma other_funds_add_none st w dry_run f (fcs : list FundCfg.t) sigs :
  Forall2 (fun fc sig => compute_signal st w fc = Some sig) fcs sigs ->
  ~ In f (map FundCfg.code fcs) ->
  count_extra_buy f (flat_map (appended_rows dry_run) sigs) = 0%nat.
Proof.
  induction 1 as [| fc sig fcs sigs Hs _ IH]; intros Hnot; cbn [flat_map].
  - reflexivity.
  - cbn [map In] in Hnot. rewrite count_extra_buy_app, IH by tauto.
    destruct (appended_extra_buy dry_run sig f) as (_ & Hpos).
    destruct (count_extra_buy f (appended_rows dry_run sig)); [reflexivity |].
    destruct Hpos as (_ & Hf); [lia |].
    apply compute_signal_fund_code in Hs. exfalso. apply Hnot. left. congruence.
Qed.

(** One run appends at most one [extra_buy] row per fund, and none for a
    fund that has one in the ledger. *)
Lemma run_adds_extra_buy st w dry_run f (fcs : list FundCfg.t) sigs :
  Forall2 (fun fc sig => compute_signal st w fc = Some sig) fcs sigs ->
  NoDup (map FundCfg.code fcs) ->
  (count_extra_buy f (flat_map (appended_rows dry_run) sigs) <= 1)%nat /\
  (has_used_extra f (trade_log w) = true ->
   count_extra_buy f (flat_map (appended_rows dry_run) sigs) = 0%nat).
Proof.
  induction 1 as [| fc sig fcs sigs Hs Hrest IH]; intros Hnd; cbn [flat_map].
  - cbn. split; [lia | reflexivity].
  - cbn [map] in Hnd. apply NoDup_cons in Hnd. destruct Hnd as [Hfresh Hnd].
    rewrite list_elem_of_In in Hfresh.
    specialize (IH Hnd). destruct IH as [IH1 IH0].
    rewrite count_extra_buy_app.
    destruct (appended_extra_buy dry_run sig f) as (Hle & Hpos).
    destruct (count_extra_buy f (appended_rows dry_run sig)) as [| n] eqn:Hn.
    + split; [lia | intros Hu; rewrite IH0 by assumption; reflexivity].
    + destruct Hpos as (Hty & Hf); [lia |].
      pose proof (compute_signal_fund_code _ _ _ _ Hs) as Hcode.
      assert (f = FundCfg.code fc) as -> by congruence.
      rewrite (other_funds_add_none st w dry_run _ fcs sigs Hrest Hfresh).
      split; [lia |].
      intros Hu. exfalso. exact (extra_buy_gate _ _ _ _ Hs Hu Hty).
Qed.

(** C5.  A fund that has an [extra_buy] row in the ledger never gets an
    [extra_buy] signal; and so, over any number of runs (each reading the
    ledger the previous one left, with every fund listed once), the
    executor appends at most one [extra_buy] row for a fund, and none for a
    fund that had one at the start. *)
Theorem extra_buy_at_most_once :
  (forall (config : Config R) w sigs sig,
     compute_signals config w = Some sigs ->
     In sig sigs ->
     has_used_extra (fund_code sig) (trade_log w) = true ->
     signal_type sig <> "extra_buy") /\
  (forall (log0 log : TradeLog R) f,
     reachable log0 log ->
     exists added,
       log = log0 ++ added /\
       (count_extra_buy f added <= 1)%nat /\
       (has_used_extra f log0 = true -> count_extra_buy f added = 0%nat)).
Proof.
  split.
  - intros config w sigs sig Hm Hin Hused.
    destruct (compute_signals_In _ _ _ _ Hm Hin) as (fc & _ & Hs).
    rewrite (compute_signal_fund_code _ _ _ _ Hs) in Hused.
    exact (extra_buy_gate _ _ _ _ Hs Hused).
  - intros log0 log f Hreach.
    induction Hreach as [| log config w dry_run signals executed log'
                           _ IH Hlog Hnd Hrun].
    + exists []. rewrite app_nil_r. cbn. split; [reflexivity | split; [lia | auto]].
    + destruct IH as (added & -> & Hle & Hzero).
      unfold run in Hrun.
      destruct (compute_signals config w) as [sigs|] eqn:Hm; [| discriminate].
      cbn [mbind option_bind] in Hrun.
      pose proof (execute_signals_log sigs dry_run (trade_log w)) as Hex.
      destruct (execute_signals _ _ _) as [ex lg]. injection Hrun as <- <- <-.
      cbn [snd] in Hex. subst lg.
      unfold compute_signals in Hm. apply mapM_Some in Hm.
      destruct (run_adds_extra_buy _ _ dry_run f _ _ Hm Hnd) as (Hle' & Hzero').
      set (added' := flat_map (appended_rows dry_run) sigs) in *.
      exists (added ++ added'). rewrite Hlog, app_assoc.
      split; [reflexivity |]. rewrite count_extra_buy_app.
      rewrite Hlog in Hzero'.
      pose proof (has_used_extra_count f (log0 ++ added)) as Hc.
      rewrite count_extra_buy_app in Hc.
      pose proof (has_used_extra_count f log0) as Hc0.
      split.
      * destruct (count_extra_buy f added) as [| n]; [lia |].
        rewrite Hzero' by (apply Hc; lia). lia.
      * intros Hu. rewrite Hzero by assumption.
        rewrite Hzero'; [reflexivity |]. apply Hc. apply Hc0 in Hu. lia.
Qed.

End Properties.

(** * The buy branch of a run *)

Section BuyVerdict.
Context {R : Type} `{Num R}.

Implicit Types (st : Strategy R) (w : World R) (fc : FundCfg.t) (sig : Signal R).

(** A signal of type buy or extra buy has its blocks from the cooldown
    check alone. *)
Lemma buy_type_blocks st w fc sig dev th :
  compute_signal st w fc = Some sig ->
  In (signal_type sig) ["buy"; "extra_buy"] ->
  deviation_pct sig = Some dev ->
  get_thresholds st (FundCfg.volatility fc) = Some th ->
  let cooldown :=
    match more_recent
            (get_last_trade_date (FundCfg.code fc) "buy" (trade_log w))
            (get_last_trade_date (FundCfg.code fc) "extra_buy" (trade_log w)) with
    | Some d =>
        if today w - d <? buy_cooldown_days st then
          if nleb dev (nsub (buy_pct th) (cooldown_override_extra_pct st))
          then []
          else [BBuyCooldown (today w - d) (buy_cooldown_days st)]
        else []
    | None => []
    end in
  block_reasons sig = cooldown /\
  can_execute sig = (Z.of_nat (length cooldown) =? 0).
Proof.
  intros Hs Hty Hdev Hth. cbv zeta.
  destruct (String.eqb_spec (FundCfg.volatility fc) "low") as [Hlow | Hvol].
  { rewrite compute_signal_low in Hs by assumption. cbv zeta in Hs.
    injection Hs as <-. exfalso.
    destruct (_ <? _), (fetch_current_nav w _) as [[d v]|]; cbn in Hdev;
      discriminate. }
  destruct (timed_verdict _ _ _ _ _ _ Hvol Hs Hdev Hth) as (latest & ma & _ & _ & Hv).
  pose proof (measured_signal_fields w fc latest ma dev) as Hf. cbv zeta in Hf.
  destruct Hf as (_ & _ & _ & _ & _ & _ & _ & _ & Hunset & _).
  unfold verdict in Hv.
  destruct (nleb (sell_pct th) dev).
  { exfalso. injection Hv as <-.
    pose proof (sell_branch_fields st w (FundCfg.code fc) dev (sell_pct th)
                  (measured_signal w fc latest ma dev)) as Hb.
    cbv zeta in Hb. destruct Hb as (_ & _ & Hb & _). rewrite Hb in Hty.
    destruct (_ >? 0); cbn in Hty; intuition discriminate. }
  destruct (nleb dev (buy_pct th)).
  2:{ exfalso. injection Hv as <-. cbn in Hty. intuition discriminate. }
  apply buy_branch_cases in Hv; [| assumption]. cbv zeta in Hv.
  destruct Hv as [(_ & _ & ? & ?) | [(_ & _ & _ & _ & ? & ?) | (E & _)]]; auto.
  rewrite E in Hty. cbn in Hty. intuition discriminate.
Qed.

(** A buy or extra buy signal is refused exactly when the fund's last buy
    or extra buy is fewer than [buy_cooldown_days] days old and the
    deviation does not reach [buy_pct - cooldown_override_extra_pct].  In
    particular a fund with no dated buy on record, or one bought long
    enough ago, gets an executable signal. *)
Theorem buy_signal_executable st w fc sig dev th :
  compute_signal st w fc = Some sig ->
  In (signal_type sig) ["buy"; "extra_buy"] ->
  deviation_pct sig = Some dev ->
  get_thresholds st (FundCfg.volatility fc) = Some th ->
  (can_execute sig = false <->
   exists d,
     more_recent (get_last_trade_date (FundCfg.code fc) "buy" (trade_log w))
                 (get_last_trade_date (FundCfg.code fc) "extra_buy" (trade_log w))
       = Some d /\
     today w - d < buy_cooldown_days st /\
     nleb dev (nsub (buy_pct th) (cooldown_override_extra_pct st)) = false) /\
  (can_execute sig = true <-> block_reasons sig = []).
Proof.
  intros Hs Hty Hdev Hth.
  destruct (buy_type_blocks _ _ _ _ _ _ Hs Hty Hdev Hth) as [Hbl Hcan].
  cbv zeta in Hbl, Hcan. rewrite Hcan, Hbl. clear Hbl Hcan.
  destruct (more_recent _ _) as [d|].
  - destruct (today w - d <? buy_cooldown_days st) eqn:Hin.
    + destruct (nleb dev _) eqn:Hover; cbn; split; split;
        try discriminate; try reflexivity.
      * intros (d' & [= <-] & _ & ?). discriminate.
      * intros _. exists d. split; [reflexivity |]. split; [lia | reflexivity].
    + cbn. split; split; try discriminate; try reflexivity.
      intros (d' & [= <-] & ? & _). lia.
  - cbn. split; split; try discriminate; try reflexivity.
    intros (d' & ? & _). discriminate.
Qed.

(** C4.  For a buy or extra buy signal inside the buy cooldown (fewer than
    [buy_cooldown_days] days since the more recent of the last buy and the
    last extra buy), with [bound] the difference
    [buy_pct - cooldown_override_extra_pct] as the code computes it: the
    cooldown block is added exactly when the test [deviation <= bound]
    fails; when it passes the cooldown is overridden, with no block and an
    executable signal.  The test fails exactly when [deviation > bound],
    the two numbers being comparable (as all are but NaN). *)
Theorem buy_cooldown_override st w fc sig dev th d :
  compute_signal st w fc = Some sig ->
  In (signal_type sig) ["buy"; "extra_buy"] ->
  deviation_pct sig = Some dev ->
  get_thresholds st (FundCfg.volatility fc) = Some th ->
  more_recent (get_last_trade_date (FundCfg.code fc) "buy" (trade_log w))
              (get_last_trade_date (FundCfg.code fc) "extra_buy" (trade_log w))
    = Some d ->
  today w - d < buy_cooldown_days st ->
  let bound := nsub (buy_pct th) (cooldown_override_extra_pct st) in
  let block := BBuyCooldown (today w - d) (buy_cooldown_days st) in
  (In block (block_reasons sig) <-> nleb dev bound = false) /\
  (nleb dev bound = true -> block_reasons sig = [] /\ can_execute sig = true) /\
  (nleb dev bound = false -> block_reasons sig = [block] /\ can_execute sig = false) /\
  (comparable dev bound ->
   (In block (block_reasons sig) <-> nltb bound dev = true)).
Proof.
  intros Hs Hty Hdev Hth Hrecent Hdays.
  destruct (buy_type_blocks _ _ _ _ _ _ Hs Hty Hdev Hth) as [Hbl Hcan].
  cbv zeta in Hbl, Hcan. rewrite Hrecent in Hbl, Hcan.
  assert (Hlt : (today w - d <? buy_cooldown_days st) = true) by lia.
  rewrite Hlt in Hbl, Hcan. cbv zeta. unfold comparable.
  destruct (nleb dev _) eqn:Hover; rewrite Hbl, Hcan; cbn.
  - split; [split; [intros [] | discriminate] |].
    split; [auto |]. split; [discriminate |].
    intros ->. split; [intros [] | discriminate].
  - split; [split; [reflexivity | intros _; left; reflexivity] |].
    split; [discriminate |]. split; [auto |].
    intros ->. split; [reflexivity | intros _; left; reflexivity].
Qed.

(** The extra buy.  For a timed fund in the buy branch (the sell test
    failed, the buy test passed) whose held shares, as [get_current_shares]
    counts them, have reached [max_shares], with no extra buy on record and
    a last buy at [last_buy_nav]: the drop from that price is computed
    (unless the price is zero, which raises), and the signal is an extra buy
    exactly when the test [drop > extra_drop_pct] fails.  It is then
    executable unless the buy cooldown blocks it; otherwise the type stays
    unset, the signal is not executable and its one block reason reports the
    drop and the bound.  The test fails exactly when
    [drop <= extra_drop_pct], the two numbers being comparable. *)
Theorem extra_buy_drop_rule st w fc sig dev th last_buy_nav :
  FundCfg.volatility fc <> "low" ->
  compute_signal st w fc = Some sig ->
  deviation_pct sig = Some dev ->
  get_thresholds st (FundCfg.volatility fc) = Some th ->
  nleb (sell_pct th) dev = false ->
  nleb dev (buy_pct th) = true ->
  FundCfg.max_shares fc <= get_current_shares (FundCfg.code fc) (trade_log w) ->
  has_used_extra (FundCfg.code fc) (trade_log w) = false ->
  get_last_buy_nav (FundCfg.code fc) (trade_log w) = Some last_buy_nav ->
  let held := get_current_shares (FundCfg.code fc) (trade_log w) in
  exists drop,
    drop_from_last (current_nav sig) last_buy_nav = Some drop /\
    (signal_type sig = "extra_buy" <-> nltb (extra_drop_pct st) drop = false) /\
    (nltb (extra_drop_pct st) drop = false ->
     (block_reasons sig = [] /\ can_execute sig = true) \/
     (exists days,
        block_reasons sig = [BBuyCooldown days (buy_cooldown_days st)] /\
        can_execute sig = false)) /\
    (nltb (extra_drop_pct st) drop = true ->
     signal_type sig = "" /\ can_execute sig = false /\
     block_reasons sig =
       [BDropShort held (FundCfg.max_shares fc) drop (extra_drop_pct st)]) /\
    (comparable drop (extra_drop_pct st) ->
     (signal_type sig = "extra_buy" <-> nleb drop (extra_drop_pct st) = true)).
Proof.
  intros Hvol Hs Hdev Hth Hs1 Hs2 Hfull Hunused Hlast.
  destruct (timed_verdict _ _ _ _ _ _ Hvol Hs Hdev Hth) as (latest & ma & _ & _ & Hv).
  unfold verdict in Hv. rewrite Hs1, Hs2 in Hv.
  pose proof (buy_branch_nav _ _ _ _ _ _ _ _ Hv) as Hnav.
  pose proof (measured_signal_fields w fc latest ma dev) as Hf. cbv zeta in Hf.
  destruct Hf as (_ & _ & _ & _ & _ & Hheld & _ & _ & Hunset & _).
  apply buy_branch_cases in Hv; [| assumption]. cbv zeta in Hv.
  rewrite Hheld, <- Hnav in Hv. cbv zeta. unfold comparable.
  destruct Hv as [(_ & Hlt & _) | [(Hty & _ & _ & (lbn & x & Hl & Hx & Hok) & Hbl & Hcan)
                 | (Hty & _ & Hcan & [(Hu & _) | [(_ & Hn & _)
                    | (_ & lbn & x & Hl & Hx & Hshort & Hbl)]])]];
    try lia; try congruence.
  - assert (lbn = last_buy_nav) as -> by congruence.
    exists x. split; [assumption |]. split; [tauto |]. split; [| split].
    + intros _. rewrite Hcan, Hbl.
      destruct (more_recent _ _) as [d|]; [| auto].
      destruct (_ <? _); [| auto]. destruct (nleb dev (nsub _ _)); [auto |].
      right. eexists. split; reflexivity.
    + congruence.
    + rewrite Hok. intros Hc. destruct (nleb x _); [tauto | discriminate].
  - assert (lbn = last_buy_nav) as -> by congruence.
    exists x. split; [assumption |]. rewrite Hty, Hshort.
    split; [split; discriminate |]. split; [discriminate |]. split; [auto |].
    intros Hc. destruct (nleb x _); [discriminate |]. split; discriminate.
Qed.

End BuyVerdict.

(** * The average cost *)

Section AverageCost.
Context {R : Type} `{Num R}.

(** The share count of the running state is never negative. *)
Lemma held_units_nonneg f (log : TradeLog R) : 0 <= held_units f log.
Proof.
  unfold held_units. induction log as [| row log IH] using rev_ind.
  - cbn. lia.
  - rewrite avg_cost_state_snoc.
    destruct (avg_cost_state f log) as [c n]. cbn [snd] in IH.
    unfold avg_cost_step.
    destruct (String.eqb _ f); [| exact IH].
    destruct (row_shares_delta row >? 0) eqn:Hpos; [cbn; lia |].
    destruct (row_shares_delta row <? 0) eqn:Hneg; [| exact IH].
    destruct (n >? 0) eqn:Hheld; cbn; lia.
Qed.

(** C6, as amended.  [get_avg_cost] keeps a running total cost and share
    count and returns their quotient, or nothing exactly when no share is
    held.  A row that acquires shares adds its shares at its price.  A row
    that disposes of shares removes them at the average current at that
    time: the total cost goes down by the shares sold times that average;
    when shares remain, the new average is the quotient of what is left,
    and when none remain there is no average. *)
Theorem avg_cost_running_average f log (row : TradeRow R) :
  row_fund_code row = f ->
  let cost := fst (avg_cost_state f log) in
  let n := held_units f log in
  let delta := row_shares_delta row in
  let log' := log ++ [row] in
  0 <= n /\
  (get_avg_cost f log = None <-> n = 0) /\
  (0 < n -> get_avg_cost f log = Some (ndiv cost (of_Z n))) /\
  (0 < delta ->
   held_units f log' = n + delta /\
   get_avg_cost f log' =
     Some (ndiv (nadd cost (nmul (of_Z delta) (row_nav row))) (of_Z (n + delta)))) /\
  (delta < 0 ->
   held_units f log' = Z.max 0 (n + delta) /\
   (0 < n + delta ->
    exists a,
      get_avg_cost f log = Some a /\
      get_avg_cost f log' =
        Some (ndiv (nsub cost (nmul (of_Z (- delta)) a)) (of_Z (n + delta)))) /\
   (n + delta <= 0 -> get_avg_cost f log' = None)) /\
  (delta = 0 ->
   held_units f log' = n /\ get_avg_cost f log' = get_avg_cost f log).
Proof.
  intros Hf. cbv zeta.
  pose proof (held_units_nonneg f log) as Hn.
  unfold held_units, get_avg_cost in *.
  rewrite avg_cost_state_snoc.
  destruct (avg_cost_state f log) as [c n]. cbn [fst snd] in *.
  unfold avg_cost_step. rewrite Hf, String.eqb_refl.
  set (delta := row_shares_delta row). set (nav := row_nav row).
  split; [assumption |]. split; [| split; [| split; [| split]]].
  - destruct (n >? 0) eqn:Hheld; split; intros; try discriminate; try lia; reflexivity.
  - intros Hpos. assert ((n >? 0) = true) as -> by lia. reflexivity.
  - intros Hpos.
    assert ((delta >? 0) = true) as -> by lia. cbn [fst snd].
    split; [reflexivity |].
    assert ((n + delta >? 0) = true) as -> by lia. reflexivity.
  - intros Hneg.
    assert ((delta >? 0) = false) as -> by lia.
    assert ((delta <? 0) = true) as -> by lia.
    destruct (n >? 0) eqn:Hheld; cbn [fst snd].
    + split; [lia |]. split.
      * intros Hrest.
        assert (Z.min (Z.abs delta) n = - delta) as -> by lia.
        assert ((n - - delta >? 0) = true) as -> by lia.
        eexists. split; [reflexivity |].
        replace (n - - delta) with (n + delta) by lia. reflexivity.
      * intros Hgone.
        assert (Z.min (Z.abs delta) n = n) as -> by lia.
        replace (n - n) with 0 by lia. reflexivity.
    + rewrite Hheld. split; [lia |]. split; [lia | reflexivity].
  - intros Hzero.
    assert ((delta >? 0) = false) as -> by lia.
    assert ((delta <? 0) = false) as -> by lia.
    split; reflexivity.
Qed.

End AverageCost.

(** * Exact arithmetic

    The same algorithm over the rationals, where nothing is rounded. *)

Section Exact.

Implicit Types (log : TradeLog Q).

(** Any two rationals are comparable. *)
Lemma comparable_Q (a b : Q) : comparable a b.
Proof. unfold comparable. cbn. reflexivity. Qed.

Lemma inject_Z_nonzero (z : Z) : z <> 0 -> ~ (inject_Z z == 0)%Q.
Proof.
  intros Hz E. apply Hz. unfold Qeq in E. cbn in E. lia.
Qed.

(** The running state of [get_avg_cost]: an empty position costs
    nothing. *)
Lemma avg_cost_state_inv f log :
  0 <= snd (avg_cost_state f log) /\
  (snd (avg_cost_state f log) = 0 -> (fst (avg_cost_state f log) == 0)%Q).
Proof.
  induction log as [| row log IH] using rev_ind.
  - cbn. split; [lia | reflexivity].
  - rewrite avg_cost_state_snoc.
    destruct (avg_cost_state f log) as [c n]. cbn [fst snd] in IH.
    destruct IH as [Hn Hc]. unfold avg_cost_step.
    destruct (String.eqb _ f); [| cbn; auto].
    destruct (row_shares_delta row >? 0) eqn:Hpos.
    { cbn. split; lia. }
    destruct (row_shares_delta row <? 0) eqn:Hneg; [| cbn; auto].
    destruct (n >? 0) eqn:Hheld; [| cbn; auto].
    cbn [fst snd]. split; [lia |].
    intros Hzero.
    assert (Z.min (Z.abs (row_shares_delta row)) n = n) as -> by lia.
    cbn. field. apply inject_Z_nonzero. lia.
Qed.

(** Without rounding, a disposal that leaves shares leaves the average
    cost per share as it was, and an acquisition moves it to the weighted
    mean of the old average and the row's price. *)
Lemma avg_cost_exact f log (row : TradeRow Q) :
  row_fund_code row = f ->
  let n := held_units f log in
  let delta := row_shares_delta row in
  let log' := log ++ [row] in
  (0 < delta ->
   exists a',
     get_avg_cost f log' = Some a' /\
     match get_avg_cost f log with
     | Some a =>
         (a' == (a * inject_Z n + inject_Z delta * row_nav row) / inject_Z (n + delta))%Q
     | None => (a' == row_nav row)%Q
     end) /\
  (delta < 0 -> 0 < n + delta ->
   exists a a',
     get_avg_cost f log = Some a /\ get_avg_cost f log' = Some a' /\ (a' == a)%Q).
Proof.
  intros Hf. cbv zeta. unfold held_units, get_avg_cost.
  rewrite avg_cost_state_snoc.
  destruct (avg_cost_state_inv f log) as [Hn Hc].
  destruct (avg_cost_state f log) as [c n]. cbn [fst snd] in *.
  unfold avg_cost_step. rewrite Hf, String.eqb_refl.
  set (delta := row_shares_delta row). set (nav := row_nav row).
  split.
  - intros Hpos.
    assert ((delta >? 0) = true) as -> by lia. cbn [fst snd].
    assert ((n + delta >? 0) = true) as -> by lia.
    eexists. split; [reflexivity |].
    destruct (n >? 0) eqn:Hheld; cbn.
    + rewrite inject_Z_plus. field.
      repeat split; try (apply inject_Z_nonzero; lia);
        rewrite <- inject_Z_plus; apply inject_Z_nonzero; lia.
    + assert (n = 0) as -> by lia. rewrite Hc by reflexivity.
      rewrite Z.add_0_l. field. apply inject_Z_nonzero. lia.
  - intros Hneg Hrest.
    assert ((delta >? 0) = false) as -> by lia.
    assert ((delta <? 0) = true) as -> by lia.
    assert ((n >? 0) = true) as -> by lia. cbn [fst snd].
    assert (Z.min (Z.abs delta) n = - delta) as -> by lia.
    assert ((n - - delta >? 0) = true) as -> by lia.
    do 2 eexists. split; [reflexivity |]. split; [reflexivity |].
    cbn. replace (n - - delta) with (n + delta) by lia.
    rewrite inject_Z_plus, inject_Z_opp. field.
    repeat split; try (apply inject_Z_nonzero; lia);
      rewrite <- inject_Z_plus; apply inject_Z_nonzero; lia.
Qed.

(** *** Current shares *)

(** C1 fails on the code: [get_current_shares] adds up the rows of every
    action.  One [extra_buy] row of one share gives 1 where the sum over
    buy and sell rows is 0; a [hold_buy] row is counted likewise. *)
Lemma current_shares_counts_every_action :
  get_current_shares "X" [Scenario.row 0 "X" "extra_buy" 1 1] = 1 /\
  current_shares_spec "X" [Scenario.row 0 "X" "extra_buy" 1 1] = 0 /\
  get_current_shares "X" [Scenario.row 0 "X" "hold_buy" 1 1] = 1 /\
  current_shares_spec "X" [Scenario.row 0 "X" "hold_buy" 1 1] = 0.
Proof. vm_compute. auto. Qed.

End Exact.

(** * Binary64 *)

Section Binary64Facts.

Lemma SF_comparable (s1 s2 : spec_float) :
  s1 <> S754_nan -> s2 <> S754_nan ->
  SFltb s2 s1 = negb (SFleb s1 s2).
Proof.
  intros H1 H2. unfold SFltb, SFleb.
  destruct s1 as [b1 | b1 | | b1 m1 e1], s2 as [b2 | b2 | | b2 m2 e2];
    try contradiction; cbn;
    try (destruct b1; reflexivity);
    try (destruct b2; reflexivity);
    try (destruct b1, b2; reflexivity).
  change (PosDef.Pos.compare_cont Eq m2 m1) with (Pos.compare_cont (CompOpp Eq) m2 m1).
  change (PosDef.Pos.compare_cont Eq m1 m2) with (Pos.compare_cont Eq m1 m2).
  rewrite <- (Pos.compare_cont_antisym m1 m2 Eq), (Z.compare_antisym e1 e2).
  destruct b1, b2; try reflexivity;
    destruct (e1 ?= e2)%Z; cbn; try reflexivity;
    destruct (Pos.compare_cont Eq m1 m2); reflexivity.
Qed.

(** Any two binary64 numbers other than NaN are comparable. *)
Lemma comparable_float (x y : float) :
  PrimFloat.is_nan x = false -> PrimFloat.is_nan y = false ->
  comparable x y.
Proof.
  unfold comparable, PrimFloat.is_nan. cbn [nltb nleb Num_float].
  intros Hx Hy. apply negb_false_iff in Hx, Hy.
  rewrite FloatAxioms.eqb_spec in Hx, Hy.
  rewrite FloatAxioms.ltb_spec, FloatAxioms.leb_spec.
  apply SF_comparable; intros E; rewrite E in *; discriminate.
Qed.

End Binary64Facts.

(** * The properties on the scenarios *)

Section Checks.
Import Scenario.

(** C2, the claim as stated, fails: with the quota of X full and its extra
    buy already in the ledger, a dip below the buy threshold yields a
    signal whose type is the empty text, outside the six documented types. *)
Lemma signal_type_unset_example :
  compute_signals config (world after_extra_buy 1000 dip)
    = Some [signal_x (world after_extra_buy 1000 dip)] /\
  signal_type (signal_x (world after_extra_buy 1000 dip)) = "" /\
  ~ In (signal_type (signal_x (world after_extra_buy 1000 dip))) signal_types.
Proof.
  split; [eval_eq |]. split; [eval_eq |].
  vm_compute. intuition discriminate.
Qed.

(** On the same run the amended statement holds through its second case:
    the type is unset, the signal is not executable, an extra buy is on
    record and the one block reason says so. *)
Lemma signal_type_documented_or_unset_witness :
  compute_signals config (world after_extra_buy 1000 dip)
    = Some [signal_x (world after_extra_buy 1000 dip)] /\
  signal_type (signal_x (world after_extra_buy 1000 dip)) = "" /\
  can_execute (signal_x (world after_extra_buy 1000 dip)) = false /\
  has_used_extra "X" after_extra_buy = true /\
  block_reasons (signal_x (world after_extra_buy 1000 dip)) = [BExtraUsed 11 10].
Proof.
  assert (E : compute_signals config (world after_extra_buy 1000 dip)
              = Some [signal_x (world after_extra_buy 1000 dip)]) by eval_eq.
  split; [exact E |].
  destruct (signal_type_documented_or_unset config _ _ _ E (or_introl eq_refl))
    as [Hdoc | (Hty & Hcan & fc & dev & th & Hin & _ & _ & _ & _ & _ & _ & Hrest)].
  - exfalso. vm_compute in Hdoc. intuition discriminate.
  - split; [exact Hty |]. split; [exact Hcan |].
    cbn in Hin. destruct Hin as [<- | []].
    cbv zeta in Hrest. destruct Hrest as (_ & [(Hu & Hbl) | [(Hu & _) | (Hu & _)]]).
    + split; [exact Hu |]. rewrite Hbl. eval_eq.
    + exfalso. vm_compute in Hu. discriminate.
    + exfalso. vm_compute in Hu. discriminate.
Defined.


(** The extra-buy rule on the end-to-end scenario, in binary64: quota 10
    of 10, last buy at 1.0, price 0.9, [extra_drop_pct] 8.  The drop is
    -9.999999999999998 and the signal is an executable extra buy. *)
Lemma extra_buy_drop_rule_witness :
  compute_signal Binary64.strat Binary64.extra_buy_world fund_x
    = Some (Binary64.signal_x Binary64.extra_buy_world) /\
  get_current_shares "X" (trade_log Binary64.extra_buy_world) = 10 /\
  drop_from_last (current_nav (Binary64.signal_x Binary64.extra_buy_world)) 1%float
    = Some (-0x1.3ffffffffffffp+3)%float /\
  signal_type (Binary64.signal_x Binary64.extra_buy_world) = "extra_buy" /\
  can_execute (Binary64.signal_x Binary64.extra_buy_world) = true.
Proof.
  assert (E : compute_signal Binary64.strat Binary64.extra_buy_world fund_x
              = Some (Binary64.signal_x Binary64.extra_buy_world)) by eval_eq.
  split; [exact E |]. split; [eval_eq |].
  destruct (extra_buy_drop_rule Binary64.strat Binary64.extra_buy_world fund_x
              (Binary64.signal_x Binary64.extra_buy_world)
              (Binary64.deviation_x Binary64.extra_buy_world)
              {| buy_pct := (-15)%float; sell_pct := 20%float |} 1%float)
    as (drop & Hdrop & Hiff & Hok & _ & Hle); try eval_eq.
  - discriminate.
  - vm_compute. discriminate.
  - assert (Hd : drop = (-0x1.3ffffffffffffp+3)%float).
    { vm_compute in Hdrop. injection Hdrop as <-. reflexivity. }
    subst drop. split; [exact Hdrop |].
    assert (Hty : signal_type (Binary64.signal_x Binary64.extra_buy_world)
                  = "extra_buy") by (apply Hle; eval_eq).
    split; [exact Hty |].
    destruct Hok as [(_ & Hcan) | (days & Hbl & _)];
      [apply Hiff; exact Hty | exact Hcan |].
    vm_compute in Hbl. discriminate.
Defined.

(** The scenario of C4 in binary64: thresholds -15 and 5, a buy 10 days
    ago, a cooldown of 30 days.  A deviation of -21 overrides the cooldown,
    one of -16 is blocked. *)
Lemma buy_cooldown_override_witness :
  (Binary64.deviation_x
     (Binary64.world Binary64.bought_10_days_ago 1000 Binary64.deviation_21)
     = (-21)%float /\
   block_reasons
     (Binary64.signal_x
        (Binary64.world Binary64.bought_10_days_ago 1000 Binary64.deviation_21))
     = [] /\
   can_execute
     (Binary64.signal_x
        (Binary64.world Binary64.bought_10_days_ago 1000 Binary64.deviation_21))
     = true) /\
  (Binary64.deviation_x
     (Binary64.world Binary64.bought_10_days_ago 1000 Binary64.deviation_16)
     = (-16)%float /\
   block_reasons
     (Binary64.signal_x
        (Binary64.world Binary64.bought_10_days_ago 1000 Binary64.deviation_16))
     = [BBuyCooldown 10 30] /\
   can_execute
     (Binary64.signal_x
        (Binary64.world Binary64.bought_10_days_ago 1000 Binary64.deviation_16))
     = false).
Proof.
  split; (split; [eval_eq |]).
  - set (w := Binary64.world Binary64.bought_10_days_ago 1000 Binary64.deviation_21).
    destruct (buy_cooldown_override Binary64.strat w fund_x (Binary64.signal_x w)
                (Binary64.deviation_x w)
                {| buy_pct := (-15)%float; sell_pct := 20%float |} 990)
      as (_ & Hover & _); try eval_eq.
    + vm_compute. auto.
    + apply Hover. eval_eq.
  - set (w := Binary64.world Binary64.bought_10_days_ago 1000 Binary64.deviation_16).
    destruct (buy_cooldown_override Binary64.strat w fund_x (Binary64.signal_x w)
                (Binary64.deviation_x w)
                {| buy_pct := (-15)%float; sell_pct := 20%float |} 990)
      as (Hin & _ & Hblock & Hgt); try eval_eq.
    + vm_compute. auto.
    + assert (Hb : In (BBuyCooldown (today w - 990) (buy_cooldown_days Binary64.strat))
                      (block_reasons (Binary64.signal_x w)))
        by (apply Hgt; eval_eq).
      apply Hin in Hb. apply Hblock. exact Hb.
Defined.


(** The sell branch on three ledgers, under a rally above the sell
    threshold: two regular shares and one extra share, no sale before (the
    extra share is sold first); two buys and a sale ten days ago (the
    cooldown of 30 days blocks); an empty ledger (nothing to sell). *)
Lemma sell_trigger_signal_witness :
  (get_extra_shares "X" Binary64.regular_2_extra_1 = 1 /\
   block_reasons
     (Binary64.signal_x
        (Binary64.world Binary64.regular_2_extra_1 1000 Binary64.rally)) = [] /\
   can_execute
     (Binary64.signal_x
        (Binary64.world Binary64.regular_2_extra_1 1000 Binary64.rally)) = true /\
   signal_type
     (Binary64.signal_x
        (Binary64.world Binary64.regular_2_extra_1 1000 Binary64.rally))
     = "extra_sell") /\
  (get_current_shares "X" Binary64.sold_10_days_ago = 1 /\
   block_reasons
     (Binary64.signal_x
        (Binary64.world Binary64.sold_10_days_ago 1000 Binary64.rally))
     = [BSellCooldown 10 30] /\
   can_execute
     (Binary64.signal_x
        (Binary64.world Binary64.sold_10_days_ago 1000 Binary64.rally)) <> true /\
   signal_type
     (Binary64.signal_x
        (Binary64.world Binary64.sold_10_days_ago 1000 Binary64.rally)) = "sell") /\
  (block_reasons (Binary64.signal_x (Binary64.world [] 1000 Binary64.rally))
     = [BNoPosition] /\
   signal_type (Binary64.signal_x (Binary64.world [] 1000 Binary64.rally)) = "sell").
Proof.
  split; [| split].
  - set (w := Binary64.world Binary64.regular_2_extra_1 1000 Binary64.rally).
    split; [eval_eq |].
    destruct (sell_trigger_signal Binary64.strat w fund_x (Binary64.signal_x w)
                (Binary64.deviation_x w)
                {| buy_pct := (-15)%float; sell_pct := 20%float |})
      as (Hbl & Hcan & Hextra & _); try eval_eq.
    + discriminate.
    + assert (Hnone : block_reasons (Binary64.signal_x w) = [])
        by (rewrite Hbl; eval_eq).
      split; [exact Hnone |]. split; [apply Hcan; exact Hnone |].
      apply Hextra. eval_eq.
  - set (w := Binary64.world Binary64.sold_10_days_ago 1000 Binary64.rally).
    split; [eval_eq |].
    destruct (sell_trigger_signal Binary64.strat w fund_x (Binary64.signal_x w)
                (Binary64.deviation_x w)
                {| buy_pct := (-15)%float; sell_pct := 20%float |})
      as (Hbl & Hcan & _ & Hsell); try eval_eq.
    + discriminate.
    + assert (Hone : block_reasons (Binary64.signal_x w) = [BSellCooldown 10 30])
        by (rewrite Hbl; eval_eq).
      split; [exact Hone |]. split.
      * intros Hc. apply Hcan in Hc. rewrite Hone in Hc. discriminate.
      * apply Hsell. vm_compute. discriminate.
  - set (w := Binary64.world [] 1000 Binary64.rally).
    destruct (sell_trigger_signal Binary64.strat w fund_x (Binary64.signal_x w)
                (Binary64.deviation_x w)
                {| buy_pct := (-15)%float; sell_pct := 20%float |})
      as (Hbl & _ & _ & Hsell); try eval_eq.
    + discriminate.
    + split; [rewrite Hbl; eval_eq |].
      apply Hsell. vm_compute. discriminate.
Defined.

(** C8 fails on the code.  Fund X, moved to tier "low" with a quota of 11,
    after its ten regular buys and its one extra buy: the current shares
    (buy and sell rows) are 10, below the quota, so [hold_buy] is due; but
    [get_current_shares] counts the extra buy, finds 11, and the code
    signals [none]. *)
Lemma low_tier_full_by_share_count :
  FundCfg.volatility Binary64.fund_x_low = "low" /\
  current_shares_spec "X" Binary64.after_extra_buy = 10 /\
  FundCfg.max_shares Binary64.fund_x_low = 11 /\
  get_current_shares "X" Binary64.after_extra_buy = 11 /\
  exists sig,
    compute_signal Binary64.strat
      (Binary64.world Binary64.after_extra_buy 1000 Binary64.dip)
      Binary64.fund_x_low = Some sig /\
    held_shares sig = 11 /\
    signal_type sig = "none" /\
    can_execute sig = false.
Proof.
  split; [reflexivity |]. split; [eval_eq |]. split; [reflexivity |].
  split; [eval_eq |].
  eexists. split; [vm_compute; reflexivity |]. cbn. auto.
Qed.

(** The bond fund with two shares of a quota of 5 ([hold_buy]) and with
    five ([none]). *)
Lemma low_tier_signal_witness :
  (exists sig,
     compute_signal Binary64.strat
       (Binary64.world Binary64.two_bonds 1000 Binary64.rally) bond_b = Some sig /\
     held_shares sig = 2 /\
     signal_type sig = "hold_buy" /\ can_execute sig = true /\
     deviation_pct sig = None) /\
  (exists sig,
     compute_signal Binary64.strat
       (Binary64.world Binary64.five_bonds 1000 Binary64.rally) bond_b = Some sig /\
     held_shares sig = 5 /\
     signal_type sig = "none" /\ can_execute sig = false /\
     deviation_pct sig = None).
Proof.
  split.
  - destruct (low_tier_signal Binary64.strat
                (Binary64.world Binary64.two_bonds 1000 Binary64.rally) bond_b eq_refl)
      as (sig & Hs & ((_ & Hhold) & _) & _ & Hdev & _).
    exists sig. split; [exact Hs |].
    split; [vm_compute in Hs; injection Hs as <-; reflexivity |].
    destruct Hhold as [Hty Hcan]; [eval_eq |]. auto.
  - destruct (low_tier_signal Binary64.strat
                (Binary64.world Binary64.five_bonds 1000 Binary64.rally) bond_b eq_refl)
      as (sig & Hs & (_ & (_ & Hfull)) & _ & Hdev & _).
    exists sig. split; [exact Hs |].
    split; [vm_compute in Hs; injection Hs as <-; reflexivity |].
    destruct Hfull as [Hty Hcan]; [vm_compute; discriminate |]. auto.
Defined.

(** The scenario of C9: 40 price points with [ma_days] 250. *)
Lemma short_history_signal_witness :
  exists sig,
    compute_signal strat (world [] 1000 short_history) fund_x = Some sig /\
    signal_type sig = "none" /\ can_execute sig = false /\
    reason sig = RHistoryShort 40 /\
    ma250 sig = None /\ deviation_pct sig = None.
Proof.
  destruct (short_history_signal strat (world [] 1000 short_history) fund_x)
    as (sig & Hs & Hty & Hcan & Hreason & Hma & Hdev & _).
  - discriminate.
  - eval_eq.
  - exists sig. change 40 with
      (Z.of_nat (length (fetch_nav_history (world [] 1000 short_history)
                           (FundCfg.code fund_x) (ma_days strat + 30)))).
    auto 10.
Defined.

(** The executable extra buy of the end-to-end scenario is appended as one
    [extra_buy] row of one share. *)
Lemma executable_signal_has_action_witness :
  can_execute (signal_x extra_buy_world) = true /\
  In (signal_type (signal_x extra_buy_world)) executable_types /\
  snd (execute_step false ([], full_quota) (signal_x extra_buy_world))
    = append_trade_log (Some 999) "X" "extra_buy" (9 # 10) 1
        (reason (signal_x extra_buy_world)) full_quota.
Proof.
  assert (Hcan : can_execute (signal_x extra_buy_world) = true) by eval_eq.
  split; [exact Hcan |].
  destruct (executable_signal_has_action config extra_buy_world
              [signal_x extra_buy_world] (signal_x extra_buy_world))
    as (Hty & Hstep); try eval_eq.
  - left. reflexivity.
  - split; [exact Hty |].
    destruct (Hstep [] full_quota) as (_ & action & delta & -> & Hin).
    assert (Hsig : signal_type (signal_x extra_buy_world) = "extra_buy") by eval_eq.
    rewrite Hsig in Hin. cbn [In] in Hin.
    destruct Hin as [Hin | [Hin | [Hin | [Hin | [Hin | []]]]]];
      try discriminate Hin.
    injection Hin as <- <-. eval_eq.
Defined.

(** C6, the claim as stated, fails: in binary64 a disposal can move the
    average.  After three buys of one share at 0.1 the average is
    0.10000000000000002; after the sale of one share it is 0.1. *)
Lemma avg_cost_moved_by_sale :
  get_avg_cost "X" Binary64.three_buys = Some 0x1.999999999999bp-4%float /\
  get_avg_cost "X" (Binary64.three_buys ++ [Binary64.sale_0_1])
    = Some 0x1.999999999999ap-4%float /\
  held_units "X" (Binary64.three_buys ++ [Binary64.sale_0_1]) = 2 /\
  PrimFloat.eqb 0x1.999999999999bp-4%float 0x1.999999999999ap-4%float = false.
Proof. eval_all. Qed.

(** The scenario of C6 in binary64: buy 1 at 10, buy 1 at 12, sell 1.  The
    average is 11 before the sale and (22 - 1 * 11) / 1 = 11 after it, with
    one share held. *)
Lemma avg_cost_running_average_witness :
  get_avg_cost "X" Binary64.two_buys = Some 11%float /\
  get_avg_cost "X" (Binary64.two_buys ++ [Binary64.sale]) = Some 11%float /\
  held_units "X" (Binary64.two_buys ++ [Binary64.sale]) = 1.
Proof.
  destruct (avg_cost_running_average "X" Binary64.two_buys Binary64.sale eq_refl)
    as (_ & _ & Hbefore & _ & Hsell & _).
  assert (Ha : get_avg_cost "X" Binary64.two_buys = Some 11%float).
  { rewrite Hbefore by eval_eq. eval_eq. }
  split; [exact Ha |].
  destruct Hsell as (Hheld & Hrest & _); [eval_eq |].
  destruct Hrest as (a & Ha' & Hafter); [eval_eq |].
  rewrite Ha in Ha'. injection Ha' as <-.
  split; [rewrite Hafter; eval_eq | rewrite Hheld; eval_eq].
Defined.

Lemma ledger_after_reachable (log0 log : TradeLog Q) (now : Z) :
  reachable log0 log -> reachable log0 (ledger_after log now).
Proof.
  intros Hreach. unfold ledger_after.
  destruct (run config (world log now dip) false) as [[[sigs executed] log']|] eqn:E;
    [| exact Hreach].
  eapply reachable_run; [exact Hreach | | | exact E].
  - reflexivity.
  - apply NoDup_singleton.
Qed.

(** Two runs on the end-to-end scenario: the first executes the extra buy,
    the second finds it in the ledger and refuses another. *)
Lemma extra_buy_at_most_once_witness :
  has_used_extra "X" full_quota = false /\
  count_extra_buy "X" (ledger_after full_quota 1000) = 1%nat /\
  signal_type (signal_x (world (ledger_after full_quota 1000) 1001 dip))
    <> "extra_buy" /\
  exists added,
    ledger_after (ledger_after full_quota 1000) 1001 = full_quota ++ added /\
    (count_extra_buy "X" added <= 1)%nat.
Proof.
  split; [eval_eq |]. split; [eval_eq |]. split.
  - apply (proj1 extra_buy_at_most_once config
             (world (ledger_after full_quota 1000) 1001 dip)
             [signal_x (world (ledger_after full_quota 1000) 1001 dip)]);
      [eval_eq | left; reflexivity | eval_eq].
  - destruct (proj2 extra_buy_at_most_once full_quota
                (ledger_after (ledger_after full_quota 1000) 1001) "X")
      as (added & Hlog & Hle & _).
    + do 2 apply ledger_after_reachable. apply reachable_start.
    + exists added. auto.
Defined.

(** *** Raising *)

(** The loop body raises, and [compute_signals] with it, when the average
    price is zero ([ZeroDivisionError]) and when the thresholds have no
    entry "mid", even for a fund of a listed tier ([KeyError]). *)
Lemma compute_signal_raises_examples :
  compute_signal strat (world [] 1000 worthless) fund_x = None /\
  compute_signal strat_high_only (world [] 1000 dip) fund_h = None /\
  compute_signals {| strategy := strat; funds := [bond_b; fund_x] |}
                  (world [] 1000 worthless) = None.
Proof. vm_compute. auto. Qed.

End Checks.

(** * Further properties of the code *)

Section Executor.
Context {R : Type} `{Num R}.

Implicit Types (st : Strategy R) (w : World R) (fc : FundCfg.t).
Implicit Types (sig : Signal R) (sigs : list (Signal R)) (log : TradeLog R).

(** One turn of the executor's loop: a signal is acted on or skipped. *)
Lemma execute_step_acted dry_run executed log sig :
  execute_step dry_run (executed, log) sig =
  if acted_on sig
  then (executed ++ [sig], if dry_run then log else log ++ [row_for sig])
  else (executed, log).
Proof.
  unfold execute_step, acted_on, row_for, append_trade_log, executable_types.
  destruct (can_execute sig); cbn [negb andb]; cbv iota; [| reflexivity].
  destruct (String.eqb_spec (signal_type sig) "buy") as [E | Nbuy].
  { rewrite E. destruct dry_run; reflexivity. }
  destruct (String.eqb_spec (signal_type sig) "hold_buy") as [E | Nhold].
  { rewrite E. destruct dry_run; reflexivity. }
  assert (Hbh : str_in (signal_type sig) ["buy"; "hold_buy"] = false).
  { apply not_true_iff_false. rewrite str_in_In. cbn. intuition congruence. }
  rewrite Hbh.
  destruct (String.eqb_spec (signal_type sig) "extra_buy") as [E | Nextra].
  { rewrite E. destruct dry_run; reflexivity. }
  destruct (String.eqb_spec (signal_type sig) "sell") as [E | Nsell].
  { rewrite E. destruct dry_run; reflexivity. }
  destruct (String.eqb_spec (signal_type sig) "extra_sell") as [E | Nxsell].
  { rewrite E. destruct dry_run; reflexivity. }
  assert (Hin : str_in (signal_type sig)
                  ["hold_buy"; "buy"; "extra_buy"; "sell"; "extra_sell"] = false).
  { apply not_true_iff_false. rewrite str_in_In. cbn. intuition congruence. }
  rewrite Hin. reflexivity.
Qed.

Lemma execute_fold dry_run sigs executed log :
  fold_left (execute_step dry_run) sigs (executed, log) =
  (executed ++ List.filter acted_on sigs,
   if dry_run then log else log ++ map row_for (List.filter acted_on sigs)).
Proof.
  revert executed log. induction sigs as [| sig sigs IH]; intros executed log;
    cbn [fold_left List.filter].
  - cbn. rewrite !app_nil_r. destruct dry_run; reflexivity.
  - rewrite execute_step_acted. destruct (acted_on sig); rewrite IH.
    + destruct dry_run; cbn [map]; rewrite <- ?app_assoc; reflexivity.
    + reflexivity.
Qed.

(** [execute_signals] returns, in order, exactly the signals that are
    executable and of one of the five types with a branch; a real run
    appends one row for each of them after the rows already in the ledger,
    which are left as they are, and a dry run appends nothing. *)
Theorem execute_signals_spec sigs dry_run log :
  execute_signals sigs dry_run log =
  (List.filter acted_on sigs,
   if dry_run then log else log ++ map row_for (List.filter acted_on sigs)).
Proof.
  unfold execute_signals. rewrite execute_fold. reflexivity.
Qed.

(** Every row the executor writes trades one share: +1 as "buy" or
    "extra_buy", -1 as "sell" or "extra_sell". *)
Lemma row_for_executor_row sig :
  acted_on sig = true -> executor_row (row_for sig).
Proof.
  unfold acted_on, executor_row, row_for, executable_types. intros Hact.
  apply andb_true_iff in Hact. destruct Hact as [_ Hty].
  apply str_in_In in Hty. cbn in Hty.
  destruct Hty as [E | [E | [E | [E | [E | []]]]]]; rewrite <- E; cbn; auto 10.
Qed.

(** A signal produced by the engine is acted on exactly when it is
    executable. *)
Lemma computed_acted_on st w fc sig :
  compute_signal st w fc = Some sig -> acted_on sig = can_execute sig.
Proof.
  intros Hs. unfold acted_on. destruct (can_execute sig) eqn:Hcan; [| reflexivity].
  apply compute_signal_kinds in Hs. cbv zeta in Hs.
  destruct Hs as (_ & Hexe & _). cbn [andb]. apply str_in_In. auto.
Qed.

(** *** The report *)

(** Signals of the executable types are either buys or sells. *)
Lemma buy_or_sell sigs :
  Forall (fun sig => In (signal_type sig) executable_types) sigs ->
  (length (Report.buy_signals sigs) + length (Report.sell_signals sigs))%nat
  = length sigs.
Proof.
  unfold Report.buy_signals, Report.sell_signals, executable_types.
  induction 1 as [| sig sigs Hty _ IH]; [reflexivity |].
  cbn [List.filter].
  assert (Hcase :
    (str_in (signal_type sig) ["buy"; "hold_buy"; "extra_buy"] = true /\
     str_in (signal_type sig) ["sell"; "extra_sell"] = false) \/
    (str_in (signal_type sig) ["buy"; "hold_buy"; "extra_buy"] = false /\
     str_in (signal_type sig) ["sell"; "extra_sell"] = true)).
  { cbn in Hty.
    destruct Hty as [E | [E | [E | [E | [E | []]]]]]; rewrite <- E; cbn; auto. }
  destruct Hcase as [[-> ->] | [-> ->]]; cbn [length]; lia.
Qed.

Lemma filter_length_le {A} (p q : A -> bool) (l : list A) :
  (forall x, p x = true -> q x = true) ->
  (length (List.filter p l) <= length (List.filter q l))%nat.
Proof.
  intros Hpq. induction l as [| x l IH]; [reflexivity |].
  cbn [List.filter]. destruct (p x) eqn:Hp.
  - rewrite (Hpq x Hp). cbn [length]. lia.
  - destruct (q x); cbn [length]; lia.
Qed.

Lemma filter_acted_types sigs :
  Forall (fun sig => In (signal_type sig) executable_types)
         (List.filter acted_on sigs).
Proof.
  apply List.Forall_forall. intros sig Hin. apply filter_In in Hin.
  destruct Hin as [_ Hact]. apply andb_true_iff in Hact.
  now apply str_in_In.
Qed.

Lemma acted_on_not_none sig :
  acted_on sig = true -> negb (String.eqb (signal_type sig) "none") = true.
Proof.
  intros Hact. apply andb_true_iff in Hact. destruct Hact as [_ Hty].
  apply str_in_In in Hty. unfold executable_types in Hty. cbn in Hty.
  destruct Hty as [E | [E | [E | [E | [E | []]]]]]; rewrite <- E; reflexivity.
Qed.

(** In a run, the signals the executor returns are exactly those the
    report's table marks as executed; each is counted once, as a buy or as
    a sell, and all of them are among the action signals. *)
Theorem report_counts (config : Config R) w sigs dry_run log :
  compute_signals config w = Some sigs ->
  let executed := fst (execute_signals sigs dry_run log) in
  executed = Report.marked_executed sigs /\
  Report.buy_count executed + Report.sell_count executed
    = Z.of_nat (length executed) /\
  Z.of_nat (length executed) <= Report.action_count sigs.
Proof.
  intros Hm. cbv zeta. unfold execute_signals. rewrite execute_fold. cbn [fst app].
  split; [| split].
  - unfold Report.marked_executed. apply filter_ext_in. intros sig Hin.
    destruct (compute_signals_In _ _ _ _ Hm Hin) as (fc & _ & Hs).
    exact (computed_acted_on _ _ _ _ Hs).
  - unfold Report.buy_count, Report.sell_count.
    rewrite <- Nat2Z.inj_add, buy_or_sell; [reflexivity |].
    apply filter_acted_types.
  - unfold Report.action_count, Report.action_signals. apply inj_le.
    apply filter_length_le. exact acted_on_not_none.
Qed.

(** When [main] builds no report (no signal other than "none" and no
    request for a full report), nothing was executed and the ledger is
    unchanged: every change of the ledger is reported. *)
Theorem silent_run_changes_nothing sigs dry_run log report_all :
  Report.report_built sigs report_all = false ->
  execute_signals sigs dry_run log = ([], log).
Proof.
  unfold Report.report_built, Report.action_count, Report.action_signals.
  intros Hno. apply orb_false_iff in Hno. destruct Hno as [Hnone _].
  unfold execute_signals. rewrite execute_fold. cbn [app].
  assert (Hf : List.filter acted_on sigs = []).
  { pose proof (filter_length_le acted_on _ sigs acted_on_not_none) as Hle.
    destruct (List.filter acted_on sigs); [reflexivity |].
    cbn [length] in Hle. lia. }
  rewrite Hf. cbn. rewrite app_nil_r. destruct dry_run; reflexivity.
Qed.

(** *** Raising *)

(** For a timed fund with 60 prices or more, [ma_days = 0] and thresholds
    without the entry "mid" each make the loop body raise, whatever the
    prices, the ledger and the fund's own tier. *)
Theorem compute_signal_raises st w fc :
  FundCfg.volatility fc <> "low" ->
  60 <= Z.of_nat (length (fetch_nav_history w (FundCfg.code fc) (ma_days st + 30))) ->
  ma_days st = 0 \/ thresholds st !! "mid" = None ->
  compute_signal st w fc = None.
Proof.
  intros Hvol Hlen Hbad. rewrite compute_signal_unfold by assumption. cbv zeta.
  destruct (_ <? 60) eqn:E; [lia |].
  destruct (last _) as [latest|]; [| reflexivity]. cbn [mbind option_bind].
  destruct Hbad as [Hzero | Hmid].
  - rewrite Hzero. rewrite Z.min_r by lia. reflexivity.
  - destruct (moving_average _ _) as [ma|]; [| reflexivity].
    cbn [mbind option_bind].
    destruct (deviation _ _) as [dev|]; [| reflexivity].
    cbn [mbind option_bind].
    unfold get_thresholds. rewrite Hmid. reflexivity.
Qed.

(** [compute_signals] raises exactly when the loop body raises for one of
    the funds: one such fund costs the signals of all the others. *)
Theorem compute_signals_aborts (config : Config R) w :
  compute_signals config w = None <->
  exists fc, In fc (funds config) /\ compute_signal (strategy config) w fc = None.
Proof.
  unfold compute_signals. generalize (funds config) as fcs.
  induction fcs as [| fc fcs IH].
  - cbn. split; [discriminate | intros (fc & [] & _)].
  - cbn [mapM In].
    destruct (compute_signal (strategy config) w fc) as [sig|] eqn:Hs;
      cbn [mbind option_bind].
    + destruct (mapM _ fcs) as [sigs|] eqn:Hm; cbn.
      * split; [discriminate |].
        intros (fc' & [<- | Hin] & Hnone); [congruence |].
        assert (Some sigs = None) as Hn by (apply IH; eauto).
        discriminate Hn.
      * split; [| reflexivity]. intros _.
        destruct (proj1 IH eq_refl) as (fc' & Hin & Hnone). eauto.
    + split; [| reflexivity]. intros _. exists fc. auto.
Qed.

End Executor.

Section Isolation.
Context {R : Type} `{Num R}.

Implicit Types (st : Strategy R) (w : World R) (fc : FundCfg.t).
Implicit Types (sig : Signal R) (sigs : list (Signal R)) (log : TradeLog R).

Lemma fund_rows_cons f (row : TradeRow R) log :
  fund_rows f (row :: log) =
  if String.eqb (row_fund_code row) f then row :: fund_rows f log
  else fund_rows f log.
Proof.
  unfold fund_rows. rewrite filter_cons.
  destruct (String.eqb_spec (row_fund_code row) f) as [E | E];
    destruct (decide _); congruence.
Qed.

Lemma fund_rows_app f log1 log2 :
  fund_rows f (log1 ++ log2) = fund_rows f log1 ++ fund_rows f log2.
Proof. apply filter_app. Qed.

(** A loop that skips the rows of other funds only sees the fund's rows. *)
Lemma fold_fund_rows {A} (step : A -> TradeRow R -> A) f log (a : A) :
  (forall a row, row_fund_code row <> f -> step a row = a) ->
  fold_left step log a = fold_left step (fund_rows f log) a.
Proof.
  intros Hskip. revert a. induction log as [| row log IH]; intros a.
  - reflexivity.
  - rewrite fund_rows_cons. cbn [fold_left].
    destruct (String.eqb_spec (row_fund_code row) f) as [E | E].
    + cbn [fold_left]. apply IH.
    + rewrite Hskip by assumption. apply IH.
Qed.

Lemma find_app_first {A} (p : A -> bool) (l1 l2 : list A) :
  List.find p (l1 ++ l2) =
  match List.find p l1 with Some x => Some x | None => List.find p l2 end.
Proof.
  induction l1 as [| x l1 IH]; [reflexivity |].
  cbn. destruct (p x); [reflexivity | exact IH].
Qed.

(** A backward scan for a row of the fund only sees the fund's rows. *)
Lemma find_rev_fund_rows (p : TradeRow R -> bool) f log :
  (forall row, p row = true -> row_fund_code row = f) ->
  List.find p (rev log) = List.find p (rev (fund_rows f log)).
Proof.
  intros Hp. induction log as [| row log IH]; [reflexivity |].
  rewrite fund_rows_cons. cbn [rev]. rewrite find_app_first, IH.
  destruct (String.eqb_spec (row_fund_code row) f) as [E | E].
  - cbn [rev]. rewrite find_app_first. reflexivity.
  - destruct (List.find p (rev (fund_rows f log))); [reflexivity |].
    cbn. destruct (p row) eqn:Hrow; [| reflexivity].
    apply Hp in Hrow. contradiction.
Qed.

Lemma existsb_fund_rows (p : TradeRow R -> bool) f log :
  (forall row, p row = true -> row_fund_code row = f) ->
  existsb p log = existsb p (fund_rows f log).
Proof.
  intros Hp. induction log as [| row log IH]; [reflexivity |].
  rewrite fund_rows_cons. cbn [existsb]. rewrite IH.
  destruct (String.eqb_spec (row_fund_code row) f) as [E | E]; [reflexivity |].
  destruct (p row) eqn:Hrow; [| reflexivity].
  apply Hp in Hrow. contradiction.
Qed.

Lemma fund_test_l (row : TradeRow R) f b :
  String.eqb (row_fund_code row) f && b = true -> row_fund_code row = f.
Proof.
  intros Hb. apply andb_true_iff in Hb. now apply String.eqb_eq.
Qed.

(** Every ledger query about a fund reads the rows of that fund only. *)
Lemma queries_on_fund_rows f log :
  get_current_shares f log = get_current_shares f (fund_rows f log) /\
  get_extra_shares f log = get_extra_shares f (fund_rows f log) /\
  get_avg_cost f log = get_avg_cost f (fund_rows f log) /\
  has_used_extra f log = has_used_extra f (fund_rows f log) /\
  get_last_buy_nav f log = get_last_buy_nav f (fund_rows f log) /\
  Portfolio.last_buy f log = Portfolio.last_buy f (fund_rows f log) /\
  (forall action, get_last_trade_date f action log
                  = get_last_trade_date f action (fund_rows f log)) /\
  get_last_action_date f log = get_last_action_date f (fund_rows f log).
Proof.
  assert (Hne : forall row : TradeRow R,
            row_fund_code row <> f -> String.eqb (row_fund_code row) f = false).
  { intros row. apply String.eqb_neq. }
  repeat split.
  - unfold get_current_shares. f_equal. apply fold_fund_rows.
    intros a row Hrow. now rewrite (Hne row Hrow).
  - unfold get_extra_shares. f_equal. apply fold_fund_rows.
    intros a row Hrow. now rewrite (Hne row Hrow).
  - unfold get_avg_cost, avg_cost_state.
    rewrite (fold_fund_rows (avg_cost_step f) f); [reflexivity |].
    intros [c n] row Hrow. unfold avg_cost_step. now rewrite (Hne row Hrow).
  - unfold has_used_extra. apply existsb_fund_rows. intros row. apply fund_test_l.
  - unfold get_last_buy_nav. f_equal. apply find_rev_fund_rows.
    intros row. apply fund_test_l.
  - unfold Portfolio.last_buy. f_equal. apply find_rev_fund_rows.
    intros row. apply fund_test_l.
  - intros action. unfold get_last_trade_date. f_equal. apply find_rev_fund_rows.
    intros row. apply fund_test_l.
  - unfold get_last_action_date. f_equal. apply find_rev_fund_rows.
    intros row. apply fund_test_l.
Qed.

(** Two ledgers with the same rows for a fund answer every query about
    that fund alike: shares, extra shares, average cost, the extra-buy
    flag, the last buy price and the last trade dates. *)
Theorem ledger_queries_isolated f log log' :
  fund_rows f log = fund_rows f log' ->
  get_current_shares f log = get_current_shares f log' /\
  get_extra_shares f log = get_extra_shares f log' /\
  get_avg_cost f log = get_avg_cost f log' /\
  has_used_extra f log = has_used_extra f log' /\
  get_last_buy_nav f log = get_last_buy_nav f log' /\
  (forall action, get_last_trade_date f action log
                  = get_last_trade_date f action log') /\
  get_last_action_date f log = get_last_action_date f log'.
Proof.
  intros Hrows.
  destruct (queries_on_fund_rows f log) as (A1 & A2 & A3 & A4 & A5 & _ & A7 & A8).
  destruct (queries_on_fund_rows f log') as (B1 & B2 & B3 & B4 & B5 & _ & B7 & B8).
  rewrite A1, A2, A3, A4, A5, A8, B1, B2, B3, B4, B5, B8, Hrows.
  repeat split. intros action. rewrite A7, B7, Hrows. reflexivity.
Qed.

(** The signal of a fund does not depend on the ledger rows of the other
    funds: with the same clock and price provider, two ledgers that agree
    on the fund's rows give the same signal (or both raise). *)
Theorem compute_signal_isolated st w w' fc :
  today w = today w' ->
  fetch_nav_history w = fetch_nav_history w' ->
  fund_rows (FundCfg.code fc) (trade_log w)
    = fund_rows (FundCfg.code fc) (trade_log w') ->
  compute_signal st w fc = compute_signal st w' fc.
Proof.
  intros Hday Hfetch Hrows.
  destruct (queries_on_fund_rows (FundCfg.code fc) (trade_log w))
    as (A1 & A2 & A3 & A4 & A5 & _ & A6 & _).
  destruct (queries_on_fund_rows (FundCfg.code fc) (trade_log w'))
    as (B1 & B2 & B3 & B4 & B5 & _ & B6 & _).
  rewrite Hrows in A1, A2, A3, A4, A5, A6.
  rewrite <- B1 in A1. rewrite <- B2 in A2. rewrite <- B3 in A3.
  rewrite <- B4 in A4. rewrite <- B5 in A5.
  assert (Q6 : forall action,
            get_last_trade_date (FundCfg.code fc) action (trade_log w)
            = get_last_trade_date (FundCfg.code fc) action (trade_log w')).
  { intros action. now rewrite A6, B6. }
  rename A1 into Q1, A2 into Q2, A3 into Q3, A4 into Q4, A5 into Q5.
  unfold compute_signal, sell_branch, buy_branch, buy_quota_check,
    buy_cooldown_check, fetch_current_nav.
  rewrite Hday, Hfetch, Q1, Q2, Q3, Q4, Q5, !Q6. reflexivity.
Qed.

End Isolation.

Section LastTrade.
Context {R : Type} `{Num R}.

Implicit Types (log : TradeLog R).

(** A backward scan returns the last element that passes the test. *)
Lemma find_rev_last {A} (p : A -> bool) (l : list A) (x : A) :
  List.find p (rev l) = Some x <->
  exists l1 l2, l = l1 ++ x :: l2 /\ p x = true /\
                forall y, In y l2 -> p y = false.
Proof.
  induction l as [| y l IH] using rev_ind.
  - cbn. split; [discriminate |]. intros (l1 & l2 & E & _).
    destruct l1; discriminate.
  - rewrite rev_app_distr. cbn [rev app List.find].
    destruct (p y) eqn:Hy.
    + split.
      * intros [= <-]. exists l, []. repeat split; [assumption | intros ? []].
      * intros (l1 & l2 & E & Hx & Hl2).
        destruct l2 as [| z l2] using rev_ind.
        -- apply app_inj_tail in E. destruct E as [_ <-]. reflexivity.
        -- clear IHl2. rewrite app_comm_cons, app_assoc in E.
           apply app_inj_tail in E. destruct E as [_ <-].
           rewrite Hl2 in Hy; [discriminate |]. apply in_or_app. right. now left.
    + rewrite IH. split.
      * intros (l1 & l2 & -> & Hx & Hl2). exists l1, (l2 ++ [y]).
        rewrite <- app_assoc. repeat split; [assumption |].
        intros z Hz. apply in_app_or in Hz. destruct Hz as [Hz | [<- | []]]; auto.
      * intros (l1 & l2 & E & Hx & Hl2).
        destruct l2 as [| z l2] using rev_ind.
        -- apply app_inj_tail in E. destruct E as [_ <-]. congruence.
        -- clear IHl2. rewrite app_comm_cons, app_assoc in E.
           apply app_inj_tail in E. destruct E as [-> <-].
           exists l1, l2. repeat split; [assumption |].
           intros z Hz. apply Hl2. apply in_or_app. now left.
Qed.

Lemma find_rev_none {A} (p : A -> bool) (l : list A) :
  List.find p (rev l) = None <-> forall y, In y l -> p y = false.
Proof.
  split.
  - intros Hnone y Hin. apply (find_none _ _ Hnone). now apply -> in_rev.
  - intros Hall. destruct (List.find p (rev l)) as [x|] eqn:E; [| reflexivity].
    apply find_some in E. destruct E as [Hin Hx].
    apply in_rev in Hin. rewrite Hall in Hx by assumption. discriminate.
Qed.

Lemma fund_action_test (row : TradeRow R) f a :
  String.eqb (row_fund_code row) f && String.eqb (row_action row) a = true <->
  row_fund_code row = f /\ row_action row = a.
Proof. now rewrite andb_true_iff, !String.eqb_eq. Qed.

(** [get_last_trade_date] answers with the date of the last row of the
    ledger that has the fund and the action, and with nothing exactly when
    there is no such row. *)
Theorem get_last_trade_date_spec f a log :
  (get_last_trade_date f a log = None <->
   forall row, In row log -> ~ (row_fund_code row = f /\ row_action row = a)) /\
  (forall d,
     get_last_trade_date f a log = Some d <->
     exists l1 row l2,
       log = l1 ++ row :: l2 /\
       row_fund_code row = f /\ row_action row = a /\ row_date row = d /\
       forall r, In r l2 -> ~ (row_fund_code r = f /\ row_action r = a)).
Proof.
  unfold get_last_trade_date.
  set (p := fun row : TradeRow R =>
              String.eqb (row_fund_code row) f && String.eqb (row_action row) a).
  assert (Hp : forall r, p r = false <-> ~ (row_fund_code r = f /\ row_action r = a)).
  { intros r. unfold p. rewrite <- fund_action_test. symmetry.
    apply not_true_iff_false. }
  split.
  - rewrite fmap_None, find_rev_none.
    split; intros Hall row Hin; apply Hp; auto.
  - intros d. rewrite fmap_Some. split.
    + intros (row & Hfind & ->). apply find_rev_last in Hfind.
      destruct Hfind as (l1 & l2 & -> & Hrow & Hl2).
      apply fund_action_test in Hrow. destruct Hrow as [Hf Ha].
      exists l1, row, l2. repeat split; auto. intros r Hr. apply Hp. auto.
    + intros (l1 & row & l2 & -> & Hf & Ha & <- & Hl2).
      exists row. split; [| reflexivity]. apply find_rev_last.
      exists l1, l2. repeat split.
      * apply fund_action_test. auto.
      * intros y Hy. apply Hp. auto.
Qed.

(** [get_last_buy_nav] answers with the price of the last row of the fund
    whose action is buy or extra_buy, and with nothing exactly when the
    fund has no such row. *)
Theorem get_last_buy_nav_spec f log :
  let bought (row : TradeRow R) :=
    row_fund_code row = f /\
    (row_action row = "buy" \/ row_action row = "extra_buy") in
  (get_last_buy_nav f log = None <-> forall row, In row log -> ~ bought row) /\
  (forall v,
     get_last_buy_nav f log = Some v <->
     exists l1 row l2,
       log = l1 ++ row :: l2 /\ bought row /\ row_nav row = v /\
       forall r, In r l2 -> ~ bought r).
Proof.
  cbv zeta. unfold get_last_buy_nav.
  set (p := fun row : TradeRow R =>
              String.eqb (row_fund_code row) f
              && str_in (row_action row) ["buy"; "extra_buy"]).
  assert (Ht : forall r, p r = true <->
             row_fund_code r = f /\
             (row_action r = "buy" \/ row_action r = "extra_buy")).
  { intros r. unfold p. rewrite andb_true_iff, String.eqb_eq, str_in_In. cbn.
    intuition congruence. }
  assert (Hp : forall r, p r = false <->
             ~ (row_fund_code r = f /\
                (row_action r = "buy" \/ row_action r = "extra_buy"))).
  { intros r. rewrite <- Ht. symmetry. apply not_true_iff_false. }
  split.
  - rewrite fmap_None, find_rev_none.
    split; intros Hall row Hin; apply Hp; auto.
  - intros v. rewrite fmap_Some. split.
    + intros (row & Hfind & ->). apply find_rev_last in Hfind.
      destruct Hfind as (l1 & l2 & -> & Hrow & Hl2).
      exists l1, row, l2. repeat split; try (apply Ht; assumption).
      intros r Hr. apply Hp. auto.
    + intros (l1 & row & l2 & -> & Hb & <- & Hl2).
      exists row. split; [| reflexivity]. apply find_rev_last.
      exists l1, l2. repeat split.
      * apply Ht. exact Hb.
      * intros y Hy. apply Hp. auto.
Qed.

End LastTrade.

Section Soundness.
Context {R : Type} `{Num R}.

Implicit Types (st : Strategy R) (w : World R) (fc : FundCfg.t).
Implicit Types (sig : Signal R) (sigs : list (Signal R)) (log : TradeLog R).

Lemma sum_app (l1 l2 : list Z) :
  fold_right Z.add 0 (l1 ++ l2) = fold_right Z.add 0 l1 + fold_right Z.add 0 l2.
Proof. induction l1 as [| x l1 IH]; cbn; lia. Qed.

Lemma regular_sum_app f log1 log2 :
  regular_sum f (log1 ++ log2) = regular_sum f log1 + regular_sum f log2.
Proof. unfold regular_sum. now rewrite filter_app, map_app, sum_app. Qed.

Lemma extra_sum_app f log1 log2 :
  extra_sum f (log1 ++ log2) = extra_sum f log1 + extra_sum f log2.
Proof. unfold extra_sum. now rewrite filter_app, map_app, sum_app. Qed.

Lemma regular_sum_cons f (row : TradeRow R) log :
  regular_sum f (row :: log) = regular_sum f [row] + regular_sum f log.
Proof. apply (regular_sum_app f [row] log). Qed.

Lemma extra_sum_cons f (row : TradeRow R) log :
  extra_sum f (row :: log) = extra_sum f [row] + extra_sum f log.
Proof. apply (extra_sum_app f [row] log). Qed.

(** What one row adds to the two sums of a fund. *)
Lemma sums_of_row f (row : TradeRow R) :
  regular_sum f [row] =
    (if String.eqb (row_fund_code row) f && str_in (row_action row) ["buy"; "sell"]
     then row_shares_delta row else 0) /\
  extra_sum f [row] =
    (if String.eqb (row_fund_code row) f
        && str_in (row_action row) ["extra_buy"; "extra_sell"]
     then row_shares_delta row else 0).
Proof.
  unfold regular_sum, extra_sum. rewrite !filter_cons, !filter_nil.
  split.
  - destruct (decide _) as [[Hf Ha] | Hno].
    + assert (str_in (row_action row) ["buy"; "sell"] = true) as ->
        by (apply str_in_In; cbn; intuition congruence).
      rewrite Hf, String.eqb_refl. cbn. lia.
    + destruct (String.eqb_spec (row_fund_code row) f) as [E | _]; [| reflexivity].
      destruct (str_in _ _) eqn:Ha; [| reflexivity].
      apply str_in_In in Ha. cbn in Ha. exfalso. apply Hno. intuition congruence.
  - destruct (decide _) as [[Hf Ha] | Hno].
    + assert (str_in (row_action row) ["extra_buy"; "extra_sell"] = true) as ->
        by (apply str_in_In; cbn; intuition congruence).
      rewrite Hf, String.eqb_refl. cbn. lia.
    + destruct (String.eqb_spec (row_fund_code row) f) as [E | _]; [| reflexivity].
      destruct (str_in _ _) eqn:Ha; [| reflexivity].
      apply str_in_In in Ha. cbn in Ha. exfalso. apply Hno. intuition congruence.
Qed.

Lemma sums_other_funds f log :
  (forall row, In row log -> row_fund_code row <> f) ->
  regular_sum f log = 0 /\ extra_sum f log = 0.
Proof.
  induction log as [| row log IH]; intros Hother; [split; reflexivity |].
  rewrite regular_sum_cons, extra_sum_cons.
  destruct IH as [-> ->]; [intros r Hr; apply Hother; now right |].
  destruct (sums_of_row f row) as [-> ->].
  assert (String.eqb (row_fund_code row) f = false) as ->.
  { apply String.eqb_neq. apply Hother. now left. }
  split; reflexivity.
Qed.

(** On a ledger of executor's rows the loop of [get_current_shares] adds
    up the regular and the extra sum. *)
Lemma all_rows_sum f log (total : Z) :
  Forall executor_row log ->
  fold_left (fun total row =>
               if String.eqb (row_fund_code row) f
               then total + row_shares_delta row else total) log total
  = total + regular_sum f log + extra_sum f log.
Proof.
  intros Hrows. revert total.
  induction Hrows as [| row log Hrow _ IH]; intros total; cbn [fold_left].
  - cbn. lia.
  - rewrite IH, (regular_sum_cons f row), (extra_sum_cons f row).
    destruct (sums_of_row f row) as [-> ->].
    destruct (String.eqb (row_fund_code row) f); cbn [andb]; [| lia].
    destruct Hrow as [[_ Ha] | [_ Ha]]; cbn in Ha;
      destruct Ha as [E | [E | []]]; rewrite <- E; cbn; lia.
Qed.

Lemma extra_rows_sum f log (total : Z) :
  fold_left (fun total row =>
               if String.eqb (row_fund_code row) f
                  && str_in (row_action row) ["extra_buy"; "extra_sell"]
               then total + row_shares_delta row else total) log total
  = total + extra_sum f log.
Proof.
  revert total. induction log as [| row log IH]; intros total; cbn [fold_left].
  - cbn. lia.
  - rewrite IH, (extra_sum_cons f row).
    destruct (sums_of_row f row) as [_ ->].
    destruct (_ && _); lia.
Qed.

(** Without an [extra_buy] row the extra sum of executor's rows cannot be
    positive. *)
Lemma unused_extra_sum f log :
  Forall executor_row log ->
  has_used_extra f log = false ->
  extra_sum f log <= 0.
Proof.
  unfold has_used_extra.
  induction 1 as [| row log Hrow _ IH]; intros Hunused; [cbn; lia |].
  cbn [existsb] in Hunused. apply orb_false_iff in Hunused.
  destruct Hunused as [Hthis Hrest].
  rewrite extra_sum_cons. specialize (IH Hrest).
  destruct (sums_of_row f row) as [_ ->].
  destruct (String.eqb (row_fund_code row) f); cbn [andb] in *; [| lia].
  destruct Hrow as [[_ Ha] | [-> Ha]].
  - cbn in Ha. destruct Ha as [E | [E | []]]; rewrite <- E in *; cbn; [lia |].
    cbn in Hthis. discriminate.
  - destruct (str_in _ _); lia.
Qed.

Lemma sound_ledger_counts_aux log f :
  sound_ledger log ->
  get_current_shares f log = regular_sum f log + extra_sum f log /\
  get_extra_shares f log = extra_sum f log /\
  (has_used_extra f log = false -> extra_sum f log = 0).
Proof.
  intros [Hrows Hsums]. destruct (Hsums f) as (Hreg & Hext & _).
  unfold get_current_shares, get_extra_shares.
  rewrite all_rows_sum by assumption. rewrite extra_rows_sum.
  split; [lia |]. split; [lia |].
  intros Hunused. pose proof (unused_extra_sum f log Hrows Hunused). lia.
Qed.

(** What an executable signal of the engine says about the ledger it was
    computed on. *)
Lemma acted_signal_cases st w fc sig :
  compute_signal st w fc = Some sig ->
  can_execute sig = true ->
  let code := FundCfg.code fc in
  In (signal_type sig) ["hold_buy"; "buy"] \/
  (signal_type sig = "extra_buy" /\ has_used_extra code (trade_log w) = false) \/
  (signal_type sig = "sell" /\
   get_extra_shares code (trade_log w) <= 0 /\
   0 < get_current_shares code (trade_log w) + get_extra_shares code (trade_log w)) \/
  (signal_type sig = "extra_sell" /\ 0 < get_extra_shares code (trade_log w)).
Proof.
  intros Hs Hcan. cbv zeta.
  destruct (String.eqb_spec (FundCfg.volatility fc) "low") as [Hlow | Hvol].
  { rewrite compute_signal_low in Hs by assumption. cbv zeta in Hs.
    injection Hs as <-. left.
    destruct (_ <? _), (fetch_current_nav w _) as [[d v]|]; cbn in *;
      try discriminate; auto. }
  apply compute_signal_timed in Hs; [| assumption].
  destruct Hs as [(_ & ->) | (_ & latest & ma & dev & th & _ & _ & _ & _ & Hv)];
    [discriminate |].
  pose proof (measured_signal_fields w fc latest ma dev) as Hf. cbv zeta in Hf.
  destruct Hf as (_ & _ & _ & _ & _ & Hheld & Hextra & _ & Hty & Hno & _).
  unfold verdict in Hv.
  destruct (nleb (sell_pct th) dev); [| destruct (nleb dev (buy_pct th))].
  - injection Hv as <-.
    pose proof (sell_branch_fields st w (FundCfg.code fc) dev (sell_pct th)
                  (measured_signal w fc latest ma dev)) as Hb.
    cbv zeta in Hb. rewrite Hheld, Hextra in Hb.
    destruct Hb as (_ & Hc & Ht & _). rewrite Hcan in Hc.
    assert (Hpos : 0 < get_current_shares (FundCfg.code fc) (trade_log w)
                       + get_extra_shares (FundCfg.code fc) (trade_log w)).
    { destruct (_ + _ <=? 0) eqn:E; [| lia]. cbn in Hc.
      destruct (more_recent _ _) as [d|]; [destruct (_ <? _) |]; discriminate. }
    right; right. rewrite Ht.
    destruct (_ >? 0) eqn:E; [right | left]; repeat split; auto; lia.
  - apply buy_branch_cases in Hv; [| assumption]. cbv zeta in Hv.
    destruct Hv as [(-> & _) | [(-> & _ & Hused & _) | (_ & _ & Hc & _)]].
    + left. cbn. auto.
    + right; left. auto.
    + congruence.
  - injection Hv as <-. cbn in Hcan. congruence.
Qed.

(** The rows a run adds for a fund that is not among those processed. *)
Lemma no_rows_for_other_fund st w f (fcs : list FundCfg.t) sigs :
  Forall2 (fun fc sig => compute_signal st w fc = Some sig) fcs sigs ->
  ~ In f (map FundCfg.code fcs) ->
  forall row, In row (map row_for (List.filter acted_on sigs)) ->
              row_fund_code row <> f.
Proof.
  induction 1 as [| fc sig fcs sigs Hs _ IH]; intros Hnot row Hin; [destruct Hin |].
  cbn [map In] in Hnot. cbn [List.filter] in Hin.
  destruct (acted_on sig); [destruct Hin as [<- | Hin] |].
  - cbn. rewrite (compute_signal_fund_code _ _ _ _ Hs). tauto.
  - apply IH; tauto.
  - apply IH; tauto.
Qed.

(** With every fund listed once, a run adds for a fund either nothing or
    the one row of its own executable signal. *)
Lemma run_sums_for_fund st w f (fcs : list FundCfg.t) sigs :
  Forall2 (fun fc sig => compute_signal st w fc = Some sig) fcs sigs ->
  NoDup (map FundCfg.code fcs) ->
  let added := map row_for (List.filter acted_on sigs) in
  (regular_sum f added = 0 /\ extra_sum f added = 0) \/
  exists fc sig,
    FundCfg.code fc = f /\ compute_signal st w fc = Some sig /\
    acted_on sig = true /\
    regular_sum f added = regular_sum f [row_for sig] /\
    extra_sum f added = extra_sum f [row_for sig].
Proof.
  induction 1 as [| fc sig fcs sigs Hs Hrest IH]; intros Hnd; cbv zeta.
  - left. split; reflexivity.
  - cbn [map] in Hnd. apply NoDup_cons in Hnd. destruct Hnd as [Hfresh Hnd].
    rewrite list_elem_of_In in Hfresh. specialize (IH Hnd). cbv zeta in IH.
    cbn [List.filter].
    destruct (String.eqb_spec (FundCfg.code fc) f) as [E | E].
    + subst f.
      destruct (sums_other_funds (FundCfg.code fc)
                  (map row_for (List.filter acted_on sigs))) as [Hr He].
      { exact (no_rows_for_other_fund st w _ fcs sigs Hrest Hfresh). }
      destruct (acted_on sig) eqn:Hact.
      * right. exists fc, sig. cbn [map].
        rewrite regular_sum_cons, extra_sum_cons, Hr, He.
        repeat split; auto; lia.
      * left. auto.
    + destruct (acted_on sig) eqn:Hact; [| exact IH].
      cbn [map]. rewrite regular_sum_cons, extra_sum_cons.
      destruct (sums_of_row f (row_for sig)) as [-> ->].
      assert (String.eqb (row_fund_code (row_for sig)) f = false) as ->.
      { apply String.eqb_neq. cbn.
        rewrite (compute_signal_fund_code _ _ _ _ Hs). exact E. }
      cbn [andb]. rewrite !Z.add_0_l. exact IH.
Qed.

(** One run keeps a sound ledger sound. *)
Lemma run_keeps_sound (config : Config R) w dry_run sigs executed log' :
  NoDup (map FundCfg.code (funds config)) ->
  run config w dry_run = Some (sigs, executed, log') ->
  sound_ledger (trade_log w) ->
  sound_ledger log'.
Proof.
  intros Hnd Hrun Hsound. unfold run in Hrun.
  destruct (compute_signals config w) as [sigs'|] eqn:Hm; [| discriminate].
  cbn [mbind option_bind] in Hrun.
  unfold execute_signals in Hrun. rewrite execute_fold in Hrun.
  injection Hrun as <- <- <-.
  destruct dry_run; [exact Hsound |].
  unfold compute_signals in Hm. apply mapM_Some in Hm.
  pose proof Hsound as [Hrows Hsums].
  split.
  - apply Forall_app. split; [exact Hrows |].
    apply Forall_map. apply List.Forall_forall. intros sig Hin.
    apply filter_In in Hin. apply row_for_executor_row. tauto.
  - intros f. rewrite regular_sum_app, extra_sum_app.
    destruct (Hsums f) as (Hreg & Hext0 & Hext1).
    destruct (sound_ledger_counts_aux (trade_log w) f Hsound) as (Hcur & Hex & Hzero).
    destruct (run_sums_for_fund _ _ f _ _ Hm Hnd) as [[-> ->] | Hone];
      [lia |].
    destruct Hone as (fc & sig & <- & Hs & Hact & -> & ->).
    destruct (sums_of_row (FundCfg.code fc) (row_for sig)) as [-> ->].
    cbn [row_fund_code row_action row_shares_delta row_for].
    rewrite (compute_signal_fund_code _ _ _ _ Hs), String.eqb_refl. cbn [andb].
    apply andb_true_iff in Hact. destruct Hact as [Hcan _].
    destruct (acted_signal_cases _ _ _ _ Hs Hcan)
      as [Hbuy | [(-> & Hunused) | [(-> & Hno & Hpos) | (-> & Hpos)]]].
    + cbn in Hbuy. destruct Hbuy as [E | [E | []]]; rewrite <- E; cbn; lia.
    + cbn. specialize (Hzero Hunused). lia.
    + cbn. lia.
    + cbn. lia.
Qed.

(** On a sound ledger the floors at 0 never bite: [get_current_shares] is
    the sum of the regular and the extra shares (it counts the extra share
    too), [get_extra_shares] is the extra sum, and a fund without an
    [extra_buy] row has no extra share. *)
Theorem sound_ledger_counts log f :
  sound_ledger log ->
  get_current_shares f log = regular_sum f log + extra_sum f log /\
  get_extra_shares f log = extra_sum f log /\
  (has_used_extra f log = false -> extra_sum f log = 0).
Proof. apply sound_ledger_counts_aux. Qed.

(** Runs never oversell: starting from a sound ledger (the empty one, for
    instance), every ledger that runs of [main] produce is sound again:
    all rows trade one share, and for every fund the regular sum is not
    negative and the extra sum is 0 or 1. *)
Theorem sound_ledger_kept log0 log :
  reachable log0 log -> sound_ledger log0 -> sound_ledger log.
Proof.
  induction 1 as [| log config w dry_run sigs executed log' _ IH Hlog Hnd Hrun];
    intros Hsound; [exact Hsound |].
  specialize (IH Hsound). subst log.
  exact (run_keeps_sound config w dry_run sigs executed log' Hnd Hrun IH).
Qed.

(** *** The portfolio snapshot *)

(** A run changes the portfolio row of a fund only if it executed a signal
    of that fund: the rows of the other funds, and all rows in a dry run,
    are the same before and after. *)
Theorem portfolio_row_kept (config : Config R) w dry_run sigs executed log' fc :
  run config w dry_run = Some (sigs, executed, log') ->
  dry_run = true \/ (forall sig, In sig executed -> fund_code sig <> FundCfg.code fc) ->
  Portfolio.fund_row log' fc = Portfolio.fund_row (trade_log w) fc.
Proof.
  intros Hrun Huntouched. unfold run in Hrun.
  destruct (compute_signals config w) as [sigs'|]; [| discriminate].
  cbn [mbind option_bind] in Hrun.
  unfold execute_signals in Hrun. rewrite execute_fold in Hrun.
  injection Hrun as <- <- <-. cbn [app] in Huntouched.
  assert (Hrows : fund_rows (FundCfg.code fc)
                    (if dry_run then trade_log w
                     else trade_log w ++ map row_for (List.filter acted_on sigs'))
                  = fund_rows (FundCfg.code fc) (trade_log w)).
  { destruct Huntouched as [-> | Hother]; [reflexivity |].
    destruct dry_run; [reflexivity |].
    rewrite fund_rows_app.
    assert (fund_rows (FundCfg.code fc) (map row_for (List.filter acted_on sigs')) = [])
      as ->; [| apply app_nil_r].
    induction (List.filter acted_on sigs') as [| sig l IH]; [reflexivity |].
    cbn [map]. rewrite fund_rows_cons.
    assert (String.eqb (row_fund_code (row_for sig)) (FundCfg.code fc) = false) as ->.
    { apply String.eqb_neq. cbn. apply Hother. now left. }
    apply IH. intros s Hs. apply Hother. now right. }
  set (log' := if dry_run then _ else _) in *.
  destruct (queries_on_fund_rows (FundCfg.code fc) log')
    as (A1 & A2 & A3 & _ & _ & A6 & _).
  destruct (queries_on_fund_rows (FundCfg.code fc) (trade_log w))
    as (B1 & B2 & B3 & _ & _ & B6 & _).
  unfold Portfolio.fund_row.
  rewrite A1, A2, A3, A6, B1, B2, B3, B6, Hrows. reflexivity.
Qed.

(** On a sound ledger [portfolio.csv] counts the extra share of a fund in
    [regular_shares] as well, and so twice in [total_shares]. *)
Theorem portfolio_row_on_sound_ledger log fc :
  sound_ledger log ->
  let f := FundCfg.code fc in
  Portfolio.regular_shares (Portfolio.fund_row log fc)
    = regular_sum f log + extra_sum f log /\
  Portfolio.extra_shares (Portfolio.fund_row log fc) = extra_sum f log /\
  Portfolio.total_shares (Portfolio.fund_row log fc)
    = regular_sum f log + 2 * extra_sum f log.
Proof.
  intros Hsound. cbv zeta.
  destruct (sound_ledger_counts_aux log (FundCfg.code fc) Hsound) as (Hc & He & _).
  cbn. rewrite Hc, He. repeat split; lia.
Qed.

End Soundness.

Section ProviderProperties.
Context {R : Type} (float_of_string : string -> option R).

Lemma parse_fold (items : list (gmap string string)) (acc : list (Provider.record R)) :
  fold_left (Provider.parse_item float_of_string) items acc = acc ++ fold_left (Provider.parse_item float_of_string) items [].
Proof.
  revert acc. induction items as [| item items IH]; intros acc; cbn [fold_left].
  - now rewrite app_nil_r.
  - rewrite IH, (IH ((Provider.parse_item float_of_string) [] item)), app_assoc. f_equal.
    unfold Provider.parse_item.
    destruct (_ && _); [| now rewrite app_nil_r].
    destruct (float_of_string _); [reflexivity | now rewrite app_nil_r].
Qed.

(** The answer lists the provider's items in reverse order: for a list in
    two parts, the records of the second part come first.  Its last
    record, the current price [fetch_current_nav] reads, is the first
    listed item that passes; items that do not pass are skipped. *)
Theorem provider_order :
  (forall l1 l2, (Provider.parse_history float_of_string) (l1 ++ l2) = (Provider.parse_history float_of_string) l2 ++ (Provider.parse_history float_of_string) l1) /\
  (forall item rest,
     Provider.current_of ((Provider.parse_history float_of_string) (item :: rest)) =
     match (Provider.parse_history float_of_string) [item] with
     | r :: _ => Some (Provider.date r, Provider.nav r)
     | [] => Provider.current_of ((Provider.parse_history float_of_string) rest)
     end).
Proof.
  assert (Happ : forall l1 l2,
            (Provider.parse_history float_of_string) (l1 ++ l2) = (Provider.parse_history float_of_string) l2 ++ (Provider.parse_history float_of_string) l1).
  { intros l1 l2. unfold Provider.parse_history.
    rewrite fold_left_app, parse_fold, rev_app_distr. reflexivity. }
  split; [exact Happ |].
  intros item rest. change (item :: rest) with ([item] ++ rest). rewrite Happ.
  unfold Provider.parse_history at 2 3. cbn [fold_left].
  unfold Provider.parse_item at 1 2.
  destruct (_ && _); [| cbn; now rewrite app_nil_r].
  destruct (float_of_string _) as [v|]; [| cbn; now rewrite app_nil_r].
  cbn [app rev]. unfold Provider.current_of. rewrite last_snoc. reflexivity.
Qed.

(** A record is in the answer exactly when some item of the provider's
    list has that date under "FSRQ", not empty, and under "DWJZ" a text,
    not empty, that [float] reads as that value.  So no record has an empty
    date, items that do not pass are dropped without an error, and the
    answer is never longer than the list. *)
Theorem provider_records (items : list (gmap string string)) :
  (forall r,
     In r ((Provider.parse_history float_of_string) items) <->
     exists item nav_str,
       In item items /\
       item !! "FSRQ" = Some (Provider.date r) /\ Provider.date r <> "" /\
       item !! "DWJZ" = Some nav_str /\ nav_str <> "" /\
       float_of_string nav_str = Some (Provider.nav r)) /\
  (length ((Provider.parse_history float_of_string) items) <= length items)%nat.
Proof.
  assert (Hone : forall item r,
            In r ((Provider.parse_item float_of_string) [] item) <->
            exists nav_str,
              item !! "FSRQ" = Some (Provider.date r) /\ Provider.date r <> "" /\
              item !! "DWJZ" = Some nav_str /\ nav_str <> "" /\
              float_of_string nav_str = Some (Provider.nav r)).
  { intros item r. unfold Provider.parse_item.
    assert (Hget : forall (k x : string),
              item !! k = Some x /\ x <> "" <->
              default "" (item !! k) = x /\ x <> "").
    { intros k x. destruct (item !! k); cbn; intuition congruence. }
    set (d := default "" (item !! "FSRQ")) in *.
    set (n := default "" (item !! "DWJZ")) in *.
    assert (Hrhs :
      (exists nav_str,
         item !! "FSRQ" = Some (Provider.date r) /\ Provider.date r <> "" /\
         item !! "DWJZ" = Some nav_str /\ nav_str <> "" /\
         float_of_string nav_str = Some (Provider.nav r)) <->
      d = Provider.date r /\ d <> "" /\ n <> "" /\
      float_of_string n = Some (Provider.nav r)).
    { split.
      - intros (x & H1 & H2 & H3 & H4 & H5).
        destruct (proj1 (Hget "FSRQ" _) (conj H1 H2)) as [E1 _].
        destruct (proj1 (Hget "DWJZ" _) (conj H3 H4)) as [E2 _].
        fold d in E1. fold n in E2. subst x. rewrite E1. auto.
      - intros (E1 & H2 & H4 & H5). exists n.
        destruct (proj2 (Hget "FSRQ" (Provider.date r))) as [H1 _].
        { fold d. rewrite <- E1. auto. }
        destruct (proj2 (Hget "DWJZ" n)) as [H3 _]; [fold n; auto |].
        rewrite <- E1 at 2. auto. }
    rewrite Hrhs. clear Hrhs Hget.
    destruct (String.eqb_spec d "") as [Ed | Ed]; cbn [negb andb].
    { cbn. split; [intros [] | intros (_ & ? & _); contradiction]. }
    destruct (String.eqb_spec n "") as [En | En]; cbn [negb].
    { cbn. split; [intros [] | intros (_ & _ & ? & _); contradiction]. }
    destruct (float_of_string n) as [v|] eqn:Hv; cbn.
    - split.
      + intros [<- | []]. cbn. auto.
      + intros (Hd' & _ & _ & [= Hv']). left.
        destruct r as [d' v']. cbn in *. congruence.
    - split; [intros [] |]. intros (_ & _ & _ & ?). discriminate. }
  assert (Hlen1 : forall item, (length ((Provider.parse_item float_of_string) [] item) <= 1)%nat).
  { intros item. unfold Provider.parse_item.
    destruct (_ && _); [| cbn; lia]. destruct (float_of_string _); cbn; lia. }
  unfold Provider.parse_history.
  induction items as [| item items IH]; cbn [fold_left].
  - cbn. split; [| lia]. intros r. split; [intros [] | intros (? & ? & [] & _)].
  - destruct IH as [IHin IHlen]. rewrite parse_fold. split.
    + intros r. rewrite <- in_rev, in_app_iff, Hone, in_rev, IHin. split.
      * intros [(n & Hr) | (it & n & Hin & Hr)].
        -- exists item, n. split; [now left | exact Hr].
        -- exists it, n. split; [now right | exact Hr].
      * intros (it & n & [<- | Hin] & Hr); [left | right]; eauto.
    + rewrite length_rev, length_app in *. specialize (Hlen1 item). cbn [length]. lia.
Qed.

End ProviderProperties.

Section Feedback.
Context {R : Type} `{Num R}.

Implicit Types (st : Strategy R) (w : World R) (fc : FundCfg.t).
Implicit Types (sig : Signal R) (sigs : list (Signal R)) (log : TradeLog R).

(** *** The window of the moving average *)

(** For a positive [ma_days] the moving average is taken over the most
    recent prices, as many as [ma_days] or all of them if there are fewer:
    the sum of that many last values divided by their number. *)
Theorem moving_average_window (nav_values : list R) (ma_days : Z) :
  0 < ma_days ->
  nav_values <> [] ->
  let window := Z.min (Z.of_nat (length nav_values)) ma_days in
  exists older recent,
    nav_values = older ++ recent /\
    Z.of_nat (length recent) = window /\
    moving_average nav_values window
      = Some (ndiv (py_sum recent) (of_Z window)).
Proof.
  intros Hdays Hne. cbv zeta.
  assert (Hlen : 0 < Z.of_nat (length nav_values)).
  { destruct nav_values; [contradiction | cbn; lia]. }
  set (window := Z.min _ _).
  assert (Hw : 0 < window <= Z.of_nat (length nav_values)) by (unfold window; lia).
  set (k := Z.to_nat (Z.max 0 (Z.of_nat (length nav_values) + - window))).
  exists (firstn k nav_values), (skipn k nav_values).
  split; [symmetry; apply firstn_skipn |].
  split; [rewrite length_skipn; unfold k; lia |].
  unfold moving_average, slice_from.
  destruct (window =? 0) eqn:E0; [lia |].
  destruct (- window <? 0) eqn:En; [reflexivity | lia].
Qed.

(** A negative [ma_days] is not refused: the prices after the first
    [-ma_days] are added up and divided by the negative [ma_days]. *)
Theorem moving_average_negative_days (nav_values : list R) (ma_days : Z) :
  ma_days < 0 ->
  moving_average nav_values (Z.min (Z.of_nat (length nav_values)) ma_days)
  = Some (ndiv (py_sum (skipn (Z.to_nat (- ma_days)) nav_values)) (of_Z ma_days)).
Proof.
  intros Hneg. rewrite Z.min_r by lia.
  unfold moving_average, slice_from.
  destruct (ma_days =? 0) eqn:E0; [lia |].
  destruct (- ma_days <? 0) eqn:En; [lia | reflexivity].
Qed.

(** *** From a signal to the next ledger *)

Lemma fund_rows_none f log :
  (forall row, In row log -> row_fund_code row <> f) -> fund_rows f log = [].
Proof.
  induction log as [| row log IH]; intros Hother; [reflexivity |].
  rewrite fund_rows_cons.
  assert (String.eqb (row_fund_code row) f = false) as ->.
  { apply String.eqb_neq. apply Hother. now left. }
  apply IH. intros r Hr. apply Hother. now right.
Qed.

Lemma sums_on_fund_rows f log :
  regular_sum f log = regular_sum f (fund_rows f log) /\
  extra_sum f log = extra_sum f (fund_rows f log).
Proof.
  induction log as [| row log [IHr IHe]]; [split; reflexivity |].
  rewrite fund_rows_cons, regular_sum_cons, extra_sum_cons.
  destruct (sums_of_row f row) as [Hr He]. rewrite Hr, He.
  destruct (String.eqb (row_fund_code row) f) eqn:E; cbn [andb].
  - rewrite (regular_sum_cons f row (fund_rows f log)),
            (extra_sum_cons f row (fund_rows f log)), Hr, He. cbn [andb].
    rewrite <- IHr, <- IHe. split; reflexivity.
  - rewrite <- IHr, <- IHe. split; reflexivity.
Qed.

(** With every fund listed once, the rows a run adds for a configured fund
    are the row of its signal, if the signal is acted on, and no other. *)
Lemma run_rows_of_fund st w (fcs : list FundCfg.t) sigs fc sig :
  Forall2 (fun fc sig => compute_signal st w fc = Some sig) fcs sigs ->
  NoDup (map FundCfg.code fcs) ->
  In fc fcs ->
  compute_signal st w fc = Some sig ->
  fund_rows (FundCfg.code fc) (map row_for (List.filter acted_on sigs))
  = if acted_on sig then [row_for sig] else [].
Proof.
  induction 1 as [| fc0 sig0 fcs sigs Hs0 Hrest IH]; intros Hnd Hin Hs;
    [destruct Hin |].
  cbn [map] in Hnd. apply NoDup_cons in Hnd. destruct Hnd as [Hfresh Hnd].
  rewrite list_elem_of_In in Hfresh.
  cbn [List.filter].
  destruct Hin as [-> | Hin].
  - assert (sig0 = sig) as -> by congruence.
    pose proof (fund_rows_none (FundCfg.code fc) _
                  (no_rows_for_other_fund st w _ fcs sigs Hrest Hfresh)) as Hnone.
    destruct (acted_on sig); [| exact Hnone].
    cbn [map]. rewrite fund_rows_cons. cbn [row_for row_fund_code].
    rewrite (compute_signal_fund_code _ _ _ _ Hs), String.eqb_refl, Hnone.
    reflexivity.
  - assert (Hne : FundCfg.code fc0 <> FundCfg.code fc).
    { intros E. apply Hfresh. rewrite E. now apply in_map. }
    destruct (acted_on sig0); [| now apply IH].
    cbn [map]. rewrite fund_rows_cons. cbn [row_for row_fund_code].
    rewrite (compute_signal_fund_code _ _ _ _ Hs0).
    apply String.eqb_neq in Hne. rewrite Hne. now apply IH.
Qed.

(** The feedback loop.  After a real run on a sound ledger, with every
    fund listed once, the shares of a configured fund have moved by
    exactly what its signal says: one share up for an executed buy,
    hold_buy or extra buy, one share down for an executed sell or extra
    sell, nothing for a signal that is not executable; and the extra
    shares move with the extra buy and the extra sell only. *)
Theorem run_moves_one_share (config : Config R) w sigs executed log' fc sig :
  run config w false = Some (sigs, executed, log') ->
  NoDup (map FundCfg.code (funds config)) ->
  sound_ledger (trade_log w) ->
  In fc (funds config) ->
  compute_signal (strategy config) w fc = Some sig ->
  let f := FundCfg.code fc in
  get_current_shares f log' =
    get_current_shares f (trade_log w)
    + (if can_execute sig
       then if str_in (signal_type sig) ["sell"; "extra_sell"] then -1 else 1
       else 0) /\
  get_extra_shares f log' =
    get_extra_shares f (trade_log w)
    + (if can_execute sig
       then if String.eqb (signal_type sig) "extra_buy" then 1
            else if String.eqb (signal_type sig) "extra_sell" then -1 else 0
       else 0).
Proof.
  intros Hrun Hnd Hsound Hin Hs. cbv zeta.
  pose proof (run_keeps_sound config w false sigs executed log' Hnd Hrun Hsound)
    as Hsound'.
  destruct (sound_ledger_counts_aux _ (FundCfg.code fc) Hsound) as (-> & -> & _).
  destruct (sound_ledger_counts_aux _ (FundCfg.code fc) Hsound') as (-> & -> & _).
  unfold run in Hrun.
  destruct (compute_signals config w) as [sigs'|] eqn:Hm; [| discriminate].
  cbn [mbind option_bind] in Hrun.
  unfold execute_signals in Hrun. rewrite execute_fold in Hrun.
  injection Hrun as <- <- <-.
  unfold compute_signals in Hm. apply mapM_Some in Hm.
  rewrite regular_sum_app, extra_sum_app.
  destruct (sums_on_fund_rows (FundCfg.code fc)
              (map row_for (List.filter acted_on sigs'))) as [-> ->].
  rewrite (run_rows_of_fund _ _ _ _ fc sig Hm Hnd Hin Hs).
  rewrite (computed_acted_on _ _ _ _ Hs).
  destruct (can_execute sig) eqn:Hcan; [| cbn; split; lia].
  destruct (sums_of_row (FundCfg.code fc) (row_for sig)) as [-> ->].
  cbn [row_for row_fund_code row_action row_shares_delta].
  rewrite (compute_signal_fund_code _ _ _ _ Hs), String.eqb_refl. cbn [andb].
  pose proof (compute_signal_kinds _ _ _ _ Hs) as Hk. cbv zeta in Hk.
  destruct Hk as (_ & Hexe & _). specialize (Hexe Hcan).
  unfold executable_types in Hexe. cbn in Hexe.
  destruct Hexe as [E | [E | [E | [E | [E | []]]]]]; rewrite <- E; cbn; split; lia.
Qed.

End Feedback.

(** * The further properties on the scenarios *)

Section MoreChecks.
Import Scenario.

Lemma report_counts_witness :
  compute_signals config extra_buy_world = Some [signal_x extra_buy_world] /\
  fst (execute_signals [signal_x extra_buy_world] false full_quota)
    = [signal_x extra_buy_world] /\
  Report.buy_count (fst (execute_signals [signal_x extra_buy_world] false full_quota))
    = 1.
Proof.
  assert (E : compute_signals config extra_buy_world
              = Some [signal_x extra_buy_world]) by eval_eq.
  split; [exact E |].
  destruct (report_counts config extra_buy_world _ false full_quota E)
    as (Hmarked & Hcount & _).
  split; [rewrite Hmarked; eval_eq |].
  assert (Hsell : Report.sell_count
                    (fst (execute_signals [signal_x extra_buy_world] false full_quota))
                  = 0) by eval_eq.
  rewrite Hsell in Hcount. rewrite Hmarked in Hcount at 2.
  rewrite Z.add_0_r in Hcount. rewrite Hcount. eval_eq.
Defined.

(** A run whose only signal is "none" (too little history) builds no
    report and leaves the ledger as it is. *)
Lemma silent_run_changes_nothing_witness :
  Report.report_built [signal_x (world full_quota 1000 short_history)] false = false /\
  execute_signals [signal_x (world full_quota 1000 short_history)] false full_quota
    = ([], full_quota).
Proof.
  assert (E : Report.report_built [signal_x (world full_quota 1000 short_history)]
                false = false) by eval_eq.
  split; [exact E |].
  exact (silent_run_changes_nothing _ false full_quota false E).
Defined.

(** Thresholds that list tier "high" only: a fund of tier "high" raises. *)
Lemma compute_signal_raises_witness :
  thresholds strat_high_only !! "mid" = None /\
  compute_signal strat_high_only (world [] 1000 dip) fund_h = None.
Proof.
  assert (E : thresholds strat_high_only !! "mid" = None) by eval_eq.
  split; [exact E |].
  apply compute_signal_raises; [discriminate | vm_compute; discriminate | now right].
Defined.

(** A row of the bond fund changes nothing for fund X. *)
Lemma ledger_queries_isolated_witness :
  fund_rows "X" (full_quota ++ [bond_row]) = fund_rows "X" full_quota /\
  get_current_shares "X" (full_quota ++ [bond_row]) = 10 /\
  get_avg_cost "X" (full_quota ++ [bond_row]) = get_avg_cost "X" full_quota.
Proof.
  assert (E : fund_rows "X" (full_quota ++ [bond_row]) = fund_rows "X" full_quota)
    by eval_eq.
  split; [exact E |].
  destruct (ledger_queries_isolated "X" _ _ E) as (Hc & _ & Ha & _).
  split; [rewrite Hc; eval_eq | exact Ha].
Defined.

Lemma compute_signal_isolated_witness :
  compute_signal strat (world (full_quota ++ [bond_row]) 1000 dip) fund_x
    = Some (signal_x extra_buy_world).
Proof.
  rewrite (compute_signal_isolated strat
             (world (full_quota ++ [bond_row]) 1000 dip) extra_buy_world fund_x);
    eval_eq.
Defined.

Lemma ledger_b_reachable : reachable [] ledger_b.
Proof.
  unfold ledger_b.
  destruct (run _ (world [] 1000 short_history) false)
    as [[[sigs executed] log']|] eqn:E; [| apply reachable_start].
  eapply reachable_run; [apply reachable_start | | | exact E].
  - reflexivity.
  - apply NoDup_singleton.
Qed.

Lemma sound_ledger_nil : sound_ledger (@nil (TradeRow Q)).
Proof.
  split; [constructor |]. intros f. cbn. lia.
Qed.

(** From the empty ledger, one run for the bond fund: the ledger holds one
    bought share and is sound. *)
Lemma sound_ledger_kept_witness :
  reachable [] ledger_b /\ length ledger_b = 1%nat /\ sound_ledger ledger_b.
Proof.
  split; [exact ledger_b_reachable |]. split; [eval_eq |].
  exact (sound_ledger_kept [] ledger_b ledger_b_reachable sound_ledger_nil).
Defined.

(** Fund X with ten regular shares and one extra share. *)
Lemma sound_after_extra_buy : sound_ledger after_extra_buy.
Proof.
  split.
  - unfold after_extra_buy, full_quota. cbn [repeat app].
    repeat (constructor; [vm_compute; auto 10 |]). constructor.
  - intros f. destruct (String.eqb_spec f "X") as [-> | Hother].
    + vm_compute. intuition discriminate.
    + destruct (sums_other_funds f after_extra_buy) as [-> ->]; [| lia].
      intros r Hin. vm_compute in Hin.
      repeat (destruct Hin as [<- | Hin]; [cbn; congruence |]). destruct Hin.
Qed.

Lemma sound_ledger_counts_witness :
  sound_ledger after_extra_buy /\
  regular_sum "X" after_extra_buy = 10 /\
  extra_sum "X" after_extra_buy = 1 /\
  get_current_shares "X" after_extra_buy = 11 /\
  get_extra_shares "X" after_extra_buy = 1.
Proof.
  split; [exact sound_after_extra_buy |].
  assert (Hr : regular_sum "X" after_extra_buy = 10) by eval_eq.
  assert (He : extra_sum "X" after_extra_buy = 1) by eval_eq.
  destruct (sound_ledger_counts after_extra_buy "X" sound_after_extra_buy)
    as (Hc & Hx & _).
  rewrite Hc, Hx, Hr, He. auto.
Defined.

(** The portfolio row of fund X then reads 11 regular shares of 10, one
    extra share, 12 in total. *)
Lemma portfolio_row_on_sound_ledger_witness :
  Portfolio.regular_shares (Portfolio.fund_row after_extra_buy fund_x) = 11 /\
  Portfolio.max_shares (Portfolio.fund_row after_extra_buy fund_x) = 10 /\
  Portfolio.extra_shares (Portfolio.fund_row after_extra_buy fund_x) = 1 /\
  Portfolio.total_shares (Portfolio.fund_row after_extra_buy fund_x) = 12.
Proof.
  destruct (portfolio_row_on_sound_ledger after_extra_buy fund_x sound_after_extra_buy)
    as (Hr & He & Ht).
  rewrite Hr, He, Ht. vm_compute. auto.
Defined.

(** The run that executes the extra buy of X leaves the portfolio row of
    the bond fund as it was. *)
Lemma portfolio_row_kept_witness :
  Portfolio.fund_row (ledger_after full_quota 1000) bond_b
    = Portfolio.fund_row full_quota bond_b.
Proof.
  unfold ledger_after.
  destruct (run config (world full_quota 1000 dip) false)
    as [[[sigs executed] log']|] eqn:E; [| reflexivity].
  apply (portfolio_row_kept config (world full_quota 1000 dip) false sigs executed log'
           bond_b E).
  right. intros sig Hin.
  assert (Hex : executed = [signal_x extra_buy_world]).
  { vm_compute in E. injection E as _ <- _. eval_eq. }
  rewrite Hex in Hin. destruct Hin as [<- | []]. vm_compute. discriminate.
Defined.

(** A first buy, with no buy on record, and a buy ten days after the last
    one at a deviation that overrides the cooldown: both executable. *)
Lemma buy_signal_executable_witness :
  signal_type (signal_x (world bought_10_days_ago 1000 deviation_21)) = "buy" /\
  can_execute (signal_x (world bought_10_days_ago 1000 deviation_21)) = true /\
  block_reasons (signal_x (world bought_10_days_ago 1000 deviation_21)) = [].
Proof.
  set (w := world bought_10_days_ago 1000 deviation_21).
  assert (Hty : signal_type (signal_x w) = "buy") by eval_eq.
  split; [exact Hty |].
  destruct (buy_signal_executable strat w fund_x (signal_x w) (deviation_x w)
              {| buy_pct := (-15)%Q; sell_pct := 20%Q |})
    as (_ & Hiff); try eval_eq.
  - rewrite Hty. left. reflexivity.
  - assert (Hcan : can_execute (signal_x w) = true) by eval_eq.
    split; [exact Hcan | apply Hiff; exact Hcan].
Defined.

(** Three prices and [ma_days] 2: the average of the last two. *)
Lemma moving_average_window_witness :
  exists older recent : list Q,
    [1; 2; 3]%Q = older ++ recent /\
    Z.of_nat (length recent) = 2 /\
    moving_average [1; 2; 3]%Q 2 = Some (ndiv (py_sum recent) (of_Z 2)).
Proof.
  apply (moving_average_window (R := Q) [1; 2; 3]%Q 2); [lia | discriminate].
Defined.

(** Three prices and [ma_days] -1: the last two added up, divided by -1. *)
Lemma moving_average_negative_days_witness :
  moving_average [1; 2; 3]%Q (Z.min 3 (-1))
  = Some (ndiv (py_sum [2; 3]%Q) (of_Z (-1))).
Proof.
  apply (moving_average_negative_days (R := Q) [1; 2; 3]%Q (-1)). lia.
Defined.

(** From the empty ledger, the bond fund's [hold_buy] is executed: one
    share held afterwards. *)
Lemma run_moves_one_share_witness :
  can_execute (signal_b (world [] 1000 short_history)) = true /\
  get_current_shares "B" ledger_b = 1 /\
  get_extra_shares "B" ledger_b = 0.
Proof.
  assert (Hcan : can_execute (signal_b (world [] 1000 short_history)) = true)
    by eval_eq.
  split; [exact Hcan |].
  unfold ledger_b.
  destruct (run _ (world [] 1000 short_history) false)
    as [[[sigs executed] log']|] eqn:E; [| vm_compute in E; discriminate E].
  destruct (run_moves_one_share _ _ _ _ _ bond_b
              (signal_b (world [] 1000 short_history)) E) as [Hc Hx].
  - apply NoDup_singleton.
  - exact sound_ledger_nil.
  - left. reflexivity.
  - eval_eq.
  - rewrite Hcan in Hc, Hx. change (FundCfg.code bond_b) with "B" in Hc, Hx.
    rewrite Hc, Hx. split; eval_eq.
Defined.

End MoreChecks.
